(** * GlobalITZone backend: booking lifecycle and coupon codes

    A shallow embedding of the booking routes (POST and GET /api/bookings,
    GET /api/bookings/:id, PATCH /api/bookings/:id/cancel and /complete,
    GET /api/bookings/coupon/:couponCode), of the Booking and Product
    models, and of the product routes the booking lifecycle meets (GET and
    DELETE /api/products/:id, the statistics, and the image and pagination
    arithmetic of the update and list routes).

    Conventions of the embedding.
    - The Mongo collections are finite maps from ObjectId to documents.
    - ObjectIds are numbers: a route parameter or body field that holds an
      id is the id its 24-character string denotes, so ill-formed id
      strings are not inputs of the model.
    - A JavaScript Number is an integer ([Z]); a Date is its time value in
      milliseconds. The clock is read as a natural number; a date sent by
      a client can lie before the epoch ([Z]).
    - A string holds the UTF-8 encoding of its text. Trimming removes the
      white space of ECMAScript, one to three bytes per code point; case
      conversion maps the ASCII letters, which are the letters of every
      string the program builds, and leaves other characters as they are.
    - [Number.prototype.toString(36)] is computed as V8 does, the engine
      of Node.js, with its double arithmetic: the language leaves the
      digits of a fraction in a radix other than 10 to the engine.
    - A field of the request body is a JSON value of the kind its schema
      path stores (a string, a number), tested by the route before
      Mongoose casts it; [bookingDate], for which JSON has no kind of its
      own, is a number or a string.
    - Every awaited call of a route can reject: the environment of a
      request lists, in order, the outcome of its awaited calls.
    - Requests run one after the other: a route is one step on the store.
    - An answer carries its status code, its message and the document it
      returns; the fields [populate] adds to the JSON are not modelled. *)

From Stdlib Require Import ZArith NArith Ascii String List Bool Lia.
From stdpp Require Import base option strings gmap fin_maps sorting.

Local Open Scope string_scope.

(** ** JavaScript string and number primitives *)

Module Js.

(** [c.toUpperCase()] on one ASCII character. *)
Definition upper_ascii (c : ascii) : ascii :=
  let n := N_of_ascii c in
  if ((97 <=? n) && (n <=? 122))%N then ascii_of_N (n - 32) else c.

(** [s.toUpperCase()]. *)
Fixpoint toUpperCase (s : string) : string :=
  match s with
  | EmptyString => EmptyString
  | String c s' => String (upper_ascii c) (toUpperCase s')
  end.

(** [s.substring(start, end)]: both indices are clamped to the length of
    [s] and swapped when [start > end]. *)
Definition substring (s : string) (start end_ : nat) : string :=
  String.substring (Nat.min start end_) (Nat.max start end_ - Nat.min start end_) s.

(** White space removed by [String.prototype.trim]: the code points of
    WhiteSpace and LineTerminator, in their UTF-8 encoding. One byte:
    U+0009 to U+000D and U+0020. *)
Definition is_space (c : ascii) : bool :=
  let n := N_of_ascii c in
  ((n =? 32) || ((9 <=? n) && (n <=? 13)))%N.

(** Two bytes: U+00A0, the no-break space (C2 A0). *)
Definition is_space2 (c1 c2 : ascii) : bool :=
  ((N_of_ascii c1 =? 194) && (N_of_ascii c2 =? 160))%N.

(** Three bytes: U+1680 (E1 9A 80), U+2000 to U+200A (E2 80 80 to 8A),
    U+2028 and U+2029 (E2 80 A8, A9), U+202F (E2 80 AF), U+205F
    (E2 81 9F), U+3000 (E3 80 80) and U+FEFF (EF BB BF). *)
Definition is_space3 (c1 c2 c3 : ascii) : bool :=
  let n1 := N_of_ascii c1 in
  let n2 := N_of_ascii c2 in
  let n3 := N_of_ascii c3 in
  (((n1 =? 225) && (n2 =? 154) && (n3 =? 128))
   || ((n1 =? 226) && (n2 =? 128)
       && (((128 <=? n3) && (n3 <=? 138)) || (n3 =? 168) || (n3 =? 169)
           || (n3 =? 175)))
   || ((n1 =? 226) && (n2 =? 129) && (n3 =? 159))
   || ((n1 =? 227) && (n2 =? 128) && (n3 =? 128))
   || ((n1 =? 239) && (n2 =? 187) && (n3 =? 191)))%N.

Fixpoint trimStart (s : string) : string :=
  match s with
  | EmptyString => EmptyString
  | String c1 s1 =>
      if is_space c1 then trimStart s1
      else
        match s1 with
        | EmptyString => s
        | String c2 s2 =>
            if is_space2 c1 c2 then trimStart s2
            else
              match s2 with
              | EmptyString => s
              | String c3 s3 => if is_space3 c1 c2 c3 then trimStart s3 else s
              end
        end
  end.

(** [trimEnd s] drops the trailing white space: a byte is kept unless
    everything from it to the end is white space. *)
Fixpoint trimEnd (s : string) : string :=
  match s with
  | EmptyString => EmptyString
  | String c s' =>
      match trimStart s with
      | EmptyString => EmptyString
      | _ => String c (trimEnd s')
      end
  end.

Definition trim (s : string) : string := trimEnd (trimStart s).

(** The digit characters of [Number.prototype.toString(radix)]. *)
Definition digit_chars : string := "0123456789abcdefghijklmnopqrstuvwxyz".

Definition digit36 (d : N) : ascii :=
  match String.get (N.to_nat d) digit_chars with
  | Some c => c
  | None => "?"%char
  end.

(** Integer part of [n.toString(36)]: the digits of [n], most significant
    first, accumulated in front of [acc]. Each round divides by 36, so
    [fuel] rounds render every number below [36 ^ fuel]. *)
Fixpoint int_digits36 (fuel : nat) (n : N) (acc : string) : string :=
  match fuel with
  | O => acc
  | S fuel' =>
      let acc' := String (digit36 (n mod 36)) acc in
      if (n / 36 =? 0)%N then acc' else int_digits36 fuel' (n / 36) acc'
  end.

(** [n.toString(36)] for a non-negative integer [n]. *)
Definition toString36 (n : N) : string :=
  int_digits36 (S (N.to_nat (N.log2 n))) n EmptyString.

(** A non-negative double with at most 53 fractional bits is [m / 2^53]. *)
Definition scale : N := 2 ^ 53.

(** The fraction digits are computed in double arithmetic. The doubles of
    that computation are multiples of [2^-106], written here as natural
    numbers of that unit. *)
Definition one : N := 2 ^ 106.
Definition half : N := 2 ^ 105.

(** The double nearest to [x]: [x] rounded to 53 significant bits, a tie
    going to the even neighbour. *)
Definition round_double (x : N) : N :=
  let ulp := (2 ^ (N.log2 x - 52))%N in
  let q := (x / ulp)%N in
  let r := (x mod ulp)%N in
  if ((ulp <? 2 * r) || ((2 * r =? ulp) && N.odd q))%N
  then ((q + 1) * ulp)%N
  else (q * ulp)%N.

(** The carry of a round-up through the digits written so far, the last
    one first: a digit below 35 takes it and ends the string, a 35 is
    dropped; [None] when the carry reaches the radix point. *)
Fixpoint carry_over (written : list N) : option (list N) :=
  match written with
  | [] => None
  | digit :: rest =>
      if (digit + 1 <? 36)%N then Some ((digit + 1)%N :: rest) else carry_over rest
  end.

(** The digit loop of V8's [DoubleToRadixCString] for radix 36:
    [do { fraction *= radix; delta *= radix; digit = (int) fraction;
    fraction -= digit; round to even } while (fraction >= delta)].
    [delta] is half the distance from the number to the next double: the
    loop stops at the first digits that identify the number. The result
    lists the digits, the last one first, or is [None] when the round-up
    carries into the integer part. *)
Fixpoint fraction_digits (fuel : nat) (fraction delta : N) (written : list N)
    : option (list N) :=
  match fuel with
  | O => Some written
  | S fuel' =>
      let fraction := round_double (fraction * 36) in
      let delta := round_double (delta * 36) in
      let digit := (fraction / one)%N in
      let written := digit :: written in
      let fraction := (fraction - digit * one)%N in
      if ((half <? fraction) || ((fraction =? half) && N.odd digit))%N
         && (one <? round_double (fraction + delta))%N
      then carry_over written
      else if (delta <=? fraction)%N
           then fraction_digits fuel' fraction delta written
           else Some written
  end.

Fixpoint digits_string (digits : list N) : string :=
  match digits with
  | [] => EmptyString
  | d :: rest => String (digit36 d) (digits_string rest)
  end.

(** [x.toString(36)] for the double [x = m / 2^53]: the integer part, and
    a radix point with the fraction digits when the fraction is not below
    [delta]. [delta] starts at half the distance to the next double,
    [2 ^ (log2 m) / 2^106], and grows 36-fold in every round, so the loop
    ends within 22 rounds. *)
Definition numToString36 (m : N) : string :=
  let integer := (m / scale)%N in
  let fraction := ((m mod scale) * scale)%N in
  let delta := (2 ^ N.log2 m)%N in
  if (fraction <? delta)%N then toString36 integer
  else
    match fraction_digits 22 fraction delta [] with
    | Some written => toString36 integer +:+ "." +:+ digits_string (rev written)
    | None => toString36 (integer + 1)
    end.

End Js.

(** ** The coupon code generator (models/Booking.js) *)

(** [generateCouponCode]: [now] is the value of [Date.now()] and [rnd] the
    value of [Math.random()] as the double [rnd / 2^53]. *)
Definition generateCouponCode (now : N) (rnd : N) : string :=
  let prefix := "GIT" in
  let timestamp := Js.toUpperCase (Js.toString36 now) in
  let random := Js.toUpperCase (Js.substring (Js.numToString36 rnd) 2 6) in
  prefix +:+ "-" +:+ timestamp +:+ "-" +:+ random.


(** *** The shape of a coupon code *)

(** The character class [[A-Z0-9]]. *)
Definition is_upper_alnum (c : ascii) : bool :=
  let n := N_of_ascii c in
  (((48 <=? n) && (n <=? 57)) || ((65 <=? n) && (n <=? 90)))%N.

(** The digits of [toString(36)]: [[a-z0-9]]. *)
Definition is_lower_alnum (c : ascii) : bool :=
  let n := N_of_ascii c in
  (((48 <=? n) && (n <=? 57)) || ((97 <=? n) && (n <=? 122)))%N.

Fixpoint all_chars (p : ascii -> bool) (s : string) : bool :=
  match s with
  | EmptyString => true
  | String c s' => p c && all_chars p s'
  end.

(** [span p s]: the longest prefix of [s] in the class [p], and the rest. *)
Fixpoint span (p : ascii -> bool) (s : string) : string * string :=
  match s with
  | EmptyString => (EmptyString, EmptyString)
  | String c s' =>
      if p c then let '(a, b) := span p s' in (String c a, b)
      else (EmptyString, s)
  end.

Fixpoint strip_prefix (p s : string) : option string :=
  match p, s with
  | EmptyString, _ => Some s
  | String a p', String b s' =>
      if Ascii.eqb a b then strip_prefix p' s' else None
  | String _ _, EmptyString => None
  end.

(** Whole-string match of [GIT-[A-Z0-9]+-[A-Z0-9]{lo,hi}]. The class has
    no dash, so the timestamp part is the longest run after the prefix. *)
Definition matches_coupon (lo hi : nat) (s : string) : bool :=
  match strip_prefix "GIT-" s with
  | None => false
  | Some rest =>
      match span is_upper_alnum rest with
      | (EmptyString, _) => false
      | (String _ _, String "-" suffix) =>
          all_chars is_upper_alnum suffix
          && (lo <=? String.length suffix)%nat
          && (String.length suffix <=? hi)%nat
      | (String _ _, _) => false
      end
  end.

(** The pattern of the specification: [GIT-[A-Z0-9]+-[A-Z0-9]{4}]. *)
Definition matches_coupon_pattern (s : string) : bool := matches_coupon 4 4 s.

(** ** Data model (models/Booking.js, models/Product.js) *)

Abbreviation ObjectId := N (only parsing).
Abbreviation Date := N (only parsing).

(** [status]: enum ['confirmed', 'cancelled', 'completed']. *)
Inductive Status := confirmed | cancelled | completed.

(** [availability]: enum ['Available', 'Out of Stock', 'Discontinued']. *)
Inductive Availability := Available | OutOfStock | Discontinued.

(** [role] of the authenticated user: 'user' or 'admin'. *)
Inductive Role := user | admin.

#[global] Instance Status_eq_dec : EqDecision Status.
Proof. solve_decision. Defined.
#[global] Instance Availability_eq_dec : EqDecision Availability.
Proof. solve_decision. Defined.
#[global] Instance Role_eq_dec : EqDecision Role.
Proof. solve_decision. Defined.

(** A booking document. The store keys it by its [_id]; [notes] and the
    [createdAt]/[updatedAt] stamps, which no route reads or writes, are
    left out. [bookingDate] is undefined ([None]) in a document built from
    a value that is not a date. *)
Record Booking := {
  productId : ObjectId;
  productName : string;
  productImage : string;
  productCategory : string;
  userId : ObjectId;
  customerName : string;
  customerPhone : string;
  customerAddress : string;
  quantity : Z;
  bookingDate : option Z;
  orderDate : Date;
  actualPrice : Z;
  strikePrice : Z;
  sellingPrice : Z;
  totalAmount : Z;
  discountPercentage : Z;
  couponCode : string;
  status : Status;
  cancelledAt : option Date;
  cancellationReason : option string;
  completedAt : option Date
}.

(** A product document, with the fields the modelled routes touch. *)
Record Product := {
  name : string;
  category : string;
  availability : Availability;
  images : list string;
  imagePublicIds : list string;
  isActive : bool;
  views : Z;
  likes : Z
}.

(** A user document as [populate("userId", "name email phone")] sees it. *)
Record User := {
  userName : string;
  userEmail : string;
  userPhone : string
}.

(** The three collections. *)
Record Store := {
  products : gmap N Product;
  bookings : gmap N Booking;
  users : gmap N User
}.

(** [req.user], set by the authentication middleware. *)
Record Identity := {
  user_id : ObjectId;
  role : Role
}.

(** Field assignments on a document. *)
Definition set_status (v : Status) (b : Booking) : Booking :=
  {| productId := productId b; productName := productName b;
     productImage := productImage b; productCategory := productCategory b;
     userId := userId b; customerName := customerName b;
     customerPhone := customerPhone b; customerAddress := customerAddress b;
     quantity := quantity b; bookingDate := bookingDate b;
     orderDate := orderDate b; actualPrice := actualPrice b;
     strikePrice := strikePrice b; sellingPrice := sellingPrice b;
     totalAmount := totalAmount b; discountPercentage := discountPercentage b;
     couponCode := couponCode b; status := v;
     cancelledAt := cancelledAt b; cancellationReason := cancellationReason b;
     completedAt := completedAt b |}.

Definition set_cancelledAt (v : option Date) (b : Booking) : Booking :=
  {| productId := productId b; productName := productName b;
     productImage := productImage b; productCategory := productCategory b;
     userId := userId b; customerName := customerName b;
     customerPhone := customerPhone b; customerAddress := customerAddress b;
     quantity := quantity b; bookingDate := bookingDate b;
     orderDate := orderDate b; actualPrice := actualPrice b;
     strikePrice := strikePrice b; sellingPrice := sellingPrice b;
     totalAmount := totalAmount b; discountPercentage := discountPercentage b;
     couponCode := couponCode b; status := status b;
     cancelledAt := v; cancellationReason := cancellationReason b;
     completedAt := completedAt b |}.

Definition set_completedAt (v : option Date) (b : Booking) : Booking :=
  {| productId := productId b; productName := productName b;
     productImage := productImage b; productCategory := productCategory b;
     userId := userId b; customerName := customerName b;
     customerPhone := customerPhone b; customerAddress := customerAddress b;
     quantity := quantity b; bookingDate := bookingDate b;
     orderDate := orderDate b; actualPrice := actualPrice b;
     strikePrice := strikePrice b; sellingPrice := sellingPrice b;
     totalAmount := totalAmount b; discountPercentage := discountPercentage b;
     couponCode := couponCode b; status := status b;
     cancelledAt := cancelledAt b; cancellationReason := cancellationReason b;
     completedAt := v |}.

Definition set_cancellationReason (v : option string) (b : Booking) : Booking :=
  {| productId := productId b; productName := productName b;
     productImage := productImage b; productCategory := productCategory b;
     userId := userId b; customerName := customerName b;
     customerPhone := customerPhone b; customerAddress := customerAddress b;
     quantity := quantity b; bookingDate := bookingDate b;
     orderDate := orderDate b; actualPrice := actualPrice b;
     strikePrice := strikePrice b; sellingPrice := sellingPrice b;
     totalAmount := totalAmount b; discountPercentage := discountPercentage b;
     couponCode := couponCode b; status := status b;
     cancelledAt := cancelledAt b; cancellationReason := v;
     completedAt := completedAt b |}.

Definition set_isActive (v : bool) (p : Product) : Product :=
  {| name := name p; category := category p; availability := availability p;
     images := images p; imagePublicIds := imagePublicIds p;
     isActive := v; views := views p; likes := likes p |}.

Definition set_views (v : Z) (p : Product) : Product :=
  {| name := name p; category := category p; availability := availability p;
     images := images p; imagePublicIds := imagePublicIds p;
     isActive := isActive p; views := v; likes := likes p |}.

Definition set_bookings (m : gmap N Booking) (s : Store) : Store :=
  {| products := products s; bookings := m; users := users s |}.

Definition set_products (m : gmap N Product) (s : Store) : Store :=
  {| products := m; bookings := bookings s; users := users s |}.

(** ** Errors, responses and the request environment *)

(** What an awaited call can throw. *)
Inductive Error :=
  | ValidationError (paths : list string) (* Mongoose validators failed on [paths] *)
  | DuplicateKey (index : string)         (* E11000 on a unique index *)
  | TypeError                             (* property read on null *)
  | CastError                             (* value not castable to the schema type *)
  | StoreError.                           (* any other rejection of the call *)

Inductive Payload :=
  | NoPayload
  | WithBooking (booking : Booking)
  | WithProduct (product : Product)
  | WithError (error : Error).

(** [res.status(statusCode).json({ message, ... })]; a body without a
    message has [message = ""]. *)
Record Response := {
  statusCode : nat;
  message : string;
  payload : Payload
}.

(** What a request reads from outside the store: the clock (one reading
    per request), the random number generator ([random / 2^53] is the
    value of [Math.random()]), the ObjectId generated for a new document,
    the outcome of each awaited call in order ([None]: the call goes
    through; [Some e]: it rejects with [e]; past the end of the list calls
    go through), and the reading of dates: [parseDate s] is the time value
    of the Date that Mongoose's date cast builds from the string [s], which
    the parser of the engine and the time zone of the host decide, and
    [None] when that Date is invalid. *)
Record Env := {
  now : Date;
  random : N;
  newId : ObjectId;
  outcomes : list (option Error);
  parseDate : string -> option Z
}.

(** ** Awaited computations: a state and error monad *)

Inductive Result (A : Type) :=
  | Ok (a : A)
  | Throw (e : Error).
Arguments Ok {A} a.
Arguments Throw {A} e.

Definition World : Type := Store * list (option Error).

Definition Async (A : Type) : Type := World -> Result A * World.

Definition ret {A} (a : A) : Async A := fun w => (Ok a, w).

Definition throw {A} (e : Error) : Async A := fun w => (Throw e, w).

Definition bind {A B} (m : Async A) (k : A -> Async B) : Async B :=
  fun w =>
    match m w with
    | (Ok a, w') => k a w'
    | (Throw e, w') => (Throw e, w')
    end.

#[global] Instance Async_ret : MRet Async := @ret.
#[global] Instance Async_bind : MBind Async := fun A B k m => bind m k.

Definition get_store : Async Store := fun w => (Ok (fst w), w).

Definition put_store (s : Store) : Async unit := fun w => (Ok tt, (s, snd w)).

(** One round trip to a collaborator: it consumes the next outcome. *)
Definition await : Async unit :=
  fun w =>
    match snd w with
    | Some e :: rest => (Throw e, (fst w, rest))
    | None :: rest => (Ok tt, (fst w, rest))
    | [] => (Ok tt, w)
    end.

(** [try { body } catch (error) { handler }] of a route, run on a store. *)
Definition try_catch (body : Async Response) (handler : Error -> Response)
    (outs : list (option Error)) (s : Store) : Response * Store :=
  match body (s, outs) with
  | (Ok r, w) => (r, fst w)
  | (Throw e, w) => (handler e, fst w)
  end.

(** ** Model operations (Mongoose calls on Booking and Product) *)

(** [Product.findById(id)] and [Booking.findById(id)]. *)
Definition Product_findById (id : ObjectId) : Async (option Product) :=
  await;; s ← get_store; mret (products s !! id).

Definition Booking_findById (id : ObjectId) : Async (option Booking) :=
  await;; s ← get_store; mret (bookings s !! id).

(** [Booking.findOne({ couponCode: code })]: the first document of the
    collection with that code. *)
Definition has_coupon (code : string) (entry : N * Booking) : bool :=
  String.eqb (couponCode (snd entry)) code.

Definition Booking_findOne_couponCode (code : string) : Async (option (N * Booking)) :=
  await;; s ← get_store; mret (List.find (has_coupon code) (map_to_list (bookings s))).

(** The schema validators of Booking, run on every path by [save] and
    [create]; the result lists the failing paths in schema order. A string
    path is [required]: it fails when empty (an undefined value is the
    empty string here). [status] is in its enum by its type. *)
Definition required_string (path value : string) : list string :=
  if String.eqb value "" then [path] else [].

Definition required_value {A} (path : string) (value : option A) : list string :=
  match value with
  | Some _ => []
  | None => [path]
  end.

Definition in_range (path : string) (lo : Z) (hi : option Z) (value : Z) : list string :=
  if (value <? lo)%Z then [path]
  else match hi with
       | Some h => if (h <? value)%Z then [path] else []
       | None => []
       end.

Definition invalid_paths (b : Booking) : list string :=
  required_string "productName" (productName b)
  ++ required_string "productImage" (productImage b)
  ++ required_string "productCategory" (productCategory b)
  ++ required_string "customerName" (customerName b)
  ++ required_string "customerPhone" (customerPhone b)
  ++ required_string "customerAddress" (customerAddress b)
  ++ in_range "quantity" 1 None (quantity b)
  ++ required_value "bookingDate" (bookingDate b)
  ++ in_range "actualPrice" 0 None (actualPrice b)
  ++ in_range "strikePrice" 0 None (strikePrice b)
  ++ in_range "sellingPrice" 0 None (sellingPrice b)
  ++ in_range "totalAmount" 0 None (totalAmount b)
  ++ in_range "discountPercentage" 0 (Some 100%Z) (discountPercentage b).

Definition validate (b : Booking) : Async unit :=
  match invalid_paths b with
  | [] => mret tt
  | paths => throw (ValidationError paths)
  end.

(** [doc.save()] of a booking read from the store: validate, then write
    the document back under its id. *)
Definition Booking_save (id : ObjectId) (doc : Booking) : Async Booking :=
  validate doc;;
  await;;
  s ← get_store;
  put_store (set_bookings (<[id := doc]> (bookings s)) s);;
  mret doc.

(** The unique index on [couponCode]. *)
Definition coupon_taken (code : string) (m : gmap N Booking) : bool :=
  match List.find (has_coupon code) (map_to_list m) with
  | Some _ => true
  | None => false
  end.

(** [xs.includes(x)] on strings. *)
Definition includes (xs : list string) (x : string) : bool :=
  existsb (String.eqb x) xs.

(** The paths a new document is rejected for: the ones invalidated when
    it was built, by a value that did not cast to the type of its path,
    and then the ones whose validators fail. A path is listed once. *)
Definition rejected_paths (invalidated : list string) (b : Booking) : list string :=
  invalidated
  ++ List.filter (fun path => negb (includes invalidated path)) (invalid_paths b).

Definition validate_new (invalidated : list string) (b : Booking) : Async unit :=
  match rejected_paths invalidated b with
  | [] => mret tt
  | paths => throw (ValidationError paths)
  end.

(** [Booking.create(obj)]: build the document, validate it, then insert
    it under the new id; the store rejects a duplicate [_id] and a
    duplicate [couponCode]. [doc] is the document built from [obj] and
    [invalidated] lists the paths of [obj] that did not cast. *)
Definition Booking_create (id : ObjectId) (invalidated : list string)
    (doc : Booking) : Async Booking :=
  validate_new invalidated doc;;
  await;;
  s ← get_store;
  match bookings s !! id with
  | Some _ => throw (DuplicateKey "_id")
  | None =>
      if coupon_taken (couponCode doc) (bookings s)
      then throw (DuplicateKey "couponCode")
      else put_store (set_bookings (<[id := doc]> (bookings s)) s);; mret doc
  end.

(** [bookingSchema.methods.updateStatus]. *)
Definition updateStatus (now : Date) (id : ObjectId) (newStatus : Status)
    (this : Booking) : Async Booking :=
  let this := set_status newStatus this in
  let this :=
    match newStatus with
    | cancelled => set_cancelledAt (Some now) this
    | completed => set_completedAt (Some now) this
    | confirmed => this
    end in
  Booking_save id this.

(** [Product.findByIdAndUpdate(id, { $inc: { views: 1 } })]. *)
Definition Product_incViews (id : ObjectId) : Async unit :=
  await;;
  s ← get_store;
  match products s !! id with
  | Some p => put_store (set_products (<[id := set_views (views p + 1) p]> (products s)) s)
  | None => mret tt
  end.

(** [product.save()]. The Product validators are not modelled: a failing
    validation is one of the rejections [await] can produce. *)
Definition Product_save (id : ObjectId) (doc : Product) : Async Product :=
  await;;
  s ← get_store;
  put_store (set_products (<[id := doc]> (products s)) s);;
  mret doc.

(** [Promise.all(ids.map(id => deleteImage(id)))]: the image storage is
    outside the store; the awaited promise resolves or rejects. *)
Definition deleteImages (ids : list string) : Async unit := await.

(** ** The booking routes *)

(** A date as a client sends it in JSON: its time value, or a string. *)
Inductive DateInput :=
  | TimeValue (t : Z)
  | DateString (s : string).

(** [req.body] of POST /api/bookings as the route reads it, before any
    cast. A field is absent or null ([None]) or holds the JSON value a
    client sends for its schema path: a string for a String path, a number
    for a Number path, the id string of a product for [productId] (taken
    as the id it denotes) and a number or a string for [bookingDate]. A
    value of another kind, which Mongoose would cast (a numeral string in
    a Number path, a number in a String path), is not an input of the
    model. *)
Record CreateBody := {
  body_productId : option ObjectId;
  body_productName : option string;
  body_productImage : option string;
  body_productCategory : option string;
  body_customerName : option string;
  body_customerPhone : option string;
  body_customerAddress : option string;
  body_quantity : option Z;
  body_bookingDate : option DateInput;
  body_actualPrice : option Z;
  body_strikePrice : option Z;
  body_sellingPrice : option Z;
  body_totalAmount : option Z;
  body_discountPercentage : option Z
}.

(** JavaScript truthiness of a body field: a string is truthy unless
    empty, a number unless 0; an id string has 24 characters. *)
Definition truthy_string (v : option string) : bool :=
  match v with
  | Some s => negb (String.eqb s "")
  | None => false
  end.

Definition truthy_number (v : option Z) : bool :=
  match v with
  | Some z => negb (z =? 0)%Z
  | None => false
  end.

Definition truthy_id (v : option ObjectId) : bool :=
  match v with
  | Some _ => true
  | None => false
  end.

Definition truthy_date (v : option DateInput) : bool :=
  match v with
  | Some (TimeValue t) => negb (t =? 0)%Z
  | Some (DateString s) => negb (String.eqb s "")
  | None => false
  end.

(** [v || 0]. *)
Definition or_zero (v : option Z) : Z :=
  if truthy_number v then default 0%Z v else 0%Z.

(** The test of "Validate required fields". *)
Definition missing_required (body : CreateBody) : bool :=
  negb (truthy_id (body_productId body))
  || negb (truthy_string (body_customerName body))
  || negb (truthy_string (body_customerPhone body))
  || negb (truthy_string (body_customerAddress body))
  || negb (truthy_number (body_quantity body))
  || negb (truthy_date (body_bookingDate body)).

(** The cast of a Date path. A number is a time value, and a date when it
    lies within 100,000,000 days of the epoch; a string is read by
    [parseDate]. [None]: the value is not a date. *)
Definition max_time : Z := 8640000000000000.

Definition valid_time (t : Z) : option Z :=
  if (Z.abs t <=? max_time)%Z then Some t else None.

Definition castDate (env : Env) (v : DateInput) : option Z :=
  match v with
  | TimeValue t => valid_time t
  | DateString s => parseDate env s ≫= valid_time
  end.

(** The paths of the body whose value does not cast to the type of the
    path: with the kinds of [CreateBody], the date alone. *)
Definition uncastable (env : Env) (body : CreateBody) : list string :=
  match body_bookingDate body with
  | Some v =>
      match castDate env v with
      | Some _ => []
      | None => ["bookingDate"]
      end
  | None => []
  end.

(** The document [Booking.create] builds from the object of the POST
    handler: the fields of the request body cast to their paths, [userId]
    from [req.user], the schema setters ([trim], [uppercase]) and defaults
    ([orderDate], [couponCode]). The handler has tested the six required
    fields when it is built. *)
Definition new_booking (env : Env) (requester : Identity) (body : CreateBody) : Booking :=
  {| productId := default 0%N (body_productId body);
     productName := default "" (body_productName body);
     productImage := default "" (body_productImage body);
     productCategory := default "" (body_productCategory body);
     userId := user_id requester;
     customerName := Js.trim (default "" (body_customerName body));
     customerPhone := Js.trim (default "" (body_customerPhone body));
     customerAddress := Js.trim (default "" (body_customerAddress body));
     quantity := default 0%Z (body_quantity body);
     bookingDate := body_bookingDate body ≫= castDate env;
     orderDate := now env;
     actualPrice := or_zero (body_actualPrice body);
     strikePrice := or_zero (body_strikePrice body);
     sellingPrice := or_zero (body_sellingPrice body);
     totalAmount := or_zero (body_totalAmount body);
     discountPercentage := or_zero (body_discountPercentage body);
     couponCode := Js.toUpperCase (generateCouponCode (now env) (random env));
     status := confirmed;
     cancelledAt := None;
     cancellationReason := None;
     completedAt := None |}.

Definition json (code : nat) (msg : string) (p : Payload) : Response :=
  {| statusCode := code; message := msg; payload := p |}.

(** POST /api/bookings *)
Definition createBooking (env : Env) (requester : Identity) (body : CreateBody)
    : Store -> Response * Store :=
  try_catch
    (if missing_required body
     then mret (json 400 "Please provide all required fields" NoPayload)
     else
       product ← Product_findById (default 0%N (body_productId body));
       match product with
       | None => mret (json 404 "Product not found" NoPayload)
       | Some product =>
           if negb (bool_decide (availability product = Available))
           then mret (json 400 "Product is not available for booking" NoPayload)
           else
             booking ← Booking_create (newId env) (uncastable env body)
                         (new_booking env requester body);
             mret (json 201 "Booking created successfully" (WithBooking booking))
       end)
    (fun error => json 500 "Failed to create booking" (WithError error))
    (outcomes env).

(** [populate("userId", ...)] replaces the owner id by the user document,
    or by null when there is none; the route then reads [userId._id]. *)
Definition populated_owner (s : Store) (booking : Booking) : Async ObjectId :=
  match users s !! userId booking with
  | Some _ => mret (userId booking)
  | None => throw TypeError
  end.

(** GET /api/bookings/:id *)
Definition getBooking (env : Env) (requester : Identity) (id : ObjectId)
    : Store -> Response * Store :=
  try_catch
    (booking ← Booking_findById id;
     match booking with
     | None => mret (json 404 "Booking not found" NoPayload)
     | Some booking =>
         s ← get_store;
         owner ← populated_owner s booking;
         let isAdmin := bool_decide (role requester = admin) in
         let isOwner := bool_decide (owner = user_id requester) in
         if negb isAdmin && negb isOwner
         then mret (json 403 "Not authorized to view this booking" NoPayload)
         else mret (json 200 "" (WithBooking booking))
     end)
    (fun error => json 500 "Failed to fetch booking" (WithError error))
    (outcomes env).

(** [req.body.reason || (isAdmin ? ... : ...)] *)
Definition reason_or_default (reason : option string) (isAdmin : bool) : string :=
  if truthy_string reason then default "" reason
  else if isAdmin then "Cancelled by Admin" else "Cancelled by customer".

(** PATCH /api/bookings/:id/cancel *)
Definition cancelBooking (env : Env) (requester : Identity) (id : ObjectId)
    (reason : option string) : Store -> Response * Store :=
  try_catch
    (booking ← Booking_findById id;
     match booking with
     | None => mret (json 404 "Booking not found" NoPayload)
     | Some booking =>
         let isAdmin := bool_decide (role requester = admin) in
         let isOwner := bool_decide (userId booking = user_id requester) in
         if negb isAdmin && negb isOwner
         then mret (json 403 "Not authorized to cancel this booking" NoPayload)
         else if bool_decide (status booking = cancelled)
         then mret (json 400 "Booking is already cancelled" NoPayload)
         else if bool_decide (status booking = completed)
         then mret (json 400 "Cannot cancel a completed booking" NoPayload)
         else
           booking ← updateStatus (now env) id cancelled booking;
           let booking :=
             set_cancellationReason (Some (reason_or_default reason isAdmin)) booking in
           booking ← Booking_save id booking;
           mret (json 200 "Booking cancelled successfully" (WithBooking booking))
     end)
    (fun error => json 500 "Failed to cancel booking" (WithError error))
    (outcomes env).

(** PATCH /api/bookings/:id/complete *)
Definition completeBooking (env : Env) (requester : Identity) (id : ObjectId)
    : Store -> Response * Store :=
  try_catch
    (if negb (bool_decide (role requester = admin))
     then mret (json 403 "Not authorized. Admin access required." NoPayload)
     else
       booking ← Booking_findById id;
       match booking with
       | None => mret (json 404 "Booking not found" NoPayload)
       | Some booking =>
           if bool_decide (status booking = completed)
           then mret (json 400 "Booking is already marked as completed" NoPayload)
           else if bool_decide (status booking = cancelled)
           then mret (json 400 "Cannot complete a cancelled booking" NoPayload)
           else
             booking ← updateStatus (now env) id completed booking;
             booking ← Booking_save id booking;
             mret (json 200 "Booking marked as completed successfully" (WithBooking booking))
       end)
    (fun error => json 500 "Failed to complete booking" (WithError error))
    (outcomes env).

(** GET /api/bookings/coupon/:couponCode *)
Definition getBookingByCoupon (env : Env) (requester : Identity) (couponCode : string)
    : Store -> Response * Store :=
  try_catch
    (found ← Booking_findOne_couponCode (Js.toUpperCase couponCode);
     match found with
     | None => mret (json 404 "Booking not found with this coupon code" NoPayload)
     | Some (_, booking) =>
         s ← get_store;
         owner ← populated_owner s booking;
         let isAdmin := bool_decide (role requester = admin) in
         let isOwner := bool_decide (owner = user_id requester) in
         if negb isAdmin && negb isOwner
         then mret (json 403 "Not authorized to view this booking" NoPayload)
         else mret (json 200 "" (WithBooking booking))
     end)
    (fun error => json 500 "Failed to fetch booking" (WithError error))
    (outcomes env).

(** ** The product routes *)

(** The [catch] of the product routes. *)
Definition product_catch (msg : string) (error : Error) : Response :=
  match error with
  | CastError => json 400 "Invalid product ID" NoPayload
  | _ => json 500 msg NoPayload
  end.

(** GET /api/products/:id *)
Definition getProduct (env : Env) (id : ObjectId) : Store -> Response * Store :=
  try_catch
    (product ← Product_findById id;
     match product with
     | None => mret (json 404 "Product not found" NoPayload)
     | Some product =>
         if negb (isActive product)
         then mret (json 404 "Product not available" NoPayload)
         else
           Product_incViews id;;
           mret (json 200 "" (WithProduct product))
     end)
    (product_catch "Server error while fetching product")
    (outcomes env).

(** DELETE /api/products/:id, behind the admin middleware. *)
Definition deleteProduct (env : Env) (id : ObjectId) : Store -> Response * Store :=
  try_catch
    (product ← Product_findById id;
     match product with
     | None => mret (json 404 "Product not found" NoPayload)
     | Some product =>
         (if negb (Nat.eqb (length (imagePublicIds product)) 0)
          then deleteImages (imagePublicIds product)
          else mret tt);;
         let product := set_isActive false product in
         Product_save id product;;
         mret (json 200 "Product deleted successfully" NoPayload)
     end)
    (product_catch "Server error while deleting product")
    (outcomes env).

(** ** Requests and runs *)

Inductive Request :=
  | CreateBooking (requester : Identity) (body : CreateBody)
  | GetBooking (requester : Identity) (id : ObjectId)
  | CancelBooking (requester : Identity) (id : ObjectId) (reason : option string)
  | CompleteBooking (requester : Identity) (id : ObjectId)
  | GetBookingByCoupon (requester : Identity) (code : string)
  | GetProduct (id : ObjectId)
  | DeleteProduct (id : ObjectId).

Definition handle (env : Env) (r : Request) : Store -> Response * Store :=
  match r with
  | CreateBooking requester body => createBooking env requester body
  | GetBooking requester id => getBooking env requester id
  | CancelBooking requester id reason => cancelBooking env requester id reason
  | CompleteBooking requester id => completeBooking env requester id
  | GetBookingByCoupon requester code => getBookingByCoupon env requester code
  | GetProduct id => getProduct env id
  | DeleteProduct id => deleteProduct env id
  end.

(** The store after a sequence of requests, each with its environment. *)
Fixpoint run (trace : list (Env * Request)) (s : Store) : Store :=
  match trace with
  | [] => s
  | (env, r) :: rest => run rest (snd (handle env r s))
  end.

(** ** Vocabulary of the properties *)

(** [resolves n outs]: the [n]-th awaited call of the request goes through. *)
Definition resolves (n : nat) (outs : list (option Error)) : bool :=
  match outs !! n with
  | Some (Some _) => false
  | _ => true
  end.

(** The value of a base-36 digit character, and of a numeral read from
    the left starting from [acc]. *)
Definition digit_value (c : ascii) : N :=
  let n := N_of_ascii c in
  if ((48 <=? n) && (n <=? 57))%N then n - 48 else n - 87.

Fixpoint numeral_value (s : string) (acc : N) : N :=
  match s with
  | EmptyString => acc
  | String c s' => numeral_value s' (acc * 36 + digit_value c)
  end.

(** The edges of the status machine, and staying in place. *)
Definition allowed_transition (from to : Status) : Prop :=
  to = from \/ (from = confirmed /\ (to = cancelled \/ to = completed)).

Definition terminal (st : Status) : Prop := st = cancelled \/ st = completed.

(** [cancelledAt] is set iff the status is cancelled, [completedAt] iff it
    is completed. *)
Definition timestamps_consistent (b : Booking) : Prop :=
  (is_Some (cancelledAt b) <-> status b = cancelled)
  /\ (is_Some (completedAt b) <-> status b = completed).

(** The requester may act on the booking: admin or owner. *)
Definition authorized (requester : Identity) (b : Booking) : Prop :=
  role requester = admin \/ userId b = user_id requester.

(** No two bookings of the collection share a coupon code. *)
Definition coupons_unique (m : gmap N Booking) : Prop :=
  forall i j bi bj,
    m !! i = Some bi -> m !! j = Some bj ->
    couponCode bi = couponCode bj -> i = j.

(** Every stored coupon code is its own upper-case form. *)
Definition coupons_uppercase (m : gmap N Booking) : Prop :=
  forall i b, m !! i = Some b -> Js.toUpperCase (couponCode b) = couponCode b.

(** [b'] is [b] after [updateStatus] at time [now], with or without a
    cancellation reason: what a transition may change. *)
Definition transition_of (now : N) (b b' : Booking) : Prop :=
  status b = confirmed
  /\ couponCode b' = couponCode b
  /\ userId b' = userId b
  /\ ((status b' = cancelled /\ cancelledAt b' = Some now
       /\ completedAt b' = completedAt b)
      \/ (status b' = completed /\ completedAt b' = Some now
          /\ cancelledAt b' = cancelledAt b)).

(** What one request can do to the booking collection. *)
Inductive bookings_effect (env : Env) (m m' : gmap N Booking) : Prop :=
  | eff_same : m' = m -> bookings_effect env m m'
  | eff_insert requester body :
      m !! newId env = None ->
      coupon_taken (couponCode (new_booking env requester body)) m = false ->
      m' = <[newId env := new_booking env requester body]> m ->
      bookings_effect env m m'
  | eff_transition id b b' :
      m !! id = Some b ->
      transition_of (now env) b b' ->
      m' = <[id := b']> m ->
      bookings_effect env m m'.

(** ** Sample data *)

Module Sample.

Definition laptop : Product :=
  {| name := "Laptop"; category := "Laptops"; availability := Available;
     images := ["laptop-front.jpg"; "laptop-back.jpg"];
     imagePublicIds := ["img-1"; "img-2"];
     isActive := true; views := 0; likes := 0 |}.

Definition router : Product :=
  {| name := "Router"; category := "Networking"; availability := OutOfStock;
     images := ["router-1.jpg"; "router-2.jpg"];
     imagePublicIds := ["img-3"; "img-4"];
     isActive := true; views := 3; likes := 0 |}.

Definition ann : Identity := {| user_id := 7; role := user |}.
Definition bob : Identity := {| user_id := 8; role := user |}.
Definition root : Identity := {| user_id := 1; role := admin |}.

Definition account (n : string) : User :=
  {| userName := n; userEmail := n +:+ "@example.com"; userPhone := "9999999999" |}.

Definition store0 : Store :=
  {| products := {[ 1%N := laptop; 2%N := router ]};
     bookings := ∅;
     users := {[ 1%N := account "root"; 7%N := account "ann"; 8%N := account "bob" ]} |}.

(** Ann books the laptop; the product fields of the body are her own. *)
Definition body0 : CreateBody :=
  {| body_productId := Some 1%N;
     body_productName := Some "Gaming Console";
     body_productImage := Some "console.png";
     body_productCategory := Some "Gaming";
     body_customerName := Some " Ann ";
     body_customerPhone := Some "9876543210";
     body_customerAddress := Some "12 Main Street";
     body_quantity := Some 2%Z;
     body_bookingDate := Some (TimeValue 1704067200000);
     body_actualPrice := Some 500%Z;
     body_strikePrice := None;
     body_sellingPrice := Some 450%Z;
     body_totalAmount := Some 900%Z;
     body_discountPercentage := Some 10%Z |}.

(** The same request for the router, which is out of stock. *)
Definition body1 : CreateBody :=
  {| body_productId := Some 2%N;
     body_productName := Some "Router";
     body_productImage := Some "router-1.jpg";
     body_productCategory := Some "Networking";
     body_customerName := Some "Ann";
     body_customerPhone := Some "9876543210";
     body_customerAddress := Some "12 Main Street";
     body_quantity := Some 1%Z;
     body_bookingDate := Some (TimeValue 1704067200000);
     body_actualPrice := None;
     body_strikePrice := None;
     body_sellingPrice := None;
     body_totalAmount := None;
     body_discountPercentage := None |}.

(** The dates of the samples as an engine reads them: an ISO date is
    midnight UTC of its day; the word is no date. *)
Definition calendar (s : string) : option Z :=
  if String.eqb s "2024-01-01" then Some 1704067200000%Z
  else if String.eqb s "1970-01-01T00:00:00.000Z" then Some 0%Z
  else None.

(** Clock at 1700000000000 ms, [Math.random()] = 101/256, all calls go
    through. *)
Definition env0 : Env :=
  {| now := 1700000000000; random := 101 * 2 ^ 45; newId := 100; outcomes := [];
     parseDate := calendar |}.

(** A later request with the same clock and random values. *)
Definition env1 : Env :=
  {| now := 1700000000000; random := 101 * 2 ^ 45; newId := 101; outcomes := [];
     parseDate := calendar |}.

(** The request of [env1] with another random number: 1/2. *)
Definition env3 : Env :=
  {| now := 1700000000000; random := 2 ^ 52; newId := 101; outcomes := [];
     parseDate := calendar |}.

(** A request whose second awaited call rejects. *)
Definition env2 : Env :=
  {| now := 1700000000500; random := 2 ^ 52; newId := 102;
     outcomes := [None; Some StoreError]; parseDate := calendar |}.

(** Ann's booking as created, and as cancelled by her. *)
Definition booking0 : Booking := new_booking env0 ann body0.

Definition booking0_cancelled : Booking :=
  set_cancellationReason (Some "Cancelled by customer")
    (set_cancelledAt (Some 1700000000000%N) (set_status cancelled booking0)).

(** The laptop after its soft delete, and the store holding it. *)
Definition retired : Product := set_isActive false laptop.

Definition store3 : Store :=
  set_products (<[ 1%N := retired ]> (products store0)) store0.

(** The store after Ann's booking, and after its cancellation. *)
Definition store1 : Store := set_bookings {[ 100%N := booking0 ]} store0.
Definition store2 : Store := set_bookings {[ 100%N := booking0_cancelled ]} store0.

End Sample.

(** ** The listing route of the bookings *)

(** [sort({ orderDate: -1 })]: a document comes before the ones ordered
    earlier. Documents ordered at the same instant come in the order the
    sort leaves them in. *)
Definition newer_first (a b : Booking) : Prop := (orderDate b <= orderDate a)%N.

#[global] Instance newer_first_dec : RelDecision newer_first.
Proof. intros a b. unfold newer_first. apply _. Defined.

(** [Booking.find(filter).sort({ orderDate: -1 })]. *)
Definition Booking_find (filter : Booking -> bool) : Async (list Booking) :=
  await;;
  s ← get_store;
  mret (merge_sort newer_first
          (List.filter filter (snd <$> map_to_list (bookings s)))).

(** The answer of the listing route: [{ success, count, bookings }], or
    the answer of its [catch]. *)
Inductive Listing :=
  | Listed (count : nat) (docs : list Booking)
  | NotListed (answer : Response).

(** GET /api/bookings *)
Definition listBookings (env : Env) (requester : Identity) (s : Store)
    : Listing * Store :=
  let body : Async Listing :=
    bookings ← (if bool_decide (role requester = admin)
                then Booking_find (fun _ => true)
                else Booking_find
                       (fun b => bool_decide (userId b = user_id requester)));
    mret (Listed (length bookings) bookings) in
  match body (s, outcomes env) with
  | (Ok l, w) => (l, fst w)
  | (Throw e, w) =>
      (NotListed (json 500 "Failed to fetch bookings" (WithError e)), fst w)
  end.

(** ** The image lists of a product update (PUT /api/products/:id) *)

(** An entry of [req.files]. *)
Record UploadedFile := {
  file_path : string;
  file_filename : string
}.

(** [l.filter((x, index) => f(x, index))], counting from [index]. *)
Fixpoint filter_indexed {A} (f : A -> nat -> bool) (index : nat) (l : list A)
    : list A :=
  match l with
  | [] => []
  | x :: l' =>
      if f x index then x :: filter_indexed f (S index) l'
      else filter_indexed f (S index) l'
  end.

(** What the update route computes from the stored product, the public
    ids the caller keeps ([existingImagePublicIds || []]) and the new
    files: the two lists it writes and the public ids it deletes from the
    image storage. *)
Record ImageUpdate := {
  new_images : list string;
  new_imagePublicIds : list string;
  publicIdsToDelete : list string
}.

Definition reconcile_images (product : Product)
    (existingPublicIdsToKeep : list string) (files : list UploadedFile)
    : ImageUpdate :=
  let newImagePaths := List.map file_path files in
  let newImagePublicIds := List.map file_filename files in
  let toDelete :=
    List.filter (fun id => negb (includes existingPublicIdsToKeep id))
      (imagePublicIds product) in
  let keptImagePublicIds :=
    List.filter (fun id => includes existingPublicIdsToKeep id)
      (imagePublicIds product) in
  let keptImagePaths :=
    filter_indexed
      (fun path index =>
         match nth_error (imagePublicIds product) index with
         | Some id => includes existingPublicIdsToKeep id
         | None => false
         end)
      0 (images product) in
  {| new_images := keptImagePaths ++ newImagePaths;
     new_imagePublicIds := keptImagePublicIds ++ newImagePublicIds;
     publicIdsToDelete := toDelete |}.

(** The test on the number of images, of the create route (on
    [req.files.length]) and of the update route (on
    [updateData.images.length]): the 400 answer, or none. *)
Definition image_count_error (n : nat) : option Response :=
  if (n <? 2)%nat
  then Some (json 400 "Minimum 2 product images are required" NoPayload)
  else if (5 <? n)%nat
  then Some (json 400 "Maximum 5 product images are allowed" NoPayload)
  else None.

(** ** Pagination of the product list (GET /api/products) *)

(** [pagination] of the answer. [page] and [limit] are the parsed query
    values, which the validators keep at 1 or more; [total] is
    [countDocuments(filter)]. *)
Record Pagination := {
  currentPage : N;
  totalPages : N;
  totalProducts : N;
  hasNextPage : bool;
  hasPrevPage : bool
}.

(** [(parseInt(page) - 1) * parseInt(limit)] *)
Definition page_skip (page limit : N) : N := ((page - 1) * limit)%N.

(** [Math.ceil(total / limit)] for [limit > 0]. *)
Definition ceil_div (total limit : N) : N := ((total + limit - 1) / limit)%N.

Definition pagination (page limit total : N) : Pagination :=
  {| currentPage := page;
     totalPages := ceil_div total limit;
     totalProducts := total;
     hasNextPage := (page <? ceil_div total limit)%N;
     hasPrevPage := (1 <? page)%N |}.

(** [find(filter).sort(sortObj).skip(skip).limit(limit)]: the page cut
    out of the matching documents in sort order. *)
Definition page_of {A} (page limit : N) (matching : list A) : list A :=
  take (N.to_nat limit) (drop (N.to_nat (page_skip page limit)) matching).

(** ** Counter methods of the Product model (models/Product.js) *)

Definition set_likes (v : Z) (p : Product) : Product :=
  {| name := name p; category := category p; availability := availability p;
     images := images p; imagePublicIds := imagePublicIds p;
     isActive := isActive p; views := views p; likes := v |}.

(** [productSchema.methods.incrementViews] *)
Definition incrementViews (id : ObjectId) (this : Product) : Async Product :=
  let this := set_views (views this + 1) this in
  Product_save id this.

(** [productSchema.methods.toggleLike] *)
Definition toggleLike (id : ObjectId) (this : Product) : Async Product :=
  let this := set_likes (likes this + 1) this in
  Product_save id this.

(** ** Catalog statistics (GET /api/products/stats/overview) *)

Module Stats.

(** [overview] of the answer; [avgPrice] is left out with the price. *)
Record Overview := {
  totalProducts : Z;
  activeProducts : Z;
  totalViews : Z;
  totalLikes : Z
}.

(** [{ $sum: expr }] over the documents of a group. *)
Definition sum_over (expr : Product -> Z) (docs : list Product) : Z :=
  foldr (fun p acc => (expr p + acc)%Z) 0%Z docs.

(** [$group] with [_id: null]: one group with all the documents, and no
    group when there is no document. *)
Definition group_all (docs : list Product) : list Overview :=
  match docs with
  | [] => []
  | _ =>
      [ {| totalProducts := sum_over (fun _ => 1%Z) docs;
           activeProducts := sum_over (fun p => if isActive p then 1%Z else 0%Z) docs;
           totalViews := sum_over views docs;
           totalLikes := sum_over likes docs |} ]
  end.

(** [Product.aggregate([{ $group: ... }])] *)
Definition Product_aggregate_overview : Async (list Overview) :=
  await;; s ← get_store; mret (group_all (snd <$> map_to_list (products s))).

(** The second aggregate of the route, by category; its result is not
    modelled. *)
Definition Product_aggregate_categories : Async unit := await.

Inductive Answer :=
  | Stats (overview : Overview)
  | NoStats (answer : Response).

(** GET /api/products/stats/overview, behind the admin middleware. *)
Definition statsOverview (env : Env) (s : Store) : Answer * Store :=
  let body : Async Answer :=
    stats ← Product_aggregate_overview;
    Product_aggregate_categories;;
    mret (Stats (match stats with
                 | overview :: _ => overview
                 | [] => {| totalProducts := 0; activeProducts := 0;
                            totalViews := 0; totalLikes := 0 |}
                 end)) in
  match body (s, outcomes env) with
  | (Ok a, w) => (a, fst w)
  | (Throw e, w) =>
      (NoStats (json 500 "Server error while fetching product statistics" NoPayload),
       fst w)
  end.

(** The four sums over a catalog. *)
Definition totals (m : gmap N Product) : Overview :=
  let docs := snd <$> map_to_list m in
  {| totalProducts := sum_over (fun _ => 1%Z) docs;
     activeProducts := sum_over (fun p => if isActive p then 1%Z else 0%Z) docs;
     totalViews := sum_over views docs;
     totalLikes := sum_over likes docs |}.

End Stats.

(** ** More vocabulary *)

(** The bookings a requester may see. *)
Definition visible_to (requester : Identity) (b : Booking) : bool :=
  bool_decide (role requester = admin)
  || bool_decide (userId b = user_id requester).

(** [c.toLowerCase()] on one ASCII character. *)
Definition lower_ascii (c : ascii) : ascii :=
  let n := N_of_ascii c in
  if ((65 <=? n) && (n <=? 90))%N then ascii_of_N (n + 32) else c.

(** [p'] shows what [p] shows: the fields of a product other than
    [isActive] and [views]. *)
Definition same_listing (p p' : Product) : Prop :=
  name p' = name p /\ category p' = category p
  /\ availability p' = availability p /\ images p' = images p
  /\ imagePublicIds p' = imagePublicIds p /\ likes p' = likes p.

(** A booking without its lifecycle fields: what no route changes once
    the booking is stored. *)
Definition order_of (b : Booking) : Booking :=
  set_status confirmed
    (set_cancelledAt None (set_cancellationReason None (set_completedAt None b))).

(** The documents the cancel and complete routes write. *)
Definition stamped_cancelled (now : N) (b : Booking) : Booking :=
  set_cancelledAt (Some now) (set_status cancelled b).

Definition stamped_completed (now : N) (b : Booking) : Booking :=
  set_completedAt (Some now) (set_status completed b).

(** What one request does to the booking collection, document by
    document. *)
Inductive bookings_step (env : Env) (m m' : gmap N Booking) : Prop :=
  | step_same : m' = m -> bookings_step env m m'
  | step_create requester body :
      m !! newId env = None ->
      m' = <[newId env := new_booking env requester body]> m ->
      bookings_step env m m'
  | step_cancel id b :
      m !! id = Some b -> status b = confirmed ->
      m' = <[id := stamped_cancelled (now env) b]> m ->
      bookings_step env m m'
  | step_cancel_reason id b r :
      m !! id = Some b -> status b = confirmed ->
      m' = <[id := set_cancellationReason (Some r) (stamped_cancelled (now env) b)]> m ->
      bookings_step env m m'
  | step_complete id b :
      m !! id = Some b -> status b = confirmed ->
      m' = <[id := stamped_completed (now env) b]> m ->
      bookings_step env m m'.

(** More sample data: a second booking, by Bob, ordered later. *)
Module Sample2.

Definition env4 : Env :=
  {| now := 1700000500000; random := 77 * 2 ^ 45; newId := 101; outcomes := [];
     parseDate := Sample.calendar |}.

Definition booking1 : Booking := new_booking env4 Sample.bob Sample.body0.

Definition store4 : Store :=
  set_bookings {[ 100%N := Sample.booking0; 101%N := booking1 ]} Sample.store0.

(** Ann's request with a customer name of spaces, and with quantity 0. *)
Definition body_blank : CreateBody :=
  {| body_productId := Some 1%N;
     body_productName := Some "Laptop";
     body_productImage := Some "laptop-front.jpg";
     body_productCategory := Some "Laptops";
     body_customerName := Some "   ";
     body_customerPhone := Some "9876543210";
     body_customerAddress := Some "12 Main Street";
     body_quantity := Some 1%Z;
     body_bookingDate := Some (TimeValue 1704067200000);
     body_actualPrice := None;
     body_strikePrice := None;
     body_sellingPrice := None;
     body_totalAmount := None;
     body_discountPercentage := None |}.

Definition body_zero : CreateBody :=
  {| body_productId := Some 1%N;
     body_productName := Some "Laptop";
     body_productImage := Some "laptop-front.jpg";
     body_productCategory := Some "Laptops";
     body_customerName := Some "Ann";
     body_customerPhone := Some "9876543210";
     body_customerAddress := Some "12 Main Street";
     body_quantity := Some 0%Z;
     body_bookingDate := Some (TimeValue 1704067200000);
     body_actualPrice := None;
     body_strikePrice := None;
     body_sellingPrice := None;
     body_totalAmount := None;
     body_discountPercentage := None |}.

(** Ann's request for the laptop with another customer name or another
    booking date. *)
Definition named (n : string) (body : CreateBody) : CreateBody :=
  {| body_productId := body_productId body;
     body_productName := body_productName body;
     body_productImage := body_productImage body;
     body_productCategory := body_productCategory body;
     body_customerName := Some n;
     body_customerPhone := body_customerPhone body;
     body_customerAddress := body_customerAddress body;
     body_quantity := body_quantity body;
     body_bookingDate := body_bookingDate body;
     body_actualPrice := body_actualPrice body;
     body_strikePrice := body_strikePrice body;
     body_sellingPrice := body_sellingPrice body;
     body_totalAmount := body_totalAmount body;
     body_discountPercentage := body_discountPercentage body |}.

Definition dated (d : DateInput) (body : CreateBody) : CreateBody :=
  {| body_productId := body_productId body;
     body_productName := body_productName body;
     body_productImage := body_productImage body;
     body_productCategory := body_productCategory body;
     body_customerName := body_customerName body;
     body_customerPhone := body_customerPhone body;
     body_customerAddress := body_customerAddress body;
     body_quantity := body_quantity body;
     body_bookingDate := Some d;
     body_actualPrice := body_actualPrice body;
     body_strikePrice := body_strikePrice body;
     body_sellingPrice := body_sellingPrice body;
     body_totalAmount := body_totalAmount body;
     body_discountPercentage := body_discountPercentage body |}.

(** A no-break space (U+00A0) and an ideographic space (U+3000). *)
Definition wide_blank : string :=
  String "194" (String "160" (String "227" (String "128" (String "128" EmptyString)))).

Definition body_wide_blank : CreateBody := named wide_blank Sample.body0.

(** The epoch as a number and as an ISO string, and a word that is no
    date. *)
Definition body_epoch : CreateBody := dated (TimeValue 0) Sample.body0.

Definition body_epoch_iso : CreateBody :=
  dated (DateString "1970-01-01T00:00:00.000Z") Sample.body0.

Definition body_soon : CreateBody := dated (DateString "soon") Sample.body0.

(** A request whose third awaited call rejects. *)
Definition env5 : Env :=
  {| now := 1700000900000; random := 5 * 2 ^ 50; newId := 103;
     outcomes := [None; None; Some StoreError]; parseDate := Sample.calendar |}.

Definition files2 : list UploadedFile :=
  [ {| file_path := "laptop-side.jpg"; file_filename := "img-9" |} ].

End Sample2.

(** * Properties *)

Ltac async :=
  unfold try_catch, updateStatus, Product_findById, Booking_findById,
    Booking_findOne_couponCode, Booking_save, Booking_create,
    Product_incViews, Product_save, deleteImages, populated_owner, validate,
    validate_new,
    mbind, mret, Async_bind, Async_ret, bind, ret, throw, get_store,
    put_store, await in *;
  cbn [fst snd] in *.

#[local] Arguments new_booking : simpl never.

Ltac negated_tests :=
  repeat match goal with
         | H : bool_decide _ = false |- _ => apply bool_decide_eq_false_1 in H
         | H : bool_decide _ = true |- _ => apply bool_decide_eq_true_1 in H
         end.

Ltac settle_transition :=
  eapply eff_transition;
  [ eassumption | | rewrite ?insert_insert_eq; reflexivity ];
  unfold transition_of; cbn; destruct (status _) eqn:?; try done;
  repeat split; auto.

Ltac settle_step :=
  first
    [ by apply step_same
    | by (eapply step_create; eauto)
    | by (eapply step_cancel_reason; [eassumption| |rewrite ?insert_insert_eq; reflexivity];
          destruct (status _); done)
    | by (eapply step_cancel; [eassumption| |reflexivity]; destruct (status _); done)
    | by (eapply step_complete; [eassumption| |rewrite ?insert_insert_eq; reflexivity];
          destruct (status _); done) ].

Ltac decide_tests :=
  repeat match goal with
         | |- context [bool_decide (?x = ?y)] =>
             first [ rewrite (bool_decide_eq_true_2 (x = y)) by reflexivity
                   | rewrite (bool_decide_eq_false_2 (x = y)) by discriminate ]
         end.

Ltac round_at H :=
  unfold Js.round_double; rewrite H;
  match goal with
  | |- context [(2 ^ (?c - 52))%N] =>
      let v := eval vm_compute in (2 ^ (c - 52))%N in
      change (2 ^ (c - 52))%N with v
  end.

Ltac split_at_one :=
  match goal with
  | |- (?v / ?o < 36 /\ _)%N =>
      pose proof (N.div_mod v o ltac:(discriminate)) as Hdm1;
      pose proof (N.mod_lt v o ltac:(discriminate)) as Hr1;
      set (d1 := (v / o)%N) in *; set (m1 := (v mod o)%N) in *;
      clearbody d1 m1
  end.

(** ** Strings and the coupon code *)

Section CouponShape.

Lemma append_cons c s t : String c s +:+ t = String c (s +:+ t).
Proof. reflexivity. Qed.

Lemma append_empty t : EmptyString +:+ t = t.
Proof. reflexivity. Qed.

Lemma upper_ascii_idempotent c : Js.upper_ascii (Js.upper_ascii c) = Js.upper_ascii c.
Proof. destruct c as [[] [] [] [] [] [] [] []]; vm_compute; reflexivity. Qed.

Lemma toUpperCase_idempotent s : Js.toUpperCase (Js.toUpperCase s) = Js.toUpperCase s.
Proof.
  induction s as [|c s IH]; cbn; [reflexivity|].
  now rewrite upper_ascii_idempotent, IH.
Qed.

Lemma toUpperCase_app s t :
  Js.toUpperCase (s +:+ t) = Js.toUpperCase s +:+ Js.toUpperCase t.
Proof.
  induction s as [|c s IH]; [reflexivity|].
  rewrite append_cons. cbn. rewrite append_cons. f_equal. exact IH.
Qed.

Lemma upper_of_lower_alnum c :
  is_lower_alnum c = true -> is_upper_alnum (Js.upper_ascii c) = true.
Proof. destruct c as [[] [] [] [] [] [] [] []]; vm_compute; intros; congruence. Qed.

Lemma upper_of_upper_alnum c :
  is_upper_alnum c = true -> Js.upper_ascii c = c.
Proof. destruct c as [[] [] [] [] [] [] [] []]; vm_compute; intros; congruence. Qed.

Lemma digit36_lower d : (d < 36)%N -> is_lower_alnum (Js.digit36 d) = true.
Proof.
  intros Hd. unfold Js.digit36.
  assert (Hn : (N.to_nat d < 36)%nat) by lia.
  destruct (N.to_nat d) as [|n]; [reflexivity|].
  do 35 (destruct n as [|n]; [reflexivity|]). lia.
Qed.

Lemma all_chars_app p s t :
  all_chars p (s +:+ t) = all_chars p s && all_chars p t.
Proof.
  induction s as [|c s IH]; [reflexivity|].
  rewrite append_cons. cbn. rewrite IH. now rewrite andb_assoc.
Qed.

Lemma all_upper_of_lower s :
  all_chars is_lower_alnum s = true ->
  all_chars is_upper_alnum (Js.toUpperCase s) = true.
Proof.
  induction s as [|c s IH]; cbn; [reflexivity|].
  intros [Hc Hs]%andb_true_iff.
  now rewrite upper_of_lower_alnum, IH.
Qed.

Lemma toUpperCase_fixed s :
  all_chars is_upper_alnum s = true -> Js.toUpperCase s = s.
Proof.
  induction s as [|c s IH]; cbn; [reflexivity|].
  intros [Hc Hs]%andb_true_iff.
  now rewrite upper_of_upper_alnum, IH.
Qed.

Lemma toUpperCase_length s : String.length (Js.toUpperCase s) = String.length s.
Proof. induction s as [|c s IH]; cbn; [reflexivity|]. now rewrite IH. Qed.

(** The integer digits are lower-case alphanumerics, and there is one at
    least. *)
Lemma int_digits36_lower fuel n acc :
  all_chars is_lower_alnum acc = true ->
  all_chars is_lower_alnum (Js.int_digits36 fuel n acc) = true.
Proof.
  revert n acc. induction fuel as [|fuel IH]; intros n acc Hacc; cbn; [assumption|].
  assert (Hd : is_lower_alnum (Js.digit36 (n mod 36)) = true).
  { apply digit36_lower. apply N.mod_lt. discriminate. }
  destruct (n / 36 =? 0)%N.
  - cbn. now rewrite Hd, Hacc.
  - apply IH. cbn. now rewrite Hd, Hacc.
Qed.

Lemma int_digits36_nonempty fuel n acc :
  Js.int_digits36 (S fuel) n acc <> EmptyString.
Proof.
  revert n acc. induction fuel as [|fuel IH]; intros n acc.
  - cbn. destruct (n / 36 =? 0)%N; discriminate.
  - change (Js.int_digits36 (S (S fuel)) n acc)
      with (if (n / 36 =? 0)%N
            then String (Js.digit36 (n mod 36)) acc
            else Js.int_digits36 (S fuel) (n / 36) (String (Js.digit36 (n mod 36)) acc)).
    destruct (n / 36 =? 0)%N; [discriminate|apply IH].
Qed.

Lemma toString36_lower n : all_chars is_lower_alnum (Js.toString36 n) = true.
Proof. apply int_digits36_lower. reflexivity. Qed.

Lemma toString36_nonempty n : Js.toString36 n <> EmptyString.
Proof. apply int_digits36_nonempty. Qed.

Lemma digit_value_digit36 d : (d < 36)%N -> digit_value (Js.digit36 d) = d.
Proof.
  intros Hd. rewrite <- (N2Nat.id d) at 2. unfold Js.digit36.
  assert (Hn : (N.to_nat d < 36)%nat) by lia.
  destruct (N.to_nat d) as [|n]; [reflexivity|].
  do 35 (destruct n as [|n]; [reflexivity|]). lia.
Qed.

Lemma numeral_value_app s t acc :
  numeral_value (s +:+ t) acc = numeral_value t (numeral_value s acc).
Proof.
  revert acc. induction s as [|c s IH]; intros acc; [reflexivity|].
  rewrite append_cons. cbn. apply IH.
Qed.

(** The digits produced for [n], in front of [acc]. *)
Lemma int_digits36_value fuel n acc :
  (n < 36 ^ N.of_nat (S fuel))%N ->
  exists ds,
    Js.int_digits36 (S fuel) n acc = ds +:+ acc
    /\ forall a, numeral_value ds a = (a * 36 ^ N.of_nat (String.length ds) + n)%N.
Proof.
  revert n acc. induction fuel as [|fuel IH]; intros n acc Hn.
  - exists (String (Js.digit36 (n mod 36)) EmptyString).
    change (36 ^ N.of_nat 1)%N with 36%N in Hn.
    cbn [Js.int_digits36]. rewrite N.div_small by assumption. cbn [N.eqb].
    split; [reflexivity|]. intros a. cbn [numeral_value String.length].
    rewrite digit_value_digit36 by (apply N.mod_lt; discriminate).
    rewrite N.mod_small by assumption. change (36 ^ N.of_nat 1)%N with 36%N. lia.
  - change (Js.int_digits36 (S (S fuel)) n acc)
      with (if (n / 36 =? 0)%N
            then String (Js.digit36 (n mod 36)) acc
            else Js.int_digits36 (S fuel) (n / 36) (String (Js.digit36 (n mod 36)) acc)).
    assert (Hd : digit_value (Js.digit36 (n mod 36)) = (n mod 36)%N)
      by (apply digit_value_digit36, N.mod_lt; discriminate).
    pose proof (N.div_mod n 36 ltac:(discriminate)) as Hdm.
    destruct (N.eqb_spec (n / 36) 0) as [Hz|Hnz].
    + exists (String (Js.digit36 (n mod 36)) EmptyString).
      split; [reflexivity|]. intros a. cbn [numeral_value String.length].
      rewrite Hd. change (36 ^ N.of_nat 1)%N with 36%N. lia.
    + destruct (IH (n / 36)%N (String (Js.digit36 (n mod 36)) acc)) as (ds & Heq & Hval).
      { apply N.Div0.div_lt_upper_bound.
        rewrite <- N.pow_succ_r'. rewrite <- Nat2N.inj_succ. exact Hn. }
      exists (ds +:+ String (Js.digit36 (n mod 36)) EmptyString).
      split.
      * rewrite Heq. clear. induction ds as [|c ds IHds]; [reflexivity|].
        rewrite !append_cons. f_equal. exact IHds.
      * intros a. rewrite numeral_value_app, Hval. cbn [numeral_value].
        rewrite Hd.
        assert (Hlen : String.length (ds +:+ String (Js.digit36 (n mod 36)) EmptyString)
                       = S (String.length ds)).
        { clear. induction ds as [|c ds IHds]; [reflexivity|].
          rewrite append_cons. cbn [String.length]. now rewrite IHds. }
        rewrite Hlen, Nat2N.inj_succ, N.pow_succ_r'. lia.
Qed.

(** [toString36] has fuel enough: read back, the numeral is the number. *)
Lemma toString36_value n : numeral_value (Js.toString36 n) 0%N = n.
Proof.
  unfold Js.toString36.
  destruct (int_digits36_value (N.to_nat (N.log2 n)) n EmptyString) as (ds & Heq & Hval).
  - rewrite Nat2N.inj_succ, N2Nat.id.
    destruct (N.eq_dec n 0%N) as [->|Hn]; [reflexivity|].
    apply N.lt_le_trans with (2 ^ N.succ (N.log2 n))%N.
    + apply N.log2_spec. lia.
    + apply N.pow_le_mono_l. lia.
  - rewrite Heq. rewrite numeral_value_app. cbn [numeral_value]. rewrite Hval. lia.
Qed.

(** *** The double arithmetic of the fraction digits *)

(** Rounding to a double loses less than one part in nine. *)
Lemma round_double_lower y : (8 * y <= 9 * Js.round_double y)%N.
Proof.
  unfold Js.round_double.
  destruct (N.le_gt_cases (N.log2 y) 52) as [Hs|Hl].
  - replace (N.log2 y - 52)%N with 0%N by lia.
    change (2 ^ 0)%N with 1%N. rewrite N.div_1_r, N.mod_1_r.
    replace ((1 <? 2 * 0) || (2 * 0 =? 1) && N.odd y)%N with false by reflexivity.
    lia.
  - set (ulp := (2 ^ (N.log2 y - 52))%N).
    assert (Hy : (0 < y)%N).
    { destruct (N.eq_dec y 0%N) as [->|]; [cbn in Hl; lia|lia]. }
    assert (Hulp : (0 < ulp)%N) by (apply N.neq_0_lt_0, N.pow_nonzero; discriminate).
    assert (Hbig : (2 ^ 52 * ulp <= y)%N).
    { unfold ulp. rewrite <- N.pow_add_r.
      replace (52 + (N.log2 y - 52))%N with (N.log2 y) by lia.
      apply N.log2_spec. assumption. }
    pose proof (N.div_mod y ulp ltac:(lia)) as Hdm.
    pose proof (N.mod_lt y ulp ltac:(lia)) as Hr.
    change (2 ^ 52)%N with 4503599627370496%N in Hbig.
    destruct (_ || _); nia.
Qed.

(** A double is not above the next power of two. *)
Lemma round_double_upper y :
  (0 < y)%N -> (Js.round_double y <= 2 ^ N.succ (N.log2 y))%N.
Proof.
  intros Hy. unfold Js.round_double.
  destruct (N.log2_spec y Hy) as [Hlo Hhi].
  destruct (N.le_gt_cases (N.log2 y) 52) as [Hs|Hl].
  - replace (N.log2 y - 52)%N with 0%N by lia.
    change (2 ^ 0)%N with 1%N. rewrite N.div_1_r, N.mod_1_r.
    replace ((1 <? 2 * 0) || (2 * 0 =? 1) && N.odd y)%N with false by reflexivity.
    lia.
  - set (ulp := (2 ^ (N.log2 y - 52))%N).
    assert (Hulp : (0 < ulp)%N) by (apply N.neq_0_lt_0, N.pow_nonzero; discriminate).
    assert (Htop : (2 ^ N.succ (N.log2 y) = 2 ^ 53 * ulp)%N).
    { unfold ulp. rewrite <- N.pow_add_r. f_equal. lia. }
    rewrite Htop in *.
    pose proof (N.div_mod y ulp ltac:(lia)) as Hdm.
    pose proof (N.mod_lt y ulp ltac:(lia)) as Hr.
    assert (Hq : (y / ulp < 2 ^ 53)%N) by (apply N.Div0.div_lt_upper_bound; lia).
    change (2 ^ 53)%N with 9007199254740992%N in *.
    destruct (_ || _); nia.
Qed.

(** One round of the digit loop: a fraction that is a double below 1 (it
    is at most [1 - 2^-53]) gives a digit below 36 and leaves such a
    fraction. The cases are the exponents of [36 * f]. *)
Lemma digit_step f :
  (f + 2 ^ 53 <= Js.one)%N ->
  let y := Js.round_double (f * 36) in
  (y / Js.one < 36)%N /\ (y - y / Js.one * Js.one + 2 ^ 53 <= Js.one)%N.
Proof.
  intros Hf y. unfold Js.one in *.
  change (2 ^ 106)%N with 81129638414606681695789005144064%N in *.
  change (2 ^ 53)%N with 9007199254740992%N in *.
  subst y. remember (f * 36)%N as x eqn:Heqx.
  destruct (N.eq_dec x 0%N) as [Hx0|Hx0].
  { rewrite Hx0. vm_compute. split; [reflexivity|discriminate]. }
  assert (Hx : (0 < x)%N) by lia.
  destruct (N.log2_spec x Hx) as [Hlo Hhi].
  assert (HL : (N.log2 x < 112)%N).
  { apply N.log2_lt_pow2; [assumption|].
    change (2 ^ 112)%N with 5192296858534827628530496329220096%N. lia. }
  assert (Hcases : (N.log2 x <= 104 \/ N.log2 x = 105 \/ N.log2 x = 106
                    \/ N.log2 x = 107 \/ N.log2 x = 108 \/ N.log2 x = 109
                    \/ N.log2 x = 110 \/ N.log2 x = 111)%N) by lia.
  destruct Hcases as [Hc|Hc].
  - pose proof (round_double_upper x Hx) as Hup.
    assert (2 ^ N.succ (N.log2 x) <= 2 ^ 105)%N by (apply N.pow_le_mono_r; lia).
    change (2 ^ 105)%N with 40564819207303340847894502572032%N in *.
    rewrite (N.div_small (Js.round_double x)) by lia. lia.
  - repeat destruct Hc as [Hc|Hc].
    all: rewrite Hc in Hlo, Hhi.
    all: match type of Hlo with (?a <= _)%N =>
           let v := eval vm_compute in a in change a with v in Hlo end.
    all: match type of Hhi with (_ < ?a)%N =>
           let v := eval vm_compute in a in change a with v in Hhi end.
    all: round_at Hc.
    all: match goal with Hx' : (0 < ?a)%N |- context [(?a / ?u)%N] =>
           pose proof (N.div_mod a u ltac:(discriminate)) as Hdm;
           pose proof (N.mod_lt a u ltac:(discriminate)) as Hr;
           set (q := (a / u)%N) in *; set (r := (a mod u)%N) in *;
           clearbody q r
         end.
    all: destruct (_ || _) eqn:E.
    all: try (apply orb_true_iff in E as [E|E];
              [apply N.ltb_lt in E
              |apply andb_true_iff in E as [E _]; apply N.eqb_eq in E]).
    all: split_at_one; lia.
Qed.

Lemma carry_over_digits written r :
  Forall (fun d => (d < 36)%N) written ->
  Js.carry_over written = Some r ->
  Forall (fun d => (d < 36)%N) r.
Proof.
  induction 1 as [|d w Hd Hw IH]; cbn; [discriminate|].
  destruct (N.ltb_spec (d + 1) 36).
  - intros [= <-]. constructor; assumption.
  - exact IH.
Qed.

(** Every digit the loop writes is below 36. *)
Lemma fraction_digits_valid fuel fraction delta written r :
  (fraction + 2 ^ 53 <= Js.one)%N ->
  Forall (fun d => (d < 36)%N) written ->
  Js.fraction_digits fuel fraction delta written = Some r ->
  Forall (fun d => (d < 36)%N) r.
Proof.
  revert fraction delta written.
  induction fuel as [|fuel IH]; intros fraction delta written Hf Hw;
    cbn [Js.fraction_digits].
  - intros [= <-]. assumption.
  - destruct (digit_step fraction Hf) as [Hd Hf'].
    assert (Hw' : Forall (fun d => (d < 36)%N)
                    ((Js.round_double (fraction * 36) / Js.one)%N :: written))
      by (constructor; assumption).
    destruct (_ && _).
    + apply carry_over_digits. assumption.
    + destruct (_ <=? _)%N.
      * apply IH; assumption.
      * intros [= <-]. assumption.
Qed.

Lemma digits_string_lower digits :
  Forall (fun d => (d < 36)%N) digits ->
  all_chars is_lower_alnum (Js.digits_string digits) = true.
Proof.
  induction 1 as [|d w Hd Hw IH]; cbn; [reflexivity|].
  now rewrite digit36_lower, IH.
Qed.

(** The loop ends by itself: [delta] grows at least 32-fold in a round
    and the fraction stays below 1, so once [delta * 32 ^ n] reaches 1 the
    loop makes [n] rounds at most and more fuel adds nothing. *)
Lemma fraction_digits_fuel n k fraction delta written :
  (fraction < Js.one)%N ->
  (Js.one <= delta * 32 ^ N.of_nat (S n))%N ->
  Js.fraction_digits (S n + k) fraction delta written
  = Js.fraction_digits (S n) fraction delta written.
Proof.
  revert fraction delta written.
  induction n as [|n IH]; intros fraction delta written Hf Hd.
  - change (1 + k)%nat with (S k).
    cbn [Js.fraction_digits].
    destruct (_ && _); [reflexivity|].
    pose proof (round_double_lower (delta * 36)) as Hlow.
    change (32 ^ N.of_nat 1)%N with 32%N in Hd.
    set (y := Js.round_double (fraction * 36)) in *.
    assert (Hm : (y - y / Js.one * Js.one < Js.one)%N).
    { pose proof (N.div_mod y Js.one ltac:(discriminate)).
      pose proof (N.mod_lt y Js.one ltac:(discriminate)). lia. }
    destruct (N.leb_spec (Js.round_double (delta * 36)) (y - y / Js.one * Js.one));
      [lia|].
    reflexivity.
  - change (S (S n) + k)%nat with (S (S n + k)).
    cbn [Js.fraction_digits].
    destruct (_ && _); [reflexivity|].
    destruct (_ <=? _)%N; [|reflexivity].
    apply IH.
    + set (y := Js.round_double (fraction * 36)).
      pose proof (N.div_mod y Js.one ltac:(discriminate)).
      pose proof (N.mod_lt y Js.one ltac:(discriminate)). lia.
    + pose proof (round_double_lower (delta * 36)) as Hlow.
      rewrite Nat2N.inj_succ, N.pow_succ_r' in Hd.
      set (p := (32 ^ N.of_nat (S n))%N) in *. nia.
Qed.

(** The 22 rounds of [numToString36] are enough for every number. *)
Lemma numToString36_fuel k m :
  Js.fraction_digits (22 + k) ((m mod Js.scale) * Js.scale) (2 ^ N.log2 m) []
  = Js.fraction_digits 22 ((m mod Js.scale) * Js.scale) (2 ^ N.log2 m) [].
Proof.
  apply (fraction_digits_fuel 21).
  - pose proof (N.mod_lt m Js.scale ltac:(discriminate)) as Hm.
    unfold Js.one, Js.scale in *.
    change (2 ^ 106)%N with (2 ^ 53 * 2 ^ 53)%N. nia.
  - assert (H1 : (1 <= 2 ^ N.log2 m)%N).
    { pose proof (N.pow_nonzero 2 (N.log2 m) ltac:(discriminate)). lia. }
    assert (H2 : (Js.one <= 32 ^ N.of_nat 22)%N) by (vm_compute; discriminate).
    nia.
Qed.

Lemma all_chars_substring p n m s :
  all_chars p s = true -> all_chars p (String.substring n m s) = true.
Proof.
  revert n m. induction s as [|c s IH]; intros n m Hs.
  - destruct n, m; reflexivity.
  - cbn in Hs. apply andb_true_iff in Hs as [Hc Hs].
    destruct n as [|n]; destruct m as [|m]; cbn; try reflexivity.
    + now rewrite Hc, IH.
    + now apply IH.
    + now apply IH.
Qed.

Lemma substring_length_le n m s : (String.length (String.substring n m s) <= m)%nat.
Proof.
  revert n m. induction s as [|c s IH]; intros n m.
  - destruct n, m; cbn; lia.
  - destruct n as [|n]; destruct m as [|m]; cbn; try lia.
    + specialize (IH 0%nat m). lia.
    + apply (IH n 0%nat).
    + apply (IH n (S m)).
Qed.

(** [Math.random().toString(36)] is "0." and fraction digits, or "0"
    for 0, or "1" when the digits round up to 1. *)
Lemma numToString36_below_one rnd :
  (rnd < Js.scale)%N ->
  Js.numToString36 rnd = "0" \/ Js.numToString36 rnd = "1"
  \/ exists ds, all_chars is_lower_alnum ds = true
                /\ Js.numToString36 rnd = "0." +:+ ds.
Proof.
  intros Hr. unfold Js.numToString36.
  rewrite N.div_small, N.mod_small by assumption.
  destruct (_ <? _)%N; [left; reflexivity|].
  destruct (Js.fraction_digits _ _ _ _) as [written|] eqn:E;
    [|right; left; reflexivity].
  right; right. exists (Js.digits_string (rev written)). split; [|reflexivity].
  apply digits_string_lower, Forall_rev.
  eapply fraction_digits_valid; [|constructor|exact E].
  unfold Js.one, Js.scale in *.
  change (2 ^ 106)%N with (2 ^ 53 * 2 ^ 53)%N. nia.
Qed.

(** The random part of a code: the first four fraction digits, fewer when
    there are fewer. *)
Lemma random_part rnd :
  (rnd < Js.scale)%N ->
  exists ds, all_chars is_lower_alnum ds = true
             /\ Js.substring (Js.numToString36 rnd) 2 6 = String.substring 0 4 ds.
Proof.
  intros Hr.
  destruct (numToString36_below_one rnd Hr) as [->|[->|(ds & Hds & ->)]].
  - exists EmptyString. split; reflexivity.
  - exists EmptyString. split; reflexivity.
  - exists ds. split; [assumption|reflexivity].
Qed.

Lemma span_run p s t :
  all_chars p s = true ->
  match t with EmptyString => True | String c _ => p c = false end ->
  span p (s +:+ t) = (s, t).
Proof.
  intros Hs Ht. induction s as [|c s IH].
  - rewrite append_empty. destruct t as [|c t]; [reflexivity|]. cbn. now rewrite Ht.
  - cbn in Hs. apply andb_true_iff in Hs as [Hc Hs].
    rewrite append_cons. cbn. rewrite Hc, IH by assumption. reflexivity.
Qed.

(** Matching a string built as the pattern reads. *)
Lemma matches_coupon_built lo hi ts suf :
  ts <> EmptyString ->
  all_chars is_upper_alnum ts = true ->
  all_chars is_upper_alnum suf = true ->
  matches_coupon lo hi ("GIT-" +:+ ts +:+ "-" +:+ suf)
  = (lo <=? String.length suf)%nat && (String.length suf <=? hi)%nat.
Proof.
  intros Hne Hts Hsuf. unfold matches_coupon.
  rewrite !append_cons, append_empty. cbn [strip_prefix Ascii.eqb Bool.eqb].
  rewrite span_run by (assumption || reflexivity).
  destruct ts; [congruence|].
  rewrite !append_empty, Hsuf. reflexivity.
Qed.

(** The shape every generated code has: the prefix, the upper-case
    base-36 timestamp, a dash, and at most four upper-case alphanumerics;
    the code matches the pattern of the specification exactly when they
    are four. *)
Lemma generateCouponCode_shape now rnd :
  (rnd < Js.scale)%N ->
  let timestamp := Js.toUpperCase (Js.toString36 now) in
  let suffix := Js.toUpperCase (Js.substring (Js.numToString36 rnd) 2 6) in
  generateCouponCode now rnd = "GIT-" +:+ timestamp +:+ "-" +:+ suffix
  /\ timestamp <> EmptyString
  /\ all_chars is_upper_alnum timestamp = true
  /\ all_chars is_upper_alnum suffix = true
  /\ (String.length suffix <= 4)%nat
  /\ matches_coupon 0 4 (generateCouponCode now rnd) = true
  /\ matches_coupon_pattern (generateCouponCode now rnd)
     = (4 <=? String.length (Js.substring (Js.numToString36 rnd) 2 6))%nat.
Proof.
  intros Hr timestamp suffix.
  assert (Hcode : generateCouponCode now rnd = "GIT-" +:+ timestamp +:+ "-" +:+ suffix)
    by reflexivity.
  assert (Hts : all_chars is_upper_alnum timestamp = true)
    by apply all_upper_of_lower, toString36_lower.
  assert (Hne : timestamp <> EmptyString).
  { unfold timestamp. pose proof (toString36_nonempty now) as H.
    destruct (Js.toString36 now); [congruence|discriminate]. }
  destruct (random_part rnd Hr) as (ds & Hds & Hpart).
  assert (Hsuf : all_chars is_upper_alnum suffix = true).
  { unfold suffix. rewrite Hpart. now apply all_upper_of_lower, all_chars_substring. }
  assert (Hlen : (String.length suffix <= 4)%nat).
  { unfold suffix. rewrite toUpperCase_length, Hpart. apply substring_length_le. }
  assert (Hsuflen : String.length suffix
                    = String.length (Js.substring (Js.numToString36 rnd) 2 6)).
  { unfold suffix. apply toUpperCase_length. }
  repeat split; try assumption.
  - rewrite Hcode, matches_coupon_built by assumption.
    cbn [Nat.leb andb]. now apply Nat.leb_le.
  - unfold matches_coupon_pattern.
    rewrite Hcode, matches_coupon_built by assumption.
    rewrite <- Hsuflen.
    destruct (Nat.leb_spec 4 (String.length suffix)).
    + cbn [andb]. apply Nat.leb_le. assumption.
    + reflexivity.
Qed.

End CouponShape.

(** ** The effect of a request on the booking collection *)

Section Effects.

Lemma handle_effect env r s :
  bookings_effect env (bookings s) (bookings (snd (handle env r s))).
Proof.
  destruct r; cbn [handle].
  - unfold createBooking. async.
    repeat (case_match; simplify_eq/=); try (by apply eff_same).
    all: eapply eff_insert; eauto.
  - unfold getBooking. async.
    repeat (case_match; simplify_eq/=); by apply eff_same.
  - unfold cancelBooking. async.
    repeat (case_match; simplify_eq/=); try (by apply eff_same).
    all: negated_tests; settle_transition.
  - unfold completeBooking. async.
    repeat (case_match; simplify_eq/=); try (by apply eff_same).
    all: negated_tests; settle_transition.
  - unfold getBookingByCoupon. async.
    repeat (case_match; simplify_eq/=); by apply eff_same.
  - unfold getProduct. async.
    repeat (case_match; simplify_eq/=); by apply eff_same.
  - unfold deleteProduct. async.
    repeat (case_match; simplify_eq/=); by apply eff_same.
Qed.

Lemma allowed_transition_trans x y z :
  allowed_transition x y -> allowed_transition y z -> allowed_transition x z.
Proof.
  unfold allowed_transition. intros [->|[-> Hy]] [->|[-> Hz]]; auto.
  all: try (destruct Hy; congruence).
Qed.

Lemma effect_status env m m' id b :
  bookings_effect env m m' ->
  m !! id = Some b ->
  exists b', m' !! id = Some b' /\ allowed_transition (status b) (status b').
Proof.
  intros [->|requester body Hfresh _ ->|id0 b0 b0' Hb0 Htr ->] Hb.
  - exists b. split; [assumption|]. by left.
  - exists b. split; [|by left].
    rewrite lookup_insert_ne; [assumption|]. intros <-. congruence.
  - destruct (decide (id0 = id)) as [->|Hne].
    + exists b0'. rewrite lookup_insert_eq. split; [reflexivity|].
      assert (b0 = b) by congruence. subst b0.
      destruct Htr as (Hc & _ & _ & [(Hs & _)|(Hs & _)]);
        right; rewrite Hs; auto.
    + exists b. rewrite lookup_insert_ne by assumption.
      split; [assumption|]. by left.
Qed.

Lemma run_status trace s id b :
  bookings s !! id = Some b ->
  exists b', bookings (run trace s) !! id = Some b'
             /\ allowed_transition (status b) (status b').
Proof.
  revert s b. induction trace as [|[env r] trace IH]; intros s b Hb; cbn [run].
  - exists b. split; [assumption|]. by left.
  - destruct (effect_status env _ _ id b (handle_effect env r s) Hb)
      as (b1 & Hb1 & Hstep).
    destruct (IH _ _ Hb1) as (b2 & Hb2 & Hrest).
    exists b2. split; [assumption|].
    eapply allowed_transition_trans; eassumption.
Qed.

Lemma effect_timestamps env m m' :
  bookings_effect env m m' ->
  map_Forall (fun _ b => timestamps_consistent b) m ->
  map_Forall (fun _ b => timestamps_consistent b) m'.
Proof.
  intros [->|requester body _ _ ->|id0 b0 b0' Hb0 Htr ->] Hinv; [assumption| |].
  - apply map_Forall_insert_2; [|assumption].
    split; cbn; split; intros H; try discriminate; by destruct H.
  - apply map_Forall_insert_2; [|assumption].
    specialize (Hinv _ _ Hb0). destruct Hinv as [[Hc1 Hc2] [Hd1 Hd2]].
    destruct Htr as (Hc & _ & _ & [(Hs & Hat & Hother)|(Hs & Hat & Hother)]).
    + split; (split; intros H); rewrite ?Hs, ?Hat in *; eauto; try discriminate.
      rewrite Hother in H. apply Hd1 in H. congruence.
    + split; (split; intros H); rewrite ?Hs, ?Hat in *; eauto; try discriminate.
      rewrite Hother in H. apply Hc1 in H. congruence.
Qed.

Lemma coupon_taken_false code (m : gmap N Booking) :
  coupon_taken code m = false <->
  (forall id b, m !! id = Some b -> couponCode b <> code).
Proof.
  unfold coupon_taken. split.
  - destruct (List.find _ _) eqn:E; [discriminate|]. intros _ id b Hb Hcode.
    assert (Hin : In (id, b) (map_to_list m)).
    { apply list_elem_of_In, elem_of_map_to_list. exact Hb. }
    pose proof (find_none _ _ E _ Hin) as Hno.
    unfold has_coupon in Hno. cbn in Hno.
    apply String.eqb_neq in Hno. contradiction.
  - intros Hall. destruct (List.find _ _) as [[id b]|] eqn:E; [|reflexivity].
    apply find_some in E as [Hin Hhas].
    apply list_elem_of_In, elem_of_map_to_list in Hin.
    unfold has_coupon in Hhas. cbn in Hhas. apply String.eqb_eq in Hhas.
    exfalso. eapply Hall; eassumption.
Qed.

(** With unique codes, [findOne] by code returns the one holder. *)
Lemma find_by_coupon (m : gmap N Booking) id b :
  coupons_unique m ->
  m !! id = Some b ->
  List.find (has_coupon (couponCode b)) (map_to_list m) = Some (id, b).
Proof.
  intros Huniq Hb.
  destruct (List.find _ _) as [[j bj]|] eqn:E.
  - apply find_some in E as [Hin Hhas].
    apply list_elem_of_In, elem_of_map_to_list in Hin.
    unfold has_coupon in Hhas. cbn in Hhas. apply String.eqb_eq in Hhas.
    assert (j = id) by (eapply Huniq; eassumption). subst j.
    congruence.
  - assert (Hin : In (id, b) (map_to_list m)).
    { apply list_elem_of_In, elem_of_map_to_list. exact Hb. }
    pose proof (find_none _ _ E _ Hin) as Hno.
    unfold has_coupon in Hno. cbn in Hno.
    apply String.eqb_neq in Hno. congruence.
Qed.

Lemma effect_coupons env m m' :
  bookings_effect env m m' ->
  coupons_unique m /\ coupons_uppercase m ->
  coupons_unique m' /\ coupons_uppercase m'.
Proof.
  intros [->|requester body Hfresh Hfree ->|id0 b0 b0' Hb0 Htr ->] [Huniq Hup];
    [by split| |].
  - rewrite coupon_taken_false in Hfree. split.
    + intros i j bi bj Hi Hj Hcode.
      destruct (decide (i = newId env)) as [->|Hi'];
        destruct (decide (j = newId env)) as [->|Hj']; [done| | |].
      * rewrite lookup_insert_eq in Hi. rewrite lookup_insert_ne in Hj by done.
        injection Hi as <-. exfalso. eapply Hfree; [exact Hj|]. by symmetry.
      * rewrite lookup_insert_eq in Hj. rewrite lookup_insert_ne in Hi by done.
        injection Hj as <-. exfalso. eapply Hfree; [exact Hi|]. done.
      * rewrite lookup_insert_ne in Hi by done.
        rewrite lookup_insert_ne in Hj by done.
        eapply Huniq; eassumption.
    + intros i b Hi.
      destruct (decide (i = newId env)) as [->|Hi'].
      * rewrite lookup_insert_eq in Hi. injection Hi as <-.
        cbn. apply toUpperCase_idempotent.
      * rewrite lookup_insert_ne in Hi by done. eapply Hup; eassumption.
  - destruct Htr as (_ & Hcode' & _). split.
    + intros i j bi bj Hi Hj Hcode.
      destruct (decide (i = id0)) as [->|Hi'];
        destruct (decide (j = id0)) as [->|Hj']; [done| | |].
      * rewrite lookup_insert_eq in Hi. rewrite lookup_insert_ne in Hj by done.
        injection Hi as <-.
        eapply Huniq; [exact Hb0|exact Hj|]. congruence.
      * rewrite lookup_insert_eq in Hj. rewrite lookup_insert_ne in Hi by done.
        injection Hj as <-.
        eapply Huniq; [exact Hi|exact Hb0|]. congruence.
      * rewrite lookup_insert_ne in Hi by done.
        rewrite lookup_insert_ne in Hj by done.
        eapply Huniq; eassumption.
    + intros i b Hi.
      destruct (decide (i = id0)) as [->|Hi'].
      * rewrite lookup_insert_eq in Hi. injection Hi as <-.
        rewrite Hcode'. eapply Hup; eassumption.
      * rewrite lookup_insert_ne in Hi by done. eapply Hup; eassumption.
Qed.

Lemma run_coupons trace s :
  coupons_unique (bookings s) /\ coupons_uppercase (bookings s) ->
  coupons_unique (bookings (run trace s))
  /\ coupons_uppercase (bookings (run trace s)).
Proof.
  revert s. induction trace as [|[env r] trace IH]; intros s Hinv; cbn [run];
    [assumption|].
  apply IH. eapply effect_coupons; [apply handle_effect|assumption].
Qed.

End Effects.

(** ** The sample run *)

Example sample_create :
  createBooking Sample.env0 Sample.ann Sample.body0 Sample.store0
  = (json 201 "Booking created successfully" (WithBooking Sample.booking0),
     Sample.store1).
Proof. vm_compute. reflexivity. Qed.

Example sample_cancel :
  cancelBooking Sample.env1 Sample.ann 100 None Sample.store1
  = (json 200 "Booking cancelled successfully"
       (WithBooking Sample.booking0_cancelled),
     Sample.store2).
Proof. vm_compute. reflexivity. Qed.

Example sample_delete :
  deleteProduct Sample.env0 1 Sample.store0
  = (json 200 "Product deleted successfully" NoPayload, Sample.store3).
Proof. vm_compute. reflexivity. Qed.

Example sample_coupon :
  couponCode Sample.booking0 = "GIT-LOYW3V28-E7B9".
Proof. vm_compute. reflexivity. Qed.

(** ** The status machine *)

(** C1: a booking's status moves only from confirmed to cancelled or to
    completed. Over any sequence of requests a stored booking stays
    stored, its status changes along those two edges only, and a terminal
    status never changes. Cancelling a cancelled or completed booking and
    completing a completed or cancelled one leave the store as it is and
    never answer 200; when the lookup goes through and the requester
    passes the authorization check, the answer is the 400 conflict
    response of the route. *)
Theorem status_never_leaves_terminal trace env requester reason s id b :
  bookings s !! id = Some b ->
  (exists b', bookings (run trace s) !! id = Some b'
     /\ allowed_transition (status b) (status b')
     /\ (terminal (status b) -> status b' = status b))
  /\ (terminal (status b) ->
      snd (cancelBooking env requester id reason s) = s
      /\ statusCode (fst (cancelBooking env requester id reason s)) <> 200
      /\ (resolves 0 (outcomes env) = true -> authorized requester b ->
          fst (cancelBooking env requester id reason s)
          = json 400
              (if bool_decide (status b = cancelled)
               then "Booking is already cancelled"
               else "Cannot cancel a completed booking") NoPayload))
  /\ (terminal (status b) ->
      snd (completeBooking env requester id s) = s
      /\ statusCode (fst (completeBooking env requester id s)) <> 200
      /\ (resolves 0 (outcomes env) = true -> role requester = admin ->
          fst (completeBooking env requester id s)
          = json 400
              (if bool_decide (status b = completed)
               then "Booking is already marked as completed"
               else "Cannot complete a cancelled booking") NoPayload)).
Proof.
  intros Hb. split; [|split].
  - destruct (run_status trace s id b Hb) as (b' & Hb' & Hallowed).
    exists b'. repeat split; try assumption.
    intros [Ht|Ht]; destruct Hallowed as [?|[? _]]; congruence.
  - intros Hterm. unfold cancelBooking, resolves, authorized. async.
    destruct (outcomes env) as [|[e|] outs]; cbn; rewrite ?Hb; cbn.
    2: { repeat split; try done. }
    all: destruct (bool_decide (role requester = admin)) eqn:Hadm;
      destruct (bool_decide (userId b = user_id requester)) eqn:Hown; cbn.
    all: destruct Hterm as [Ht|Ht]; rewrite Ht; cbn.
    all: repeat split; try done.
    all: intros _ [Hr|Ho];
      [ apply bool_decide_eq_false_1 in Hadm | apply bool_decide_eq_false_1 in Hown ];
      contradiction.
  - intros Hterm. unfold completeBooking, resolves. async.
    destruct (bool_decide (role requester = admin)) eqn:Hadm; cbn.
    2: { apply bool_decide_eq_false_1 in Hadm. repeat split; try done. }
    destruct (outcomes env) as [|[e|] outs]; cbn; rewrite ?Hb; cbn.
    2: { repeat split; try done. }
    all: destruct Hterm as [Ht|Ht]; rewrite Ht; cbn.
    all: repeat split; try done.
Qed.

Lemma status_never_leaves_terminal_witness :
  bookings Sample.store2 !! 100%N = Some Sample.booking0_cancelled
  /\ (exists b',
        bookings (run [ (Sample.env1, CompleteBooking Sample.root 100);
                        (Sample.env1, CancelBooking Sample.ann 100 None) ]
                    Sample.store2) !! 100%N = Some b'
        /\ status b' = cancelled)
  /\ fst (completeBooking Sample.env1 Sample.root 100 Sample.store2)
     = json 400 "Cannot complete a cancelled booking" NoPayload.
Proof.
  assert (Hb : bookings Sample.store2 !! 100%N = Some Sample.booking0_cancelled)
    by (vm_compute; reflexivity).
  destruct (status_never_leaves_terminal
              [ (Sample.env1, CompleteBooking Sample.root 100);
                (Sample.env1, CancelBooking Sample.ann 100 None) ]
              Sample.env1 Sample.root None Sample.store2 100
              Sample.booking0_cancelled Hb)
    as ((b' & Hb' & _ & Hstay) & _ & Hcomplete).
  split; [exact Hb|]. split.
  - exists b'. split; [exact Hb'|]. apply Hstay. left. reflexivity.
  - destruct Hcomplete as (_ & _ & Hresp); [left; reflexivity|].
    apply Hresp; reflexivity.
Defined.

(** C5: [cancelledAt] is set exactly when the status is cancelled and
    [completedAt] exactly when it is completed. Every request (create,
    cancel, complete and the reads) preserves this on the whole booking
    collection, so it holds in every state reached from a collection
    where it holds, the empty one in particular. *)
Theorem timestamps_follow_status trace s :
  map_Forall (fun _ b => timestamps_consistent b) (bookings s) ->
  map_Forall (fun _ b => timestamps_consistent b) (bookings (run trace s)).
Proof.
  revert s. induction trace as [|[env r] trace IH]; intros s Hinv; cbn [run];
    [assumption|].
  apply IH. eapply effect_timestamps; [apply handle_effect|assumption].
Qed.

Lemma timestamps_follow_status_witness :
  map_Forall (fun _ b => timestamps_consistent b) (bookings Sample.store0)
  /\ map_Forall (fun _ b => timestamps_consistent b)
       (bookings (run [ (Sample.env0, CreateBooking Sample.ann Sample.body0);
                        (Sample.env1, CancelBooking Sample.ann 100 None) ]
                    Sample.store0)).
Proof.
  assert (H0 : map_Forall (fun _ b => timestamps_consistent b)
                 (bookings Sample.store0)).
  { intros i b Hi. cbn in Hi. rewrite lookup_empty in Hi. discriminate. }
  split; [exact H0|].
  apply (timestamps_follow_status _ Sample.store0 H0).
Defined.

(** ** Creating a booking *)

(** A new document is accepted when no path was invalidated and no
    validator fails. *)
Lemma rejected_paths_nil invalidated b :
  rejected_paths invalidated b = [] <-> invalidated = [] /\ invalid_paths b = [].
Proof.
  unfold rejected_paths. split.
  - intros H. apply app_eq_nil in H as [-> H]. split; [reflexivity|].
    destruct (invalid_paths b); [reflexivity|discriminate].
  - intros [-> ->]. reflexivity.
Qed.

(** A document built from a date that does not cast has no [bookingDate]. *)
Lemma uncastable_date env requester body :
  uncastable env body = []
  \/ (uncastable env body = ["bookingDate"]
      /\ bookingDate (new_booking env requester body) = None).
Proof.
  unfold uncastable, new_booking. cbn.
  destruct (body_bookingDate body) as [v|]; [|left; reflexivity]. cbn.
  destruct (castDate env v); [left; reflexivity|right; split; reflexivity].
Qed.

Lemma valid_bookingDate doc :
  invalid_paths doc = [] -> is_Some (bookingDate doc).
Proof.
  unfold invalid_paths. intros H.
  do 7 (apply app_eq_nil in H as [_ H]). apply app_eq_nil in H as [H _].
  destruct (bookingDate doc); [eauto|discriminate].
Qed.

(** For the document of a request, the validators decide. *)
Lemma create_validation env requester body :
  rejected_paths (uncastable env body) (new_booking env requester body) = []
  <-> invalid_paths (new_booking env requester body) = [].
Proof.
  rewrite rejected_paths_nil. split; [intros [_ H]; exact H|].
  intros H. split; [|exact H].
  destruct (uncastable_date env requester body) as [Hu|[_ Hnone]]; [exact Hu|].
  apply valid_bookingDate in H as [t Ht]. congruence.
Qed.


(** C2: a creation request whose product exists with an availability other
    than Available creates no booking: the store is unchanged and the
    answer is never 201. When the required fields are present and the
    product lookup goes through, the answer is the 400 response "Product
    is not available for booking", the conflict of the route. *)
Theorem create_unavailable_conflict env requester body s pid p :
  body_productId body = Some pid ->
  products s !! pid = Some p ->
  availability p <> Available ->
  snd (createBooking env requester body s) = s
  /\ statusCode (fst (createBooking env requester body s)) <> 201
  /\ (missing_required body = false ->
      resolves 0 (outcomes env) = true ->
      fst (createBooking env requester body s)
      = json 400 "Product is not available for booking" NoPayload).
Proof.
  intros Hid Hp Hav. unfold createBooking, resolves. rewrite Hid. cbn [default].
  destruct (missing_required body).
  - async. cbn. repeat split; done.
  - async. destruct (outcomes env) as [|[e|] outs]; cbn; rewrite ?Hp; cbn.
    all: try rewrite bool_decide_eq_false_2 by done; cbn.
    all: repeat split; done.
Qed.

Lemma create_unavailable_conflict_witness :
  body_productId Sample.body1 = Some 2%N
  /\ products Sample.store0 !! 2%N = Some Sample.router
  /\ availability Sample.router <> Available
  /\ createBooking Sample.env0 Sample.ann Sample.body1 Sample.store0
     = (json 400 "Product is not available for booking" NoPayload, Sample.store0).
Proof.
  assert (H1 : body_productId Sample.body1 = Some 2%N) by reflexivity.
  assert (H2 : products Sample.store0 !! 2%N = Some Sample.router)
    by (vm_compute; reflexivity).
  assert (H3 : availability Sample.router <> Available) by discriminate.
  destruct (create_unavailable_conflict Sample.env0 Sample.ann Sample.body1
              Sample.store0 2 Sample.router H1 H2 H3) as (Hs & _ & Hr).
  split; [exact H1|]. split; [exact H2|]. split; [exact H3|].
  rewrite <- Hs at 2. rewrite <- Hr by reflexivity.
  apply surjective_pairing.
Defined.

(** C10: a soft-deleted product whose availability still reads Available
    can be booked. The create route tests that the product exists and
    that its availability is Available, never [isActive]: for a product
    with [isActive = false], a valid request, calls that go through, a new
    id and a free coupon code, the booking is stored with status confirmed
    and the answer is 201. The delete route is how a product gets there:
    when its calls go through it answers 200 and writes the product back
    with [isActive = false] and nothing else changed; whatever its calls
    answer, it leaves the availability of the product and the bookings as
    they are. *)
Theorem inactive_available_product_bookable env requester body s pid p :
  let doc := new_booking env requester body in
  products s !! pid = Some p ->
  isActive p = false ->
  availability p = Available ->
  body_productId body = Some pid ->
  missing_required body = false ->
  invalid_paths doc = [] ->
  resolves 0 (outcomes env) = true ->
  resolves 1 (outcomes env) = true ->
  bookings s !! newId env = None ->
  coupon_taken (couponCode doc) (bookings s) = false ->
  createBooking env requester body s
  = (json 201 "Booking created successfully" (WithBooking doc),
     set_bookings (<[newId env := doc]> (bookings s)) s)
  /\ status doc = confirmed
  /\ (forall envd s0 p0,
        products s0 !! pid = Some p0 ->
        (resolves 0 (outcomes envd) = true ->
         resolves 1 (outcomes envd) = true ->
         resolves 2 (outcomes envd) = true ->
         deleteProduct envd pid s0
         = (json 200 "Product deleted successfully" NoPayload,
            set_products (<[pid := set_isActive false p0]> (products s0)) s0))
        /\ availability (set_isActive false p0) = availability p0
        /\ exists p1,
             products (snd (deleteProduct envd pid s0)) !! pid = Some p1
             /\ availability p1 = availability p0
             /\ bookings (snd (deleteProduct envd pid s0)) = bookings s0
             /\ (statusCode (fst (deleteProduct envd pid s0)) = 200 ->
                 p1 = set_isActive false p0)).
Proof.
  intros doc Hp Hinactive Hav Hid Hreq Hvalid Hr0 Hr1 Hfresh Hfree.
  split; [|split; [reflexivity|]].
  - unfold createBooking. rewrite Hreq, Hid. cbn [default].
    unfold resolves in Hr0, Hr1. async.
    rewrite (proj2 (create_validation env requester body) Hvalid). fold doc.
    destruct (outcomes env) as [|[e0|] [|[e1|] outs]]; cbn in *; try discriminate.
    all: rewrite Hp; cbn; rewrite bool_decide_eq_true_2 by assumption; cbn.
    all: rewrite Hfresh, Hfree; reflexivity.
  - intros envd s0 p0 Hp0. split; [|split; [reflexivity|]].
    + unfold deleteProduct, resolves. async. intros H0 H1 H2.
      destruct (outcomes envd) as [|[e0|] [|[e1|] [|[e2|] outs]]]; cbn in *;
        try discriminate.
      all: rewrite Hp0; cbn.
      all: destruct (imagePublicIds p0); reflexivity.
    + unfold deleteProduct. async. rewrite ?Hp0.
      repeat (case_match; simplify_eq/=).
      all: try (exists p0; repeat split; try done;
                match goal with e : Error |- _ => destruct e; cbn; done end).
      all: eexists; rewrite lookup_insert_eq; repeat split; done.
Qed.

(** The laptop is deleted, which answers 200 and leaves it in the catalog,
    inactive and Available; Ann then books it. *)
Lemma inactive_available_product_bookable_witness :
  deleteProduct Sample.env0 1 Sample.store0
  = (json 200 "Product deleted successfully" NoPayload, Sample.store3)
  /\ products Sample.store3 !! 1%N = Some Sample.retired
  /\ isActive Sample.retired = false
  /\ availability Sample.retired = Available
  /\ fst (createBooking Sample.env0 Sample.ann Sample.body0 Sample.store3)
     = json 201 "Booking created successfully" (WithBooking Sample.booking0)
  /\ status Sample.booking0 = confirmed.
Proof.
  assert (Hp : products Sample.store3 !! 1%N = Some Sample.retired)
    by (vm_compute; reflexivity).
  assert (Hvalid : invalid_paths (new_booking Sample.env0 Sample.ann Sample.body0) = [])
    by (vm_compute; reflexivity).
  assert (Hfresh : bookings Sample.store3 !! newId Sample.env0 = None)
    by (vm_compute; reflexivity).
  assert (Hfree : coupon_taken
                    (couponCode (new_booking Sample.env0 Sample.ann Sample.body0))
                    (bookings Sample.store3) = false)
    by (vm_compute; reflexivity).
  assert (Hp0 : products Sample.store0 !! 1%N = Some Sample.laptop)
    by (vm_compute; reflexivity).
  destruct (inactive_available_product_bookable Sample.env0 Sample.ann
              Sample.body0 Sample.store3 1 Sample.retired
              Hp eq_refl eq_refl eq_refl eq_refl Hvalid eq_refl eq_refl
              Hfresh Hfree)
    as (Hcreate & Hstatus & Hdelete).
  destruct (Hdelete Sample.env0 Sample.store0 Sample.laptop Hp0) as (H200 & _).
  split.
  { rewrite (H200 eq_refl eq_refl eq_refl). vm_compute. reflexivity. }
  split; [exact Hp|]. split; [reflexivity|]. split; [reflexivity|].
  split; [|exact Hstatus].
  rewrite Hcreate. reflexivity.
Defined.

(** ** Authorization *)

(** C4: a requester who is not admin cannot complete a booking, whoever
    owns it: the answer is the 403 of the route, given before any store
    call. If the requester is not the owner either, reading the booking
    (by id or by coupon code) and cancelling it fail too: the store is
    unchanged, the answer is never 200, and it is the 403 of the route
    when the lookup goes through (for the reads, when the owner's user
    document exists, which [populate] needs; for the read by coupon code,
    when the code is held by this booking only). No request of the four
    changes the store. *)
Theorem unauthorized_request_rejected env requester id reason code s b :
  bookings s !! id = Some b ->
  role requester <> admin ->
  completeBooking env requester id s
  = (json 403 "Not authorized. Admin access required." NoPayload, s)
  /\ (userId b <> user_id requester ->
      snd (getBooking env requester id s) = s
      /\ snd (cancelBooking env requester id reason s) = s
      /\ snd (getBookingByCoupon env requester code s) = s
      /\ statusCode (fst (getBooking env requester id s)) <> 200
      /\ statusCode (fst (cancelBooking env requester id reason s)) <> 200
      /\ (resolves 0 (outcomes env) = true ->
          fst (cancelBooking env requester id reason s)
          = json 403 "Not authorized to cancel this booking" NoPayload
          /\ (is_Some (users s !! userId b) ->
              fst (getBooking env requester id s)
              = json 403 "Not authorized to view this booking" NoPayload
              /\ (coupons_unique (bookings s) ->
                  Js.toUpperCase code = couponCode b ->
                  fst (getBookingByCoupon env requester code s)
                  = json 403 "Not authorized to view this booking" NoPayload)))).
Proof.
  intros Hb Hrole. split.
  - unfold completeBooking. async.
    rewrite bool_decide_eq_false_2 by assumption. reflexivity.
  - intros Hown.
    assert (Hadm : bool_decide (role requester = admin) = false)
      by (apply bool_decide_eq_false_2; assumption).
    assert (Hnot : bool_decide (userId b = user_id requester) = false)
      by (apply bool_decide_eq_false_2; assumption).
    assert (Hread : snd (getBookingByCoupon env requester code s) = s).
    { unfold getBookingByCoupon. async.
      repeat (case_match; simplify_eq/=); done. }
    assert (Hfind : coupons_unique (bookings s) ->
                    Js.toUpperCase code = couponCode b ->
                    resolves 0 (outcomes env) = true ->
                    is_Some (users s !! userId b) ->
                    fst (getBookingByCoupon env requester code s)
                    = json 403 "Not authorized to view this booking" NoPayload).
    { intros Huniq Hcode Hr [owner Howner].
      unfold getBookingByCoupon, resolves in *. async. rewrite Hcode.
      destruct (outcomes env) as [|[e|] outs]; cbn in *; try discriminate.
      all: rewrite (find_by_coupon _ id b Huniq Hb); cbn; rewrite Howner; cbn.
      all: rewrite Hadm, Hnot; reflexivity. }
    split; [|split; [|split; [exact Hread|]]].
    3: split; [|split].
    5: { intros Hr. split; [|intros Hu; split; [|intros; by apply Hfind]].
         all: revert Hr; try revert Hu.
         all: unfold getBooking, cancelBooking, resolves; async.
         all: destruct (outcomes env) as [|[e|] outs]; cbn; rewrite ?Hb; cbn;
           try discriminate.
         all: destruct (users s !! userId b) as [owner|] eqn:Hu; cbn.
         all: rewrite ?Hadm, ?Hnot; cbn; try done.
         all: intros _ [? ?]; discriminate. }
    all: unfold getBooking, cancelBooking; async.
    all: destruct (outcomes env) as [|[e|] outs]; cbn; rewrite ?Hb; cbn; try done.
    all: destruct (users s !! userId b) as [owner|] eqn:Hu; cbn.
    all: rewrite ?Hadm, ?Hnot; cbn; done.
Qed.

Lemma unauthorized_request_rejected_witness :
  bookings Sample.store1 !! 100%N = Some Sample.booking0
  /\ role Sample.bob <> admin
  /\ userId Sample.booking0 <> user_id Sample.bob
  /\ completeBooking Sample.env1 Sample.bob 100 Sample.store1
     = (json 403 "Not authorized. Admin access required." NoPayload, Sample.store1)
  /\ fst (cancelBooking Sample.env1 Sample.bob 100 None Sample.store1)
     = json 403 "Not authorized to cancel this booking" NoPayload
  /\ fst (getBooking Sample.env1 Sample.bob 100 Sample.store1)
     = json 403 "Not authorized to view this booking" NoPayload.
Proof.
  assert (Hb : bookings Sample.store1 !! 100%N = Some Sample.booking0)
    by (vm_compute; reflexivity).
  assert (Hrole : role Sample.bob <> admin) by discriminate.
  assert (Hown : userId Sample.booking0 <> user_id Sample.bob) by discriminate.
  destruct (unauthorized_request_rejected Sample.env1 Sample.bob 100 None
              "git-loyw3v28-e7b9" Sample.store1 Sample.booking0 Hb Hrole)
    as (Hcomplete & Hrest).
  destruct (Hrest Hown) as (_ & _ & _ & _ & _ & Hresp).
  destruct Hresp as (Hcancel & Hget); [reflexivity|].
  destruct Hget as [Hget _]; [vm_compute; eexists; reflexivity|].
  split; [exact Hb|]. split; [exact Hrole|]. split; [exact Hown|].
  split; [exact Hcomplete|]. split; [exact Hcancel|exact Hget].
Defined.

(** ** The product fields of a booking *)

Lemma required_string_ok path value :
  required_string path value = [] -> value <> "".
Proof.
  unfold required_string. destruct (String.eqb_spec value ""); [discriminate|auto].
Qed.

Lemma valid_product_fields doc :
  invalid_paths doc = [] ->
  productName doc <> "" /\ productImage doc <> "" /\ productCategory doc <> "".
Proof.
  unfold invalid_paths. intros H.
  apply app_eq_nil in H as [H1 H]. apply app_eq_nil in H as [H2 H].
  apply app_eq_nil in H as [H3 _].
  repeat split; eapply required_string_ok; eassumption.
Qed.

Lemma default_defined (v : option string) :
  default "" v <> "" -> v = Some (default "" v).
Proof. destruct v; cbn; [reflexivity|congruence]. Qed.

(** C3, as the code has it: the product fields of a created booking are
    the ones the caller sent. For every creation answered 201 the booking
    in the answer is the one stored under the new id, it references the
    product of the request, which exists and is Available, and its
    [productName], [productImage] and [productCategory] are the values of
    the request body; the product record is read for the existence and
    availability tests only. *)
Theorem created_booking_copies_request env requester body s :
  statusCode (fst (createBooking env requester body s)) = 201 ->
  exists doc pid p,
    fst (createBooking env requester body s)
    = json 201 "Booking created successfully" (WithBooking doc)
    /\ bookings (snd (createBooking env requester body s)) !! newId env = Some doc
    /\ body_productId body = Some pid
    /\ products s !! pid = Some p
    /\ availability p = Available
    /\ productId doc = pid
    /\ body_productName body = Some (productName doc)
    /\ body_productImage body = Some (productImage doc)
    /\ body_productCategory body = Some (productCategory doc).
Proof.
  unfold createBooking. async.
  destruct (missing_required body) eqn:Hreq; [cbn; discriminate|].
  assert (Hpid : is_Some (body_productId body)).
  { unfold missing_required in Hreq.
    destruct (body_productId body); [eauto|discriminate]. }
  destruct Hpid as [pid Hpid]. rewrite Hpid. cbn [default].
  intros H201.
  assert (exists p, products s !! pid = Some p /\ availability p = Available
                    /\ invalid_paths (new_booking env requester body) = [])
    as (p & Hp & Hav & Hvalid).
  { revert H201. repeat (case_match; simplify_eq/=); try done.
    all: intros _; eexists; split; [eassumption|];
      match goal with H : negb (bool_decide _) = false |- _ =>
        apply negb_false_iff, bool_decide_eq_true_1 in H end;
      split; [assumption|]; apply create_validation; assumption. }
  destruct (valid_product_fields _ Hvalid) as (Hn & Hi & Hc).
  exists (new_booking env requester body), pid, p.
  assert (Hdoc : productId (new_booking env requester body) = pid)
    by (unfold new_booking; cbn; rewrite Hpid; reflexivity).
  repeat split; try assumption; try (by apply default_defined).
  - revert H201. repeat (case_match; simplify_eq/=); done.
  - revert H201. repeat (case_match; simplify_eq/=); try done.
    all: intros _; apply lookup_insert_eq.
Qed.

Lemma created_booking_copies_request_witness :
  statusCode (fst (createBooking Sample.env0 Sample.ann Sample.body0 Sample.store0)) = 201
  /\ exists doc,
       bookings (snd (createBooking Sample.env0 Sample.ann Sample.body0 Sample.store0))
         !! 100%N = Some doc
       /\ Some (productName doc) = Some "Gaming Console".
Proof.
  assert (H : statusCode (fst (createBooking Sample.env0 Sample.ann Sample.body0
                                 Sample.store0)) = 201)
    by (vm_compute; reflexivity).
  split; [exact H|].
  destruct (created_booking_copies_request _ _ _ _ H)
    as (doc & pid & p & _ & Hstored & _ & _ & _ & _ & Hname & _).
  exists doc. split; [exact Hstored|]. rewrite <- Hname. reflexivity.
Defined.

(** C3, as the specification states it, fails: Ann books the laptop with
    product fields of her own, the booking is created, and none of its
    three product fields is the laptop's. *)
Lemma created_booking_not_product_snapshot :
  createBooking Sample.env0 Sample.ann Sample.body0 Sample.store0
  = (json 201 "Booking created successfully" (WithBooking Sample.booking0),
     Sample.store1)
  /\ products Sample.store0 !! productId Sample.booking0 = Some Sample.laptop
  /\ ~ (productName Sample.booking0 = name Sample.laptop
        /\ In (productImage Sample.booking0) (images Sample.laptop)
        /\ productCategory Sample.booking0 = category Sample.laptop).
Proof.
  split; [vm_compute; reflexivity|]. split; [vm_compute; reflexivity|].
  intros (Hname & _). vm_compute in Hname. discriminate.
Qed.

(** ** Coupon code collisions *)

(** C6, as the code has it: a collision of coupon codes is not retried.
    When a valid request for an available product reaches the insert,
    with a new id and a coupon code some booking already holds, the route
    answers 500 "Failed to create booking" with the duplicate-key error of
    the store, and the store is unchanged; the code was generated once,
    from the clock and the random number of the request. *)
Theorem coupon_collision_not_retried env requester body s pid p :
  let doc := new_booking env requester body in
  body_productId body = Some pid ->
  products s !! pid = Some p ->
  availability p = Available ->
  missing_required body = false ->
  invalid_paths doc = [] ->
  resolves 0 (outcomes env) = true ->
  resolves 1 (outcomes env) = true ->
  bookings s !! newId env = None ->
  coupon_taken (couponCode doc) (bookings s) = true ->
  createBooking env requester body s
  = (json 500 "Failed to create booking" (WithError (DuplicateKey "couponCode")), s)
  /\ couponCode doc = Js.toUpperCase (generateCouponCode (now env) (random env)).
Proof.
  intros doc Hid Hp Hav Hreq Hvalid Hr0 Hr1 Hfresh Htaken.
  split; [|reflexivity].
  unfold createBooking. rewrite Hreq, Hid. cbn [default].
  unfold resolves in Hr0, Hr1. async.
  rewrite (proj2 (create_validation env requester body) Hvalid). fold doc.
  destruct (outcomes env) as [|[e0|] [|[e1|] outs]]; cbn in *; try discriminate.
  all: rewrite Hp; cbn; rewrite bool_decide_eq_true_2 by assumption; cbn.
  all: rewrite Hfresh, Htaken; reflexivity.
Qed.

Lemma coupon_collision_not_retried_witness :
  coupon_taken (couponCode (new_booking Sample.env1 Sample.bob Sample.body0))
    (bookings Sample.store1) = true
  /\ createBooking Sample.env1 Sample.bob Sample.body0 Sample.store1
     = (json 500 "Failed to create booking" (WithError (DuplicateKey "couponCode")),
        Sample.store1).
Proof.
  assert (Ht : coupon_taken
                 (couponCode (new_booking Sample.env1 Sample.bob Sample.body0))
                 (bookings Sample.store1) = true)
    by (vm_compute; reflexivity).
  split; [exact Ht|].
  refine (proj1 (coupon_collision_not_retried Sample.env1 Sample.bob Sample.body0
                   Sample.store1 1 Sample.laptop _ _ _ _ _ _ _ _ Ht));
    vm_compute; reflexivity.
Defined.

(** C6, as the specification states it, fails: Bob's request draws the
    coupon code Ann's booking holds; the route does not try another code
    and answers 500 with the raw duplicate-key error, where the claim has
    a retry and, at the end of the retries, a conflict. The same request
    with another random number is accepted. *)
Lemma coupon_collision_surfaces_raw_error :
  coupon_taken (generateCouponCode (now Sample.env1) (random Sample.env1))
    (bookings Sample.store1) = true
  /\ createBooking Sample.env1 Sample.bob Sample.body0 Sample.store1
     = (json 500 "Failed to create booking" (WithError (DuplicateKey "couponCode")),
        Sample.store1)
  /\ statusCode (fst (createBooking Sample.env3 Sample.bob Sample.body0
                         Sample.store1)) = 201.
Proof.
  split; [vm_compute; reflexivity|]. split; vm_compute; reflexivity.
Qed.

(** ** Lookup by coupon code *)

(** C8: the lookup by coupon code gives the same answer and leaves the
    same store for a code and for its upper-case form: the route
    upper-cases the parameter before the exact match. In a store reached
    from an empty booking collection every stored code is upper-case and
    held by one booking, so a query in any letter case whose upper-case
    form is the code of a stored booking finds that booking: the answer to
    an authorized requester is 200 with it. *)
Theorem coupon_lookup_ignores_case env requester code s :
  getBookingByCoupon env requester code s
  = getBookingByCoupon env requester (Js.toUpperCase code) s
  /\ (forall trace s0 id b,
        bookings s0 = ∅ ->
        s = run trace s0 ->
        bookings s !! id = Some b ->
        Js.toUpperCase code = couponCode b ->
        Js.toUpperCase (couponCode b) = couponCode b
        /\ (resolves 0 (outcomes env) = true ->
            is_Some (users s !! userId b) ->
            authorized requester b ->
            getBookingByCoupon env requester code s
            = (json 200 "" (WithBooking b), s))).
Proof.
  split.
  - unfold getBookingByCoupon. rewrite toUpperCase_idempotent. reflexivity.
  - intros trace s0 id b Hempty -> Hb Hcode.
    destruct (run_coupons trace s0) as [Huniq Hup].
    { rewrite Hempty. split.
      - intros i j bi bj Hi. rewrite lookup_empty in Hi. discriminate.
      - intros i bi Hi. rewrite lookup_empty in Hi. discriminate. }
    split; [eapply Hup; eassumption|].
    intros Hr [owner Howner] Hauth.
    unfold getBookingByCoupon, resolves in *. async. rewrite Hcode.
    destruct (outcomes env) as [|[e|] outs]; cbn in *; try discriminate.
    all: rewrite (find_by_coupon _ id b Huniq Hb); cbn; rewrite Howner; cbn.
    all: destruct Hauth as [Hadm|Hown];
      [ rewrite (bool_decide_eq_true_2 _ Hadm)
      | rewrite (bool_decide_eq_true_2 _ Hown), ?andb_false_r ];
      reflexivity.
Qed.

Lemma coupon_lookup_ignores_case_witness :
  getBookingByCoupon Sample.env1 Sample.ann "git-loyw3v28-e7b9" Sample.store1
  = getBookingByCoupon Sample.env1 Sample.ann "GIT-LOYW3V28-E7B9" Sample.store1
  /\ getBookingByCoupon Sample.env1 Sample.ann "git-loyw3v28-e7b9" Sample.store1
     = (json 200 "" (WithBooking Sample.booking0), Sample.store1).
Proof.
  destruct (coupon_lookup_ignores_case Sample.env1 Sample.ann
              "git-loyw3v28-e7b9" Sample.store1) as [Hsame Hfound].
  split; [exact Hsame|].
  assert (H1 : bookings Sample.store0 = ∅) by reflexivity.
  assert (H2 : Sample.store1
               = run [ (Sample.env0, CreateBooking Sample.ann Sample.body0) ]
                   Sample.store0)
    by (vm_compute; reflexivity).
  assert (H3 : bookings Sample.store1 !! 100%N = Some Sample.booking0)
    by (vm_compute; reflexivity).
  assert (H4 : Js.toUpperCase "git-loyw3v28-e7b9" = couponCode Sample.booking0)
    by (vm_compute; reflexivity).
  destruct (Hfound _ _ _ _ H1 H2 H3 H4) as [_ Hresp].
  apply Hresp.
  - reflexivity.
  - vm_compute. eexists. reflexivity.
  - right. reflexivity.
Defined.

(** ** The view counter *)

(** C9, as the code has it: the fetch of an active product awaits the
    increment of the view counter inside the [try] of the route. When the
    lookup goes through and the increment goes through, the answer is 200
    with the product as read before the increment, and the stored counter
    is one more; when the increment rejects, the answer is the one of the
    [catch] (500 "Server error while fetching product", 400 for a
    CastError), without the product, and the store is unchanged. *)
Theorem getProduct_awaits_view_increment env id s p :
  products s !! id = Some p ->
  isActive p = true ->
  resolves 0 (outcomes env) = true ->
  getProduct env id s
  = match outcomes env !! 1%nat with
    | Some (Some e) => (product_catch "Server error while fetching product" e, s)
    | _ => (json 200 "" (WithProduct p),
            set_products (<[id := set_views (views p + 1) p]> (products s)) s)
    end.
Proof.
  intros Hp Hact Hr. unfold getProduct, resolves in *. async.
  destruct (outcomes env) as [|[e0|] [|[e1|] outs]]; cbn in *; try discriminate.
  all: rewrite Hp; cbn; rewrite Hact; cbn; rewrite ?Hp; reflexivity.
Qed.

Lemma getProduct_awaits_view_increment_witness :
  products Sample.store0 !! 1%N = Some Sample.laptop
  /\ isActive Sample.laptop = true
  /\ resolves 0 (outcomes Sample.env0) = true
  /\ fst (getProduct Sample.env0 1 Sample.store0)
     = json 200 "" (WithProduct Sample.laptop)
  /\ (views <$> products (snd (getProduct Sample.env0 1 Sample.store0)) !! 1%N)
     = Some 1%Z.
Proof.
  assert (Hp : products Sample.store0 !! 1%N = Some Sample.laptop)
    by (vm_compute; reflexivity).
  split; [exact Hp|]. split; [reflexivity|]. split; [reflexivity|].
  rewrite (getProduct_awaits_view_increment Sample.env0 1 Sample.store0
             Sample.laptop Hp eq_refl eq_refl).
  split; vm_compute; reflexivity.
Defined.

(** C9, as the specification states it, fails: the laptop exists and is
    active, the lookup goes through, the increment of the view counter
    rejects, and the fetch answers 500 without the product. *)
Lemma view_increment_failure_fails_read :
  products Sample.store0 !! 1%N = Some Sample.laptop
  /\ isActive Sample.laptop = true
  /\ outcomes Sample.env2 = [None; Some StoreError]
  /\ getProduct Sample.env2 1 Sample.store0
     = (json 500 "Server error while fetching product" NoPayload, Sample.store0).
Proof. repeat split; vm_compute; reflexivity. Qed.

(** ** The random suffix of a coupon code *)

(** C7 at [Math.random() = 0.5], whose base-36 form is "0.i": the
    characters 2 to 5 of it are the one letter, the code has a suffix of
    one character and does not match [GIT-[A-Z0-9]+-[A-Z0-9]{4}]. At
    [Math.random() = 0] the suffix is empty. *)
Theorem coupon_suffix_short_at_half :
  Js.numToString36 (2 ^ 52) = "0.i"
  /\ generateCouponCode 1700000000000 (2 ^ 52) = "GIT-LOYW3V28-I"
  /\ matches_coupon_pattern (generateCouponCode 1700000000000 (2 ^ 52)) = false
  /\ generateCouponCode 1700000000000 0 = "GIT-LOYW3V28-".
Proof. repeat split; vm_compute; reflexivity. Qed.

(** * More properties of the routes *)

(** ** What the routes change, document by document *)

Lemma handle_step env r s :
  bookings_step env (bookings s) (bookings (snd (handle env r s))).
Proof.
  destruct r; cbn [handle].
  - unfold createBooking. async.
    repeat (case_match; simplify_eq/=); settle_step.
  - unfold getBooking. async.
    repeat (case_match; simplify_eq/=); settle_step.
  - unfold cancelBooking. async.
    repeat (case_match; simplify_eq/=); negated_tests; settle_step.
  - unfold completeBooking. async.
    repeat (case_match; simplify_eq/=); negated_tests; settle_step.
  - unfold getBookingByCoupon. async.
    repeat (case_match; simplify_eq/=); settle_step.
  - unfold getProduct. async.
    repeat (case_match; simplify_eq/=); settle_step.
  - unfold deleteProduct. async.
    repeat (case_match; simplify_eq/=); settle_step.
Qed.

Lemma step_keeps_order env m m' id b :
  bookings_step env m m' ->
  m !! id = Some b ->
  exists b', m' !! id = Some b'
             /\ order_of b' = order_of b
             /\ (terminal (status b) -> b' = b).
Proof.
  intros Hstep Hb.
  destruct Hstep as [->|requester body Hfresh ->|id0 b0 H0 Hc ->
                    |id0 b0 r H0 Hc ->|id0 b0 H0 Hc ->].
  - exists b. auto.
  - exists b. rewrite lookup_insert_ne; [auto|]. intros <-. congruence.
  - destruct (decide (id0 = id)) as [->|Hne].
    + rewrite lookup_insert_eq. eexists. split; [reflexivity|].
      assert (b0 = b) by congruence. subst b0.
      split; [reflexivity|]. intros [Ht|Ht]; congruence.
    + exists b. rewrite lookup_insert_ne by done. auto.
  - destruct (decide (id0 = id)) as [->|Hne].
    + rewrite lookup_insert_eq. eexists. split; [reflexivity|].
      assert (b0 = b) by congruence. subst b0.
      split; [reflexivity|]. intros [Ht|Ht]; congruence.
    + exists b. rewrite lookup_insert_ne by done. auto.
  - destruct (decide (id0 = id)) as [->|Hne].
    + rewrite lookup_insert_eq. eexists. split; [reflexivity|].
      assert (b0 = b) by congruence. subst b0.
      split; [reflexivity|]. intros [Ht|Ht]; congruence.
    + exists b. rewrite lookup_insert_ne by done. auto.
Qed.

Lemma run_keeps_order trace s id b :
  bookings s !! id = Some b ->
  exists b', bookings (run trace s) !! id = Some b'
             /\ order_of b' = order_of b
             /\ (terminal (status b) -> b' = b).
Proof.
  revert s b. induction trace as [|[env r] trace IH]; intros s b Hb; cbn [run].
  - exists b. auto.
  - destruct (step_keeps_order env _ _ id b (handle_step env r s) Hb)
      as (b1 & Hb1 & Ho1 & Hf1).
    destruct (IH _ _ Hb1) as (b2 & Hb2 & Ho2 & Hf2).
    exists b2. split; [assumption|]. split; [congruence|].
    intros Ht. specialize (Hf1 Ht). subst b1. auto.
Qed.

(** X1: a stored booking is never removed and no request changes its
    order data: over any sequence of requests the booking under an id
    differs from the stored one in its lifecycle fields at most (status,
    [cancelledAt], [cancellationReason], [completedAt]); its coupon code,
    owner, product reference and snapshot, customer fields, quantity,
    dates and prices stay. *)
Theorem booking_order_data_immutable trace s id b :
  bookings s !! id = Some b ->
  exists b',
    bookings (run trace s) !! id = Some b'
    /\ order_of b' = order_of b
    /\ couponCode b' = couponCode b
    /\ userId b' = userId b
    /\ productId b' = productId b
    /\ productName b' = productName b
    /\ totalAmount b' = totalAmount b.
Proof.
  intros Hb. destruct (run_keeps_order trace s id b Hb) as (b' & Hb' & Ho & _).
  exists b'. split; [assumption|]. split; [assumption|].
  repeat split.
  - apply (f_equal couponCode) in Ho. exact Ho.
  - apply (f_equal userId) in Ho. exact Ho.
  - apply (f_equal productId) in Ho. exact Ho.
  - apply (f_equal productName) in Ho. exact Ho.
  - apply (f_equal totalAmount) in Ho. exact Ho.
Qed.

Lemma booking_order_data_immutable_witness :
  bookings Sample.store1 !! 100%N = Some Sample.booking0
  /\ exists b',
       bookings (run [ (Sample.env1, CancelBooking Sample.ann 100 None) ]
                   Sample.store1) !! 100%N = Some b'
       /\ couponCode b' = "GIT-LOYW3V28-E7B9".
Proof.
  assert (Hb : bookings Sample.store1 !! 100%N = Some Sample.booking0)
    by (vm_compute; reflexivity).
  split; [exact Hb|].
  destruct (booking_order_data_immutable
              [ (Sample.env1, CancelBooking Sample.ann 100 None) ]
              Sample.store1 100 Sample.booking0 Hb)
    as (b' & Hb' & _ & Hcode & _).
  exists b'. split; [exact Hb'|]. rewrite Hcode. vm_compute. reflexivity.
Defined.

(** X2: a cancelled or completed booking never changes again: over any
    sequence of requests the document stored under its id stays the same,
    so [cancelledAt], [completedAt] and the cancellation reason are
    written once. *)
Theorem terminal_booking_frozen trace s id b :
  bookings s !! id = Some b ->
  terminal (status b) ->
  bookings (run trace s) !! id = Some b.
Proof.
  intros Hb Ht. destruct (run_keeps_order trace s id b Hb) as (b' & Hb' & _ & Hf).
  rewrite Hb'. f_equal. auto.
Qed.

Lemma terminal_booking_frozen_witness :
  bookings Sample.store2 !! 100%N = Some Sample.booking0_cancelled
  /\ terminal (status Sample.booking0_cancelled)
  /\ bookings (run [ (Sample.env1, CompleteBooking Sample.root 100);
                     (Sample.env1, CancelBooking Sample.root 100 (Some "again")) ]
                 Sample.store2) !! 100%N = Some Sample.booking0_cancelled.
Proof.
  assert (Hb : bookings Sample.store2 !! 100%N = Some Sample.booking0_cancelled)
    by (vm_compute; reflexivity).
  assert (Ht : terminal (status Sample.booking0_cancelled)) by (left; reflexivity).
  split; [exact Hb|]. split; [exact Ht|].
  apply (terminal_booking_frozen _ Sample.store2 100 _ Hb Ht).
Defined.

(** ** Creating, cancelling and completing *)

(** X3: the create route answers 201 exactly when the required fields are
    present, the product exists and is Available, the document passes the
    schema validators (the date of the request is a date, in particular),
    both awaited calls go through, the new id is free and no booking holds
    the coupon code. It then stores the new document under the new id and
    changes nothing else; with any other answer the store is left as it
    was. *)
Theorem create_succeeds_exactly_when env requester body s :
  let doc := new_booking env requester body in
  let creatable :=
    missing_required body = false
    /\ (exists pid p, body_productId body = Some pid
                      /\ products s !! pid = Some p
                      /\ availability p = Available)
    /\ invalid_paths doc = []
    /\ resolves 0 (outcomes env) = true
    /\ resolves 1 (outcomes env) = true
    /\ bookings s !! newId env = None
    /\ coupon_taken (couponCode doc) (bookings s) = false in
  (creatable ->
   createBooking env requester body s
   = (json 201 "Booking created successfully" (WithBooking doc),
      set_bookings (<[newId env := doc]> (bookings s)) s))
  /\ (statusCode (fst (createBooking env requester body s)) = 201 -> creatable)
  /\ (statusCode (fst (createBooking env requester body s)) <> 201 ->
      snd (createBooking env requester body s) = s).
Proof.
  intros doc creatable. subst creatable. split; [|split].
  - intros (Hreq & (pid & p & Hid & Hp & Hav) & Hvalid & Hr0 & Hr1 & Hfresh & Hfree).
    unfold createBooking. rewrite Hreq, Hid. cbn [default].
    unfold resolves in Hr0, Hr1. async.
    rewrite (proj2 (create_validation env requester body) Hvalid). fold doc.
    destruct (outcomes env) as [|[e0|] [|[e1|] outs]]; cbn in *; try discriminate.
    all: rewrite Hp; cbn; rewrite bool_decide_eq_true_2 by assumption; cbn.
    all: rewrite Hfresh, Hfree; reflexivity.
  - unfold createBooking, resolves. async.
    destruct (missing_required body) eqn:Hreq; [cbn; discriminate|].
    destruct (body_productId body) as [pid|] eqn:Hid;
      [|unfold missing_required in Hreq; rewrite Hid in Hreq; discriminate].
    cbn [default].
    destruct (outcomes env) as [|[e0|] outs]; cbn; try discriminate.
    all: destruct (products s !! pid) as [p|] eqn:Hp; cbn; try discriminate.
    all: destruct (bool_decide (availability p = Available)) eqn:Hav; cbn;
      try discriminate; apply bool_decide_eq_true_1 in Hav.
    all: destruct (rejected_paths _ _) eqn:Hvalid; cbn; try discriminate.
    all: apply create_validation in Hvalid; fold doc in Hvalid |- *.
    2: destruct outs as [|[e1|] outs]; cbn; try discriminate.
    all: destruct (bookings s !! newId env) eqn:Hfresh; cbn; try discriminate.
    all: destruct (coupon_taken (couponCode doc) (bookings s)) eqn:Hfree; cbn;
      try discriminate.
    all: intros _; repeat split; eauto.
  - unfold createBooking. async.
    repeat (case_match; simplify_eq/=); done.
Qed.

(** Ann sends the date as the ISO string of the epoch: the string is
    truthy, it casts to the time value 0, and the booking is created. *)
Lemma create_succeeds_exactly_when_witness :
  let doc := new_booking Sample.env0 Sample.ann Sample2.body_epoch_iso in
  createBooking Sample.env0 Sample.ann Sample2.body_epoch_iso Sample.store0
  = (json 201 "Booking created successfully" (WithBooking doc),
     set_bookings (<[100%N := doc]> (bookings Sample.store0)) Sample.store0)
  /\ bookingDate doc = Some 0%Z.
Proof.
  split; [|vm_compute; reflexivity].
  apply (proj1 (create_succeeds_exactly_when Sample.env0 Sample.ann
                  Sample2.body_epoch_iso Sample.store0)).
  split; [reflexivity|]. split.
  - exists 1%N, Sample.laptop. repeat split; vm_compute; reflexivity.
  - repeat split; vm_compute; reflexivity.
Defined.


Lemma in_required_string path value :
  value = "" -> In path (required_string path value).
Proof. intros ->. left. reflexivity. Qed.

Lemma includes_In xs x : includes xs x = true <-> In x xs.
Proof.
  unfold includes. rewrite existsb_exists. split.
  - intros (y & Hy & Heq). apply String.eqb_eq in Heq. now subst.
  - intros Hx. exists x. split; [assumption|]. apply String.eqb_refl.
Qed.

(** A path whose validator fails is among the rejected ones. *)
Lemma rejected_paths_validator invalidated b path :
  In path (invalid_paths b) -> In path (rejected_paths invalidated b).
Proof.
  intros Hin. unfold rejected_paths. apply in_or_app.
  destruct (includes invalidated path) eqn:E.
  - left. now apply includes_In.
  - right. apply filter_In. split; [assumption|]. now rewrite E.
Qed.

(** X4: a request that passes the required-fields test can still fail
    when the document is built or validated, and is then answered 500,
    not 400. For a product that exists and is Available and a lookup that
    goes through: a customer name of white space only is truthy but empty
    once trimmed, a negative quantity is truthy but below the minimum, and
    a date that is truthy may not be a date. The answer carries the
    validation error with the rejected paths, the path of the date first;
    the insert is not attempted and the store is unchanged. *)
Theorem create_validation_failure env requester body s pid p :
  let doc := new_booking env requester body in
  let rejected := rejected_paths (uncastable env body) doc in
  let blank_name :=
    exists name, body_customerName body = Some name /\ Js.trim name = "" in
  let negative_quantity :=
    exists q, body_quantity body = Some q /\ (q < 0)%Z in
  let no_date :=
    exists v, body_bookingDate body = Some v /\ castDate env v = None in
  body_productId body = Some pid ->
  products s !! pid = Some p ->
  availability p = Available ->
  missing_required body = false ->
  resolves 0 (outcomes env) = true ->
  blank_name \/ negative_quantity \/ no_date ->
  createBooking env requester body s
  = (json 500 "Failed to create booking" (WithError (ValidationError rejected)), s)
  /\ (blank_name -> In "customerName" rejected)
  /\ (negative_quantity -> In "quantity" rejected)
  /\ (no_date -> head rejected = Some "bookingDate").
Proof.
  intros doc rejected blank_name negative_quantity no_date Hid Hp Hav Hreq Hr0 Hbad.
  assert (Hname : blank_name -> In "customerName" rejected).
  { intros (name & Hn & Ht). apply rejected_paths_validator. unfold invalid_paths.
    do 3 (apply in_or_app; right). apply in_or_app; left.
    apply in_required_string. unfold doc, new_booking. cbn. rewrite Hn. exact Ht. }
  assert (Hqty : negative_quantity -> In "quantity" rejected).
  { intros (q & Hq & Hlt). apply rejected_paths_validator. unfold invalid_paths.
    do 6 (apply in_or_app; right). apply in_or_app; left.
    unfold doc, new_booking, in_range. cbn. rewrite Hq. cbn.
    destruct (Z.ltb_spec q 1); [left; reflexivity|lia]. }
  assert (Hdate : no_date -> head rejected = Some "bookingDate").
  { intros (v & Hv & Hcast). unfold rejected, rejected_paths, uncastable.
    rewrite Hv, Hcast. reflexivity. }
  split; [|split; [|split]; assumption].
  assert (Hne : rejected <> []).
  { destruct Hbad as [H|[H|H]];
      [apply Hname in H|apply Hqty in H|apply Hdate in H];
      destruct rejected; (contradiction || discriminate). }
  unfold createBooking. rewrite Hreq, Hid. cbn [default].
  unfold resolves in Hr0. async. fold doc. fold rejected.
  destruct rejected as [|path paths] eqn:Hpaths; [congruence|].
  destruct (outcomes env) as [|[e0|] outs]; cbn in *; try discriminate.
  all: rewrite Hp; cbn; rewrite bool_decide_eq_true_2 by assumption; reflexivity.
Qed.

(** A customer name made of a no-break space and an ideographic space, and
    a date that reads "soon". *)
Lemma create_validation_failure_witness :
  Js.trim Sample2.wide_blank = ""
  /\ createBooking Sample.env0 Sample.ann Sample2.body_wide_blank Sample.store0
     = (json 500 "Failed to create booking"
          (WithError (ValidationError ["customerName"])), Sample.store0)
  /\ createBooking Sample.env0 Sample.ann Sample2.body_soon Sample.store0
     = (json 500 "Failed to create booking"
          (WithError (ValidationError ["bookingDate"])), Sample.store0).
Proof.
  assert (Ht : Js.trim Sample2.wide_blank = "") by (vm_compute; reflexivity).
  split; [exact Ht|]. split.
  - destruct (create_validation_failure Sample.env0 Sample.ann
                Sample2.body_wide_blank Sample.store0 1 Sample.laptop)
      as (Hresp & _);
      [vm_compute; reflexivity .. | | ].
    + left. exists Sample2.wide_blank. split; [reflexivity|exact Ht].
    + rewrite Hresp. vm_compute. reflexivity.
  - destruct (create_validation_failure Sample.env0 Sample.ann
                Sample2.body_soon Sample.store0 1 Sample.laptop)
      as (Hresp & _);
      [vm_compute; reflexivity .. | | ].
    + right; right. exists (DateString "soon"). split; reflexivity.
    + rewrite Hresp. vm_compute. reflexivity.
Defined.


(** X5: the tests of the create route in their order. A request with a
    missing required field is answered 400 before any store call, whatever
    the store would answer; a quantity of 0, an empty customer name and a
    date sent as the number 0 count as missing. With the fields present, a
    product id that is not in the catalog is answered 404. The store is
    unchanged in both cases. *)
Theorem create_rejects_in_order env requester body s :
  (missing_required body = true ->
   createBooking env requester body s
   = (json 400 "Please provide all required fields" NoPayload, s))
  /\ (body_quantity body = Some 0%Z -> missing_required body = true)
  /\ (forall name, body_customerName body = Some name -> name = "" ->
      missing_required body = true)
  /\ (body_bookingDate body = Some (TimeValue 0) -> missing_required body = true)
  /\ (missing_required body = false ->
      resolves 0 (outcomes env) = true ->
      forall pid, body_productId body = Some pid ->
      products s !! pid = None ->
      createBooking env requester body s
      = (json 404 "Product not found" NoPayload, s)).
Proof.
  split; [|split; [|split; [|split]]].
  - intros Hreq. unfold createBooking. rewrite Hreq. reflexivity.
  - intros Hq. unfold missing_required. rewrite Hq. cbn.
    rewrite !orb_true_r. reflexivity.
  - intros name Hn ->. unfold missing_required. rewrite Hn. cbn.
    rewrite !orb_true_r. reflexivity.
  - intros Hd. unfold missing_required. rewrite Hd. cbn.
    rewrite !orb_true_r. reflexivity.
  - intros Hreq Hr0 pid Hid Hp. unfold createBooking. rewrite Hreq, Hid.
    cbn [default]. unfold resolves in Hr0. async.
    destruct (outcomes env) as [|[e0|] outs]; cbn in *; try discriminate.
    all: rewrite Hp; reflexivity.
Qed.

(** A quantity of 0, and the epoch sent as the number 0, with a first call
    that would go through and a second that would not. *)
Lemma create_rejects_in_order_witness :
  body_quantity Sample2.body_zero = Some 0%Z
  /\ createBooking Sample.env2 Sample.ann Sample2.body_zero Sample.store0
     = (json 400 "Please provide all required fields" NoPayload, Sample.store0)
  /\ body_bookingDate Sample2.body_epoch = Some (TimeValue 0)
  /\ createBooking Sample.env2 Sample.ann Sample2.body_epoch Sample.store0
     = (json 400 "Please provide all required fields" NoPayload, Sample.store0).
Proof.
  split; [reflexivity|].
  destruct (create_rejects_in_order Sample.env2 Sample.ann Sample2.body_zero
              Sample.store0) as (H400 & Hzero & _).
  split; [apply H400, Hzero; reflexivity|].
  split; [reflexivity|].
  destruct (create_rejects_in_order Sample.env2 Sample.ann Sample2.body_epoch
              Sample.store0) as (H400' & _ & _ & Hdate & _).
  apply H400', Hdate. reflexivity.
Defined.


Lemma invalid_paths_lifecycle b st at1 r at2 :
  invalid_paths
    (set_cancellationReason r (set_cancelledAt at1 (set_completedAt at2 (set_status st b))))
  = invalid_paths b.
Proof. reflexivity. Qed.

Lemma reason_or_default_nonempty reason isAdmin :
  reason_or_default reason isAdmin <> "".
Proof.
  unfold reason_or_default, truthy_string.
  destruct reason as [r|]; cbn.
  - destruct (String.eqb_spec r ""); cbn; [destruct isAdmin; discriminate|assumption].
  - destruct isAdmin; discriminate.
Qed.

(** X6: the cancel route answers 200 on a stored booking exactly when the
    requester is admin or owner, the booking is confirmed, the document
    passes the validators and the three awaited calls go through. The
    stored document is then the booking with status cancelled,
    [cancelledAt] at the clock of the request and the cancellation reason
    of the caller or, without one, the default of the requester's role;
    the reason is never empty and the order data are unchanged. *)
Theorem cancel_succeeds_exactly_when env requester id reason s b :
  bookings s !! id = Some b ->
  let doc :=
    set_cancellationReason
      (Some (reason_or_default reason (bool_decide (role requester = admin))))
      (stamped_cancelled (now env) b) in
  let cancellable :=
    authorized requester b
    /\ status b = confirmed
    /\ invalid_paths b = []
    /\ resolves 0 (outcomes env) = true
    /\ resolves 1 (outcomes env) = true
    /\ resolves 2 (outcomes env) = true in
  (cancellable ->
   cancelBooking env requester id reason s
   = (json 200 "Booking cancelled successfully" (WithBooking doc),
      set_bookings (<[id := doc]> (bookings s)) s))
  /\ (statusCode (fst (cancelBooking env requester id reason s)) = 200 ->
      cancellable)
  /\ cancellationReason doc <> Some ""
  /\ order_of doc = order_of b.
Proof.
  intros Hb doc cancellable. subst cancellable.
  assert (Hv1 : invalid_paths (stamped_cancelled (now env) b) = invalid_paths b)
    by reflexivity.
  assert (Hv2 : invalid_paths doc = invalid_paths b) by reflexivity.
  split; [|split; [|split]].
  - intros (Hauth & Hst & Hvalid & Hr0 & Hr1 & Hr2).
    unfold cancelBooking, resolves in *. async.
    fold (stamped_cancelled (now env) b). fold doc.
    assert (Hneg : negb (bool_decide (role requester = admin))
                   && negb (bool_decide (userId b = user_id requester)) = false).
    { destruct Hauth as [H|H]; rewrite (bool_decide_eq_true_2 _ H); cbn;
        [reflexivity|apply andb_false_r]. }
    destruct (outcomes env) as [|[e0|] [|[e1|] [|[e2|] outs]]]; cbn in *;
      try discriminate.
    all: rewrite Hb; cbn; rewrite Hneg, Hst; decide_tests; cbn.
    all: fold (stamped_cancelled (now env) b); rewrite Hv1, Hvalid; cbn.
    all: fold (stamped_cancelled (now env) b); fold doc; rewrite Hv2, Hvalid; cbn.
    all: rewrite insert_insert_eq; reflexivity.
  - intros H200.
    assert (Hfacts :
      (negb (bool_decide (role requester = admin))
       && negb (bool_decide (userId b = user_id requester)) = false)
      /\ bool_decide (status b = cancelled) = false
      /\ bool_decide (status b = completed) = false
      /\ invalid_paths b = []
      /\ resolves 0 (outcomes env) = true
      /\ resolves 1 (outcomes env) = true
      /\ resolves 2 (outcomes env) = true).
    { revert H200. unfold cancelBooking, resolves. async.
      repeat (case_match; simplify_eq/=); try done.
      all: intros _; repeat split; try done.
      all: match goal with H : invalid_paths _ = [] |- _ => exact H end. }
    destruct Hfacts as (Hneg & Hc1 & Hc2 & Hvalid & Hr0 & Hr1 & Hr2).
    repeat split; try assumption.
    + unfold authorized. apply andb_false_iff in Hneg as [H|H];
        apply negb_false_iff, bool_decide_eq_true_1 in H; auto.
    + negated_tests. destruct (status b); congruence.
  - cbn. intros H. injection H as H. revert H. apply reason_or_default_nonempty.
  - reflexivity.
Qed.

Lemma cancel_succeeds_exactly_when_witness :
  bookings Sample.store1 !! 100%N = Some Sample.booking0
  /\ cancelBooking Sample.env1 Sample.root 100 (Some "") Sample.store1
     = (json 200 "Booking cancelled successfully"
          (WithBooking
             (set_cancellationReason (Some "Cancelled by Admin")
                (stamped_cancelled 1700000000000 Sample.booking0))),
        set_bookings
          (<[100%N := set_cancellationReason (Some "Cancelled by Admin")
                        (stamped_cancelled 1700000000000 Sample.booking0)]>
             (bookings Sample.store1)) Sample.store1).
Proof.
  assert (Hb : bookings Sample.store1 !! 100%N = Some Sample.booking0)
    by (vm_compute; reflexivity).
  split; [exact Hb|].
  apply (proj1 (cancel_succeeds_exactly_when Sample.env1 Sample.root 100 (Some "")
                  Sample.store1 Sample.booking0 Hb)).
  split; [left; reflexivity|]. repeat split; vm_compute; reflexivity.
Defined.


(** X7: a 500 from the cancel route does not mean that nothing was
    written. The route saves twice: when the first save goes through and
    the second rejects, the answer is 500 and the booking is stored as
    cancelled, with [cancelledAt] set and the cancellation reason it had
    before. *)
Theorem cancel_half_done env requester id reason s b e :
  bookings s !! id = Some b ->
  authorized requester b ->
  status b = confirmed ->
  invalid_paths b = [] ->
  resolves 0 (outcomes env) = true ->
  resolves 1 (outcomes env) = true ->
  outcomes env !! 2%nat = Some (Some e) ->
  cancelBooking env requester id reason s
  = (json 500 "Failed to cancel booking" (WithError e),
     set_bookings (<[id := stamped_cancelled (now env) b]> (bookings s)) s)
  /\ status (stamped_cancelled (now env) b) = cancelled
  /\ cancellationReason (stamped_cancelled (now env) b) = cancellationReason b.
Proof.
  intros Hb Hauth Hst Hvalid Hr0 Hr1 He. split; [|split; reflexivity].
  assert (Hv1 : invalid_paths (stamped_cancelled (now env) b) = invalid_paths b)
    by reflexivity.
  assert (Hneg : negb (bool_decide (role requester = admin))
                 && negb (bool_decide (userId b = user_id requester)) = false).
  { destruct Hauth as [H|H]; rewrite (bool_decide_eq_true_2 _ H); cbn;
      [reflexivity|apply andb_false_r]. }
  unfold cancelBooking, resolves in *. async.
  destruct (outcomes env) as [|[e0|] [|[e1|] [|[e2|] outs]]]; cbn in *;
    try discriminate.
  injection He as ->.
  rewrite Hb; cbn; rewrite Hneg, Hst; decide_tests; cbn.
  fold (stamped_cancelled (now env) b); rewrite Hv1, Hvalid; cbn.
  fold (stamped_cancelled (now env) b).
  change (invalid_paths (set_cancellationReason _ (stamped_cancelled (now env) b)))
    with (invalid_paths b).
  rewrite Hvalid. reflexivity.
Qed.

Lemma cancel_half_done_witness :
  bookings Sample.store1 !! 100%N = Some Sample.booking0
  /\ outcomes Sample2.env5 !! 2%nat = Some (Some StoreError)
  /\ cancelBooking Sample2.env5 Sample.ann 100 (Some "changed my mind") Sample.store1
     = (json 500 "Failed to cancel booking" (WithError StoreError),
        set_bookings
          (<[100%N := stamped_cancelled 1700000900000 Sample.booking0]>
             (bookings Sample.store1)) Sample.store1).
Proof.
  assert (Hb : bookings Sample.store1 !! 100%N = Some Sample.booking0)
    by (vm_compute; reflexivity).
  split; [exact Hb|]. split; [reflexivity|].
  apply (proj1 (cancel_half_done Sample2.env5 Sample.ann 100 (Some "changed my mind")
                  Sample.store1 Sample.booking0 StoreError Hb
                  (or_intror eq_refl) eq_refl eq_refl eq_refl eq_refl eq_refl)).
Defined.


(** X8: the complete route answers 200 on a stored booking exactly when
    the requester is admin, the booking is confirmed, the document passes
    the validators and the three awaited calls go through. The stored
    document is then the booking with status completed and [completedAt]
    at the clock of the request; order data and cancellation reason are
    unchanged. *)
Theorem complete_succeeds_exactly_when env requester id s b :
  bookings s !! id = Some b ->
  let doc := stamped_completed (now env) b in
  let completable :=
    role requester = admin
    /\ status b = confirmed
    /\ invalid_paths b = []
    /\ resolves 0 (outcomes env) = true
    /\ resolves 1 (outcomes env) = true
    /\ resolves 2 (outcomes env) = true in
  (completable ->
   completeBooking env requester id s
   = (json 200 "Booking marked as completed successfully" (WithBooking doc),
      set_bookings (<[id := doc]> (bookings s)) s))
  /\ (statusCode (fst (completeBooking env requester id s)) = 200 -> completable)
  /\ order_of doc = order_of b
  /\ cancellationReason doc = cancellationReason b.
Proof.
  intros Hb doc completable. subst completable.
  assert (Hv : invalid_paths doc = invalid_paths b) by reflexivity.
  split; [|split; [|split; reflexivity]].
  - intros (Hadm & Hst & Hvalid & Hr0 & Hr1 & Hr2).
    unfold completeBooking, resolves in *. async.
    rewrite (bool_decide_eq_true_2 _ Hadm). cbn.
    destruct (outcomes env) as [|[e0|] [|[e1|] [|[e2|] outs]]]; cbn in *;
      try discriminate.
    all: rewrite Hb; cbn; rewrite Hst; decide_tests; cbn.
    all: fold (stamped_completed (now env) b); fold doc; rewrite Hv, Hvalid; cbn.
    all: fold (stamped_completed (now env) b); fold doc; rewrite Hv, Hvalid; cbn.
    all: rewrite insert_insert_eq; reflexivity.
  - intros H200.
    assert (Hfacts :
      bool_decide (role requester = admin) = true
      /\ bool_decide (status b = cancelled) = false
      /\ bool_decide (status b = completed) = false
      /\ invalid_paths b = []
      /\ resolves 0 (outcomes env) = true
      /\ resolves 1 (outcomes env) = true
      /\ resolves 2 (outcomes env) = true).
    { revert H200. unfold completeBooking, resolves. async.
      repeat (case_match; simplify_eq/=); try done.
      all: intros _; repeat split; try done.
      all: try match goal with H : negb _ = false |- _ =>
                 apply negb_false_iff in H; exact H end.
      all: match goal with H : invalid_paths _ = [] |- _ => exact H end. }
    destruct Hfacts as (Hadm & Hc1 & Hc2 & Hvalid & Hr0 & Hr1 & Hr2).
    repeat split; try assumption.
    + apply bool_decide_eq_true_1 in Hadm. exact Hadm.
    + negated_tests. destruct (status b); congruence.
Qed.

Lemma complete_succeeds_exactly_when_witness :
  bookings Sample.store1 !! 100%N = Some Sample.booking0
  /\ completeBooking Sample.env1 Sample.root 100 Sample.store1
     = (json 200 "Booking marked as completed successfully"
          (WithBooking (stamped_completed 1700000000000 Sample.booking0)),
        set_bookings
          (<[100%N := stamped_completed 1700000000000 Sample.booking0]>
             (bookings Sample.store1)) Sample.store1).
Proof.
  assert (Hb : bookings Sample.store1 !! 100%N = Some Sample.booking0)
    by (vm_compute; reflexivity).
  split; [exact Hb|].
  apply (proj1 (complete_succeeds_exactly_when Sample.env1 Sample.root 100
                  Sample.store1 Sample.booking0 Hb)).
  repeat split; vm_compute; reflexivity.
Defined.


(** ** Reading a booking *)

(** X9: an id that no booking has. When the lookup goes through, reading
    and cancelling answer 404 to every requester; completing answers 404
    to an admin and 403 to anyone else, since the role is tested before
    the lookup. The store is unchanged. *)
Theorem missing_booking_answers env requester id reason s :
  bookings s !! id = None ->
  resolves 0 (outcomes env) = true ->
  getBooking env requester id s = (json 404 "Booking not found" NoPayload, s)
  /\ cancelBooking env requester id reason s
     = (json 404 "Booking not found" NoPayload, s)
  /\ completeBooking env requester id s
     = (if bool_decide (role requester = admin)
        then json 404 "Booking not found" NoPayload
        else json 403 "Not authorized. Admin access required." NoPayload, s).
Proof.
  intros Hb Hr0. unfold getBooking, cancelBooking, completeBooking, resolves in *.
  async.
  destruct (bool_decide (role requester = admin)); cbn.
  all: destruct (outcomes env) as [|[e0|] outs]; cbn in *; try discriminate.
  all: rewrite ?Hb; repeat split; reflexivity.
Qed.

Lemma missing_booking_answers_witness :
  bookings Sample.store1 !! 5%N = None
  /\ getBooking Sample.env1 Sample.ann 5 Sample.store1
     = (json 404 "Booking not found" NoPayload, Sample.store1)
  /\ completeBooking Sample.env1 Sample.ann 5 Sample.store1
     = (json 403 "Not authorized. Admin access required." NoPayload, Sample.store1).
Proof.
  assert (Hb : bookings Sample.store1 !! 5%N = None) by (vm_compute; reflexivity).
  destruct (missing_booking_answers Sample.env1 Sample.ann 5 None Sample.store1
              Hb eq_refl) as (Hget & _ & Hcomplete).
  split; [exact Hb|]. split; [exact Hget|exact Hcomplete].
Defined.


(** X10: the answer of the read by id on a stored booking, when the
    lookup goes through: 200 with the booking for an admin and for the
    owner, 403 for anyone else, and 500 for everyone, admin included, when
    the owner's user document does not exist, because the route reads
    [_id] of the populated owner. The store is unchanged. *)
Theorem getBooking_on_stored_booking env requester id s b :
  bookings s !! id = Some b ->
  resolves 0 (outcomes env) = true ->
  getBooking env requester id s
  = (match users s !! userId b with
     | None => json 500 "Failed to fetch booking" (WithError TypeError)
     | Some _ =>
         if bool_decide (role requester = admin)
            || bool_decide (userId b = user_id requester)
         then json 200 "" (WithBooking b)
         else json 403 "Not authorized to view this booking" NoPayload
     end, s).
Proof.
  intros Hb Hr0. unfold getBooking, resolves in *. async.
  destruct (outcomes env) as [|[e0|] outs]; cbn in *; try discriminate.
  all: rewrite Hb; cbn.
  all: destruct (users s !! userId b); cbn; [|reflexivity].
  all: destruct (bool_decide (role requester = admin));
    destruct (bool_decide (userId b = user_id requester)); reflexivity.
Qed.

Lemma getBooking_on_stored_booking_witness :
  bookings Sample.store1 !! 100%N = Some Sample.booking0
  /\ getBooking Sample.env1 Sample.ann 100 Sample.store1
     = (json 200 "" (WithBooking Sample.booking0), Sample.store1)
  /\ getBooking Sample.env1 Sample.root 100 Sample.store1
     = (json 200 "" (WithBooking Sample.booking0), Sample.store1).
Proof.
  assert (Hb : bookings Sample.store1 !! 100%N = Some Sample.booking0)
    by (vm_compute; reflexivity).
  split; [exact Hb|]. split.
  - rewrite (getBooking_on_stored_booking Sample.env1 Sample.ann 100 Sample.store1
               Sample.booking0 Hb eq_refl). vm_compute. reflexivity.
  - rewrite (getBooking_on_stored_booking Sample.env1 Sample.root 100 Sample.store1
               Sample.booking0 Hb eq_refl). vm_compute. reflexivity.
Defined.


(** ** What a route leaves alone *)

(** X11: no modelled route writes the user collection; the booking routes
    never write a product (a booking does not touch stock, availability or
    counters), and the product routes never write a booking. *)
Theorem routes_write_their_collection env r s :
  users (snd (handle env r s)) = users s
  /\ match r with
     | GetProduct _ | DeleteProduct _ =>
         bookings (snd (handle env r s)) = bookings s
     | _ => products (snd (handle env r s)) = products s
     end.
Proof.
  destruct r; cbn [handle].
  - unfold createBooking. async. repeat (case_match; simplify_eq/=); done.
  - unfold getBooking. async. repeat (case_match; simplify_eq/=); done.
  - unfold cancelBooking. async. repeat (case_match; simplify_eq/=); done.
  - unfold completeBooking. async. repeat (case_match; simplify_eq/=); done.
  - unfold getBookingByCoupon. async. repeat (case_match; simplify_eq/=); done.
  - unfold getProduct. async. repeat (case_match; simplify_eq/=); done.
  - unfold deleteProduct. async. repeat (case_match; simplify_eq/=); done.
Qed.

(** ** Coupon codes *)

Lemma lower_upper_alnum c :
  is_lower_alnum c = true -> lower_ascii (Js.upper_ascii c) = c.
Proof. destruct c as [[] [] [] [] [] [] [] []]; vm_compute; intros; congruence. Qed.

Lemma toUpperCase_injective s t :
  all_chars is_lower_alnum s = true ->
  all_chars is_lower_alnum t = true ->
  Js.toUpperCase s = Js.toUpperCase t -> s = t.
Proof.
  revert t. induction s as [|c s IH]; intros [|d t] Hs Ht Heq; cbn in *;
    try discriminate; [reflexivity|].
  apply andb_true_iff in Hs as [Hc Hs]. apply andb_true_iff in Ht as [Hd Ht].
  injection Heq as Hcd Hst. f_equal.
  - rewrite <- (lower_upper_alnum c Hc), <- (lower_upper_alnum d Hd). now rewrite Hcd.
  - now apply IH.
Qed.

Lemma toString36_injective n m : Js.toString36 n = Js.toString36 m -> n = m.
Proof.
  intros H. rewrite <- (toString36_value n), <- (toString36_value m). now rewrite H.
Qed.

Lemma generateCouponCode_parts now rnd :
  generateCouponCode now rnd
  = "GIT-" +:+ Js.toUpperCase (Js.toString36 now) +:+ "-"
    +:+ Js.toUpperCase (Js.substring (Js.numToString36 rnd) 2 6).
Proof. reflexivity. Qed.

(** X13: the clock reading can be read back from a coupon code: two codes
    generated at different values of [Date.now()] differ, whatever the
    random numbers, and so do the coupon codes of two bookings built at
    different clock readings. A collision needs the same millisecond. *)
Theorem coupon_code_determines_timestamp env1 env2 requester1 requester2 body1 body2 :
  now env1 <> now env2 ->
  generateCouponCode (now env1) (random env1)
  <> generateCouponCode (now env2) (random env2)
  /\ couponCode (new_booking env1 requester1 body1)
     <> couponCode (new_booking env2 requester2 body2).
Proof.
  intros Hne.
  assert (Hgen : forall n1 r1 n2 r2,
             Js.toUpperCase (generateCouponCode n1 r1)
             = Js.toUpperCase (generateCouponCode n2 r2) -> n1 = n2).
  { intros n1 r1 n2 r2. rewrite !generateCouponCode_parts.
    rewrite !toUpperCase_app, !toUpperCase_idempotent.
    change (Js.toUpperCase "GIT-") with "GIT-".
    change (Js.toUpperCase "-") with "-".
    rewrite !append_cons, !append_empty. intros H.
    injection H as H.
    assert (Hspan : forall n r,
               span is_upper_alnum
                 (Js.toUpperCase (Js.toString36 n)
                  +:+ String "-" (Js.toUpperCase (Js.substring (Js.numToString36 r) 2 6)))
               = (Js.toUpperCase (Js.toString36 n),
                  String "-" (Js.toUpperCase (Js.substring (Js.numToString36 r) 2 6)))).
    { intros n r. apply span_run; [|reflexivity].
      apply all_upper_of_lower, toString36_lower. }
    pose proof (Hspan n1 r1) as H1. rewrite H, Hspan in H1.
    injection H1 as H1 _.
    apply toString36_injective, toUpperCase_injective;
      auto using toString36_lower. }
  split.
  - intros H. apply Hne, (Hgen _ (random env1) _ (random env2)). now rewrite H.
  - unfold new_booking. cbn. intros H.
    apply Hne, (Hgen _ (random env1) _ (random env2)). exact H.
Qed.

Lemma coupon_code_determines_timestamp_witness :
  now Sample.env0 <> now Sample2.env4
  /\ couponCode (new_booking Sample.env0 Sample.ann Sample.body0)
     <> couponCode (new_booking Sample2.env4 Sample.bob Sample.body0).
Proof.
  assert (H : now Sample.env0 <> now Sample2.env4) by discriminate.
  split; [exact H|].
  apply (coupon_code_determines_timestamp Sample.env0 Sample2.env4 Sample.ann
           Sample.bob Sample.body0 Sample.body0 H).
Defined.


(** X12: coupon codes stay unique. From a booking collection where no two
    bookings share a coupon code and every code is upper-case, the empty
    one in particular, every sequence of requests leads to a collection
    with the same two properties: the insert of the create route is
    refused when the code is held, and no other route writes the code. *)
Theorem coupon_codes_stay_unique trace s :
  coupons_unique (bookings s) ->
  coupons_uppercase (bookings s) ->
  coupons_unique (bookings (run trace s))
  /\ coupons_uppercase (bookings (run trace s)).
Proof. intros Hu Hc. apply run_coupons. split; assumption. Qed.

Lemma coupon_codes_stay_unique_witness :
  coupons_unique (bookings Sample.store0)
  /\ coupons_uppercase (bookings Sample.store0)
  /\ coupons_unique
       (bookings (run [ (Sample.env0, CreateBooking Sample.ann Sample.body0);
                        (Sample.env1, CreateBooking Sample.bob Sample.body0);
                        (Sample2.env4, CreateBooking Sample.bob Sample.body0) ]
                    Sample.store0)).
Proof.
  assert (Hu : coupons_unique (bookings Sample.store0)).
  { intros i j bi bj Hi. cbn in Hi. rewrite lookup_empty in Hi. discriminate. }
  assert (Hc : coupons_uppercase (bookings Sample.store0)).
  { intros i b Hi. cbn in Hi. rewrite lookup_empty in Hi. discriminate. }
  split; [exact Hu|]. split; [exact Hc|].
  apply (coupon_codes_stay_unique _ Sample.store0 Hu Hc).
Defined.


(** Four fraction digits *)

(** A multiple of 1/64 ([rnd] a multiple of [2^47]) has three fraction
    digits at most: there are 64 of them, and each is computed. *)
Lemma random_part_sixtyfourths rnd :
  (rnd < Js.scale)%N ->
  (rnd mod 2 ^ 47 = 0)%N ->
  (String.length (Js.substring (Js.numToString36 rnd) 2 6) <= 3)%nat.
Proof.
  intros Hlt Hz.
  assert (Hall : forallb
                   (fun k => (String.length
                                (Js.substring
                                   (Js.numToString36 (N.of_nat k * 2 ^ 47)) 2 6)
                              <=? 3)%nat)
                   (seq 0 64) = true)
    by (vm_compute; reflexivity).
  rewrite forallb_forall in Hall.
  pose proof (N.div_mod rnd (2 ^ 47) ltac:(discriminate)) as Hdm.
  rewrite Hz, N.add_0_r in Hdm.
  assert (Hk : (rnd / 2 ^ 47 < 64)%N).
  { apply N.Div0.div_lt_upper_bound. exact Hlt. }
  specialize (Hall (N.to_nat (rnd / 2 ^ 47))).
  rewrite N2Nat.id, N.mul_comm, <- Hdm in Hall.
  apply Nat.leb_le, Hall, in_seq. lia.
Qed.

(** X14: every generated code is [GIT-], the upper-case base-36 clock
    reading, a dash and at most four upper-case alphanumerics. When
    [Math.random()] is a multiple of 1/64 its base-36 form has three
    fraction digits at most, so the suffix is shorter than four
    characters and the code does not match
    [GIT-[A-Z0-9]+-[A-Z0-9]{4}]. *)
Theorem coupon_suffix_short_for_sixtyfourths now rnd :
  (rnd < Js.scale)%N ->
  matches_coupon 0 4 (generateCouponCode now rnd) = true
  /\ ((rnd mod 2 ^ 47 = 0)%N ->
      matches_coupon_pattern (generateCouponCode now rnd) = false).
Proof.
  intros Hlt.
  destruct (generateCouponCode_shape now rnd Hlt) as (_ & _ & _ & _ & _ & Hm & Hp).
  split; [exact Hm|]. intros Hz. rewrite Hp.
  apply Nat.leb_gt. pose proof (random_part_sixtyfourths rnd Hlt Hz). lia.
Qed.

Lemma coupon_suffix_short_for_sixtyfourths_witness :
  (3 * 2 ^ 47 < Js.scale)%N
  /\ generateCouponCode 1700000000000 (3 * 2 ^ 47) = "GIT-LOYW3V28-1OR"
  /\ matches_coupon_pattern (generateCouponCode 1700000000000 (3 * 2 ^ 47)) = false.
Proof.
  assert (H : (3 * 2 ^ 47 < Js.scale)%N) by reflexivity.
  split; [exact H|]. split; [vm_compute; reflexivity|].
  apply (proj2 (coupon_suffix_short_for_sixtyfourths 1700000000000 _ H)).
  reflexivity.
Defined.


(** ** Products *)

(** What one request does to the catalog. *)
Lemma handle_products env r s :
  products (snd (handle env r s)) = products s
  \/ (exists id p, products s !! id = Some p /\ isActive p = true
                   /\ products (snd (handle env r s))
                      = <[id := set_views (views p + 1) p]> (products s))
  \/ (exists id p, products s !! id = Some p
                   /\ products (snd (handle env r s))
                      = <[id := set_isActive false p]> (products s)).
Proof.
  destruct r; cbn [handle].
  - left. unfold createBooking. async. repeat (case_match; simplify_eq/=); done.
  - left. unfold getBooking. async. repeat (case_match; simplify_eq/=); done.
  - left. unfold cancelBooking. async. repeat (case_match; simplify_eq/=); done.
  - left. unfold completeBooking. async. repeat (case_match; simplify_eq/=); done.
  - left. unfold getBookingByCoupon. async. repeat (case_match; simplify_eq/=); done.
  - unfold getProduct. async.
    repeat (case_match; simplify_eq/=); try (by left).
    all: right; left; eexists _, _; split; [eassumption|];
      split; [|reflexivity];
      match goal with H : negb _ = false |- _ => apply negb_false_iff in H; exact H end.
  - unfold deleteProduct. async.
    repeat (case_match; simplify_eq/=); try (by left).
    all: right; right; eexists _, _; split; [eassumption|reflexivity].
Qed.

Lemma run_products trace s id p :
  products s !! id = Some p ->
  exists p', products (run trace s) !! id = Some p'
             /\ same_listing p p'
             /\ (views p <= views p')%Z
             /\ (isActive p = false -> p' = p).
Proof.
  revert s p. induction trace as [|[env r] trace IH]; intros s p Hp; cbn [run].
  - exists p. repeat split; auto. lia.
  - assert (Hstep : exists p1, products (snd (handle env r s)) !! id = Some p1
                               /\ same_listing p p1 /\ (views p <= views p1)%Z
                               /\ (isActive p = false -> p1 = p)).
    { destruct (handle_products env r s)
        as [->|[(id0 & p0 & H0 & Hact & ->)|(id0 & p0 & H0 & ->)]].
      - exists p. repeat split; auto. lia.
      - destruct (decide (id0 = id)) as [->|Hne].
        + rewrite lookup_insert_eq. assert (p0 = p) by congruence. subst p0.
          eexists. split; [reflexivity|]. repeat split; cbn; try lia. congruence.
        + rewrite lookup_insert_ne by done. exists p. repeat split; auto. lia.
      - destruct (decide (id0 = id)) as [->|Hne].
        + rewrite lookup_insert_eq. assert (p0 = p) by congruence. subst p0.
          eexists. split; [reflexivity|]. repeat split; cbn; try lia.
          intros Hf. destruct p; cbn in *; subst; reflexivity.
        + rewrite lookup_insert_ne by done. exists p. repeat split; auto. lia. }
    destruct Hstep as (p1 & Hp1 & (A1 & A2 & A3 & A4 & A5 & A6) & Hv1 & Hf1).
    destruct (IH _ _ Hp1) as (p2 & Hp2 & (B1 & B2 & B3 & B4 & B5 & B6) & Hv2 & Hf2).
    exists p2. split; [assumption|]. split; [|split].
    + repeat split; congruence.
    + lia.
    + intros Hf. specialize (Hf1 Hf). subst p1. auto.
Qed.

(** X18: over any sequence of the modelled requests a product is never
    removed, its name, category, availability, image lists and likes
    never change, and its view counter never decreases; once it is
    soft-deleted nothing changes any more: it stays inactive and its view
    counter stops. Bookings in particular never change the availability
    of a product. *)
Theorem product_survives_requests trace s id p :
  products s !! id = Some p ->
  exists p', products (run trace s) !! id = Some p'
             /\ same_listing p p'
             /\ (views p <= views p')%Z
             /\ (isActive p = false -> p' = p).
Proof. apply run_products. Qed.

Lemma product_survives_requests_witness :
  products Sample.store0 !! 1%N = Some Sample.laptop
  /\ exists p',
       products (run [ (Sample.env0, GetProduct 1);
                       (Sample.env0, CreateBooking Sample.ann Sample.body0);
                       (Sample.env0, DeleteProduct 1);
                       (Sample.env0, GetProduct 1) ] Sample.store0) !! 1%N = Some p'
       /\ availability p' = Available
       /\ (0 <= views p')%Z.
Proof.
  assert (Hp : products Sample.store0 !! 1%N = Some Sample.laptop)
    by (vm_compute; reflexivity).
  split; [exact Hp|].
  destruct (product_survives_requests
              [ (Sample.env0, GetProduct 1);
                (Sample.env0, CreateBooking Sample.ann Sample.body0);
                (Sample.env0, DeleteProduct 1);
                (Sample.env0, GetProduct 1) ] Sample.store0 1 Sample.laptop Hp)
    as (p' & Hp' & (_ & _ & Hav & _) & Hviews & _).
  exists p'. split; [exact Hp'|]. split; [rewrite Hav; reflexivity|exact Hviews].
Defined.


(** X15: after a delete answered 200 the product is still in the catalog,
    with [isActive = false], no booking is touched, and the public fetch
    of the product answers 404 "Product not available" without counting a
    view. *)
Theorem deleted_product_not_served envd env id s p :
  products s !! id = Some p ->
  statusCode (fst (deleteProduct envd id s)) = 200 ->
  resolves 0 (outcomes env) = true ->
  let s' := snd (deleteProduct envd id s) in
  products s' !! id = Some (set_isActive false p)
  /\ bookings s' = bookings s
  /\ getProduct env id s' = (json 404 "Product not available" NoPayload, s').
Proof.
  intros Hp H200 Hr0 s'.
  assert (Hs' : s' = set_products (<[id := set_isActive false p]> (products s)) s).
  { subst s'. revert H200. unfold deleteProduct. async.
    repeat (case_match; simplify_eq/=); try done.
    all: match goal with e : Error |- _ => destruct e; cbn; done end. }
  assert (Hp' : products s' !! id = Some (set_isActive false p)).
  { rewrite Hs'. cbn. apply lookup_insert_eq. }
  split; [exact Hp'|]. split; [rewrite Hs'; reflexivity|].
  unfold getProduct, resolves in *. async.
  destruct (outcomes env) as [|[e0|] outs]; cbn in *; try discriminate.
  all: rewrite Hp'; reflexivity.
Qed.

Lemma deleted_product_not_served_witness :
  products Sample.store0 !! 1%N = Some Sample.laptop
  /\ statusCode (fst (deleteProduct Sample.env0 1 Sample.store0)) = 200
  /\ getProduct Sample.env1 1 (snd (deleteProduct Sample.env0 1 Sample.store0))
     = (json 404 "Product not available" NoPayload,
        snd (deleteProduct Sample.env0 1 Sample.store0)).
Proof.
  assert (Hp : products Sample.store0 !! 1%N = Some Sample.laptop)
    by (vm_compute; reflexivity).
  assert (H200 : statusCode (fst (deleteProduct Sample.env0 1 Sample.store0)) = 200)
    by (vm_compute; reflexivity).
  split; [exact Hp|]. split; [exact H200|].
  apply (deleted_product_not_served Sample.env0 Sample.env1 1 Sample.store0
           Sample.laptop Hp H200 eq_refl).
Defined.


(** X16: the delete route awaits the deletion of the images before it
    writes the product. For a product with public ids, a rejection of the
    image storage is answered by the [catch] of the route and the product
    stays as it was, active included. For a product without public ids no
    storage call is made: the second awaited call is the save. *)
Theorem delete_waits_for_image_storage env id s p :
  products s !! id = Some p ->
  resolves 0 (outcomes env) = true ->
  (imagePublicIds p <> [] ->
   forall e, outcomes env !! 1%nat = Some (Some e) ->
   deleteProduct env id s = (product_catch "Server error while deleting product" e, s))
  /\ (imagePublicIds p = [] ->
      resolves 1 (outcomes env) = true ->
      deleteProduct env id s
      = (json 200 "Product deleted successfully" NoPayload,
         set_products (<[id := set_isActive false p]> (products s)) s)).
Proof.
  intros Hp Hr0. unfold deleteProduct, resolves in *. async. split.
  - intros Hids e He.
    destruct (outcomes env) as [|[e0|] [|[e1|] outs]]; cbn in *; try discriminate.
    injection He as ->. rewrite Hp. cbn.
    destruct (imagePublicIds p); [congruence|]. reflexivity.
  - intros Hids Hr1.
    destruct (outcomes env) as [|[e0|] [|[e1|] outs]]; cbn in *; try discriminate.
    all: rewrite Hp; cbn; rewrite Hids; reflexivity.
Qed.

Lemma delete_waits_for_image_storage_witness :
  products Sample.store0 !! 1%N = Some Sample.laptop
  /\ imagePublicIds Sample.laptop <> []
  /\ deleteProduct Sample.env2 1 Sample.store0
     = (json 500 "Server error while deleting product" NoPayload, Sample.store0).
Proof.
  assert (Hp : products Sample.store0 !! 1%N = Some Sample.laptop)
    by (vm_compute; reflexivity).
  assert (Hids : imagePublicIds Sample.laptop <> []) by discriminate.
  split; [exact Hp|]. split; [exact Hids|].
  apply (proj1 (delete_waits_for_image_storage Sample.env2 1 Sample.store0
                  Sample.laptop Hp eq_refl) Hids StoreError eq_refl).
Defined.


(** X17: deleting is idempotent on the store: after a delete answered
    200, another delete of the same product, whatever its calls answer,
    leaves the store as the first one left it. *)
Theorem deleteProduct_idempotent env1 env2 id s p :
  products s !! id = Some p ->
  statusCode (fst (deleteProduct env1 id s)) = 200 ->
  snd (deleteProduct env2 id (snd (deleteProduct env1 id s)))
  = snd (deleteProduct env1 id s).
Proof.
  intros Hp H200.
  assert (Hs' : snd (deleteProduct env1 id s)
                = set_products (<[id := set_isActive false p]> (products s)) s).
  { revert H200. unfold deleteProduct. async.
    repeat (case_match; simplify_eq/=); try done.
    all: match goal with e : Error |- _ => destruct e; cbn; done end. }
  rewrite Hs'. unfold deleteProduct. async. cbn.
  repeat (case_match; simplify_eq/=); try done.
  all: rewrite lookup_insert_eq in *; simplify_eq; cbn.
  all: rewrite insert_insert_eq; reflexivity.
Qed.

Lemma deleteProduct_idempotent_witness :
  products Sample.store0 !! 1%N = Some Sample.laptop
  /\ snd (deleteProduct Sample.env1 1 (snd (deleteProduct Sample.env0 1 Sample.store0)))
     = Sample.store3.
Proof.
  assert (Hp : products Sample.store0 !! 1%N = Some Sample.laptop)
    by (vm_compute; reflexivity).
  assert (H200 : statusCode (fst (deleteProduct Sample.env0 1 Sample.store0)) = 200)
    by (vm_compute; reflexivity).
  split; [exact Hp|].
  rewrite (deleteProduct_idempotent Sample.env0 Sample.env1 1 Sample.store0
             Sample.laptop Hp H200).
  vm_compute. reflexivity.
Defined.

(** ** The listing of bookings *)

Lemma listBookings_run env requester s :
  listBookings env requester s
  = (match outcomes env with
     | Some e :: _ => NotListed (json 500 "Failed to fetch bookings" (WithError e))
     | _ =>
         let docs := merge_sort newer_first
                       (List.filter (visible_to requester)
                          (snd <$> map_to_list (bookings s))) in
         Listed (length docs) docs
     end, s).
Proof.
  unfold listBookings, Booking_find, visible_to. async.
  destruct (bool_decide (role requester = admin)) eqn:Hadm; cbn.
  all: destruct (outcomes env) as [|[e|] outs]; cbn; try reflexivity.
Qed.

Lemma elem_of_values (m : gmap N Booking) b :
  In b (snd <$> map_to_list m) <-> exists id, m !! id = Some b.
Proof.
  rewrite <- list_elem_of_In, list_elem_of_fmap. split.
  - intros ([id b'] & -> & Hin). apply elem_of_map_to_list in Hin. eauto.
  - intros (id & Hb). exists (id, b). split; [reflexivity|].
    apply elem_of_map_to_list. exact Hb.
Qed.

(** X19: the listing route never changes the store. When its query goes
    through it lists, with their number as [count], exactly the stored
    bookings the requester may see, each once: all of them for an admin,
    the requester's own for anyone else. When the query rejects, the
    answer is the 500 of the route. *)
Theorem listBookings_shows_own_bookings env requester s :
  snd (listBookings env requester s) = s
  /\ (forall e, outcomes env !! 0%nat = Some (Some e) ->
      fst (listBookings env requester s)
      = NotListed (json 500 "Failed to fetch bookings" (WithError e)))
  /\ (resolves 0 (outcomes env) = true ->
      exists docs,
        fst (listBookings env requester s) = Listed (length docs) docs
        /\ docs ≡ₚ List.filter (visible_to requester)
                     (snd <$> map_to_list (bookings s))
        /\ (forall b, In b docs <->
                      (exists id, bookings s !! id = Some b)
                      /\ (role requester = admin \/ userId b = user_id requester))).
Proof.
  rewrite listBookings_run. split; [reflexivity|]. split.
  - intros e He. destruct (outcomes env) as [|[e0|] outs]; cbn in *; congruence.
  - intros Hr0. unfold resolves in Hr0.
    set (docs := merge_sort newer_first
                   (List.filter (visible_to requester)
                      (snd <$> map_to_list (bookings s)))).
    assert (Hperm : docs ≡ₚ List.filter (visible_to requester)
                              (snd <$> map_to_list (bookings s)))
      by apply merge_sort_Permutation.
    exists docs. split; [|split; [exact Hperm|]].
    + destruct (outcomes env) as [|[e0|] outs]; cbn in *; try discriminate; reflexivity.
    + intros b. rewrite <- list_elem_of_In, Hperm, list_elem_of_In.
      rewrite filter_In, elem_of_values. unfold visible_to.
      rewrite orb_true_iff, !bool_decide_eq_true. tauto.
Qed.

Lemma listBookings_shows_own_bookings_witness :
  exists docs,
    fst (listBookings Sample.env0 Sample.ann Sample2.store4)
    = Listed (length docs) docs
    /\ In Sample.booking0 docs
    /\ ~ In Sample2.booking1 docs.
Proof.
  destruct (listBookings_shows_own_bookings Sample.env0 Sample.ann Sample2.store4)
    as (_ & _ & Hlist).
  destruct (Hlist eq_refl) as (docs & Hdocs & _ & Hin).
  exists docs. split; [exact Hdocs|]. split.
  - apply Hin. split; [exists 100%N; vm_compute; reflexivity|right; reflexivity].
  - intros H. apply Hin in H as [_ [H|H]]; discriminate.
Defined.


(** X20: the bookings of a listing come newest first: a booking is never
    listed after one with an earlier [orderDate], and [count] is the
    length of the list. *)
Theorem listBookings_newest_first env requester s count docs :
  fst (listBookings env requester s) = Listed count docs ->
  count = length docs
  /\ StronglySorted newer_first docs
  /\ (forall i j a b,
        docs !! i = Some a -> docs !! j = Some b -> (i < j)%nat ->
        (orderDate b <= orderDate a)%N).
Proof.
  rewrite listBookings_run. cbn [fst].
  assert (Htrans : Transitive newer_first).
  { intros a b c. unfold newer_first. lia. }
  assert (Htotal : Total newer_first).
  { intros a b. unfold newer_first. lia. }
  intros H.
  assert (Hdocs : count = length docs /\ StronglySorted newer_first docs).
  { destruct (outcomes env) as [|[e0|] outs]; cbn in H; try discriminate.
    all: injection H as <- <-; split; [reflexivity|].
    all: apply (StronglySorted_merge_sort newer_first). }
  destruct Hdocs as [Hcount Hsorted]. split; [exact Hcount|]. split; [exact Hsorted|].
  clear H Hcount. induction Hsorted as [|x l Hl IH Hall]; intros i j a b Hi Hj Hij.
  - rewrite lookup_nil in Hi. discriminate.
  - destruct j as [|j]; [lia|]. cbn in Hj. destruct i as [|i].
    + cbn in Hi. injection Hi as ->.
      rewrite Forall_forall in Hall. apply Hall.
      eapply list_elem_of_lookup_2. exact Hj.
    + cbn in Hi. eapply IH; [exact Hi|exact Hj|lia].
Qed.

Lemma listBookings_newest_first_witness :
  fst (listBookings Sample.env0 Sample.root Sample2.store4)
  = Listed 2 [Sample2.booking1; Sample.booking0]
  /\ (orderDate Sample.booking0 <= orderDate Sample2.booking1)%N.
Proof.
  assert (H : fst (listBookings Sample.env0 Sample.root Sample2.store4)
              = Listed 2 [Sample2.booking1; Sample.booking0])
    by (vm_compute; reflexivity).
  split; [exact H|].
  destruct (listBookings_newest_first _ _ _ _ _ H) as (_ & _ & Horder).
  apply (Horder 0%nat 1%nat); [reflexivity|reflexivity|lia].
Defined.


(** X21: what the listing shows can be read: every booking in the list of
    a requester is stored under some id, and the read by that id answers
    200 with the same booking to the same requester (when the lookup goes
    through and the owner's user document exists). *)
Theorem listed_booking_readable env env' requester s count docs b :
  fst (listBookings env requester s) = Listed count docs ->
  In b docs ->
  exists id,
    bookings s !! id = Some b
    /\ (resolves 0 (outcomes env') = true ->
        is_Some (users s !! userId b) ->
        getBooking env' requester id s = (json 200 "" (WithBooking b), s)).
Proof.
  rewrite listBookings_run. cbn [fst]. intros H Hin.
  assert (Hvis : In b (List.filter (visible_to requester)
                         (snd <$> map_to_list (bookings s)))).
  { destruct (outcomes env) as [|[e0|] outs]; cbn in H; try discriminate.
    all: injection H as _ <-.
    all: apply list_elem_of_In; apply list_elem_of_In in Hin.
    all: rewrite merge_sort_Permutation in Hin; exact Hin. }
  apply filter_In in Hvis as [Hstored Hvis]. apply elem_of_values in Hstored as [id Hb].
  exists id. split; [exact Hb|]. intros Hr0 [owner Howner].
  unfold getBooking, resolves in *. async.
  destruct (outcomes env') as [|[e0|] outs]; cbn in *; try discriminate.
  all: rewrite Hb; cbn; rewrite Howner; cbn.
  all: unfold visible_to in Hvis.
  all: destruct (bool_decide (role requester = admin));
    destruct (bool_decide (userId b = user_id requester)); cbn in *;
    try discriminate; reflexivity.
Qed.

Lemma listed_booking_readable_witness :
  fst (listBookings Sample.env0 Sample.bob Sample2.store4)
  = Listed 1 [Sample2.booking1]
  /\ exists id,
       bookings Sample2.store4 !! id = Some Sample2.booking1
       /\ getBooking Sample.env1 Sample.bob id Sample2.store4
          = (json 200 "" (WithBooking Sample2.booking1), Sample2.store4).
Proof.
  assert (H : fst (listBookings Sample.env0 Sample.bob Sample2.store4)
              = Listed 1 [Sample2.booking1])
    by (vm_compute; reflexivity).
  split; [exact H|].
  destruct (listed_booking_readable Sample.env0 Sample.env1 Sample.bob
              Sample2.store4 1 [Sample2.booking1] Sample2.booking1 H
              (or_introl eq_refl)) as (id & Hb & Hread).
  exists id. split; [exact Hb|]. apply Hread; [reflexivity|].
  vm_compute. eexists. reflexivity.
Defined.


(** ** The image lists of an update *)

(** Filtering the paths by the public id at the same index is filtering
    the pairs. *)
Lemma kept_pairs (f : string -> bool) pre ids imgs :
  length imgs = length ids ->
  let kept :=
    filter_indexed
      (fun (_ : string) index =>
         match nth_error (pre ++ ids)%list index with
         | Some id => f id
         | None => false
         end) (length pre) imgs in
  length kept = length (List.filter f ids)
  /\ combine kept (List.filter f ids)
     = List.filter (fun pr => f (snd pr)) (combine imgs ids).
Proof.
  revert pre imgs. induction ids as [|id ids IH]; intros pre [|img imgs] Hlen;
    cbn in Hlen; try discriminate; [split; reflexivity|].
  injection Hlen as Hlen. cbn zeta.
  cbn [filter_indexed List.filter combine snd].
  assert (Hnth : nth_error (pre ++ id :: ids)%list (length pre) = Some id).
  { rewrite nth_error_app2 by lia. rewrite Nat.sub_diag. reflexivity. }
  rewrite Hnth.
  specialize (IH (pre ++ [id])%list imgs Hlen). cbn zeta in IH.
  rewrite <- app_assoc in IH. cbn [app] in IH.
  replace (length (pre ++ [id])%list) with (S (length pre)) in IH
    by (rewrite length_app; cbn; lia).
  destruct IH as [IHlen IHpairs].
  destruct (f id); cbn [length combine]; split; congruence.
Qed.

Lemma kept_all (f : string -> bool) pre ids imgs :
  length imgs = length ids ->
  (forall id, In id ids -> f id = true) ->
  filter_indexed
    (fun (_ : string) index =>
       match nth_error (pre ++ ids)%list index with
       | Some id => f id
       | None => false
       end) (length pre) imgs = imgs.
Proof.
  revert pre imgs. induction ids as [|id ids IH]; intros pre [|img imgs] Hlen Hall;
    cbn in Hlen; try discriminate; [reflexivity|].
  injection Hlen as Hlen. cbn [filter_indexed].
  assert (Hnth : nth_error (pre ++ id :: ids)%list (length pre) = Some id).
  { rewrite nth_error_app2 by lia. rewrite Nat.sub_diag. reflexivity. }
  rewrite Hnth, (Hall id) by (left; reflexivity). f_equal.
  specialize (IH (pre ++ [id])%list imgs Hlen).
  rewrite <- app_assoc in IH. cbn [app] in IH.
  replace (length (pre ++ [id])%list) with (S (length pre)) in IH
    by (rewrite length_app; cbn; lia).
  apply IH. intros x Hx. apply Hall. right. exact Hx.
Qed.

Lemma combine_app_same {A B} (a b : list A) (c d : list B) :
  length a = length c ->
  combine (a ++ b) (c ++ d) = (combine a c ++ combine b d)%list.
Proof.
  revert c. induction a as [|x a IH]; intros [|y c] Hlen; cbn in Hlen;
    try discriminate; [reflexivity|].
  cbn. f_equal. apply IH. lia.
Qed.

(** X22: an update keeps every image path with its public id. For a
    product whose two lists have the same length, the lists the update
    writes have the same length again, and read in pairs they are the
    pairs of the product whose public id the caller keeps, in their
    order, followed by the pairs of the new files. *)
Theorem reconcile_keeps_pairs product keep files :
  length (images product) = length (imagePublicIds product) ->
  let u := reconcile_images product keep files in
  length (new_images u) = length (new_imagePublicIds u)
  /\ combine (new_images u) (new_imagePublicIds u)
     = (List.filter (fun pr => includes keep (snd pr))
          (combine (images product) (imagePublicIds product))
        ++ List.map (fun f => (file_path f, file_filename f)) files)%list.
Proof.
  intros Hlen u. subst u. unfold reconcile_images. cbn [new_images new_imagePublicIds].
  destruct (kept_pairs (fun id => includes keep id) []
              (imagePublicIds product) (images product) Hlen) as [Hk Hpairs].
  cbn beta iota delta [app length] in Hk, Hpairs. split.
  - rewrite !length_app, !length_map, Hk. reflexivity.
  - rewrite combine_app_same by exact Hk. rewrite Hpairs. f_equal.
    clear. induction files as [|f files IH]; cbn; [reflexivity|]. now rewrite IH.
Qed.

Lemma reconcile_keeps_pairs_witness :
  length (images Sample.laptop) = length (imagePublicIds Sample.laptop)
  /\ combine (new_images (reconcile_images Sample.laptop ["img-2"; "img-7"] Sample2.files2))
       (new_imagePublicIds (reconcile_images Sample.laptop ["img-2"; "img-7"] Sample2.files2))
     = [("laptop-back.jpg", "img-2"); ("laptop-side.jpg", "img-9")].
Proof.
  assert (H : length (images Sample.laptop) = length (imagePublicIds Sample.laptop))
    by reflexivity.
  split; [exact H|].
  rewrite (proj2 (reconcile_keeps_pairs Sample.laptop ["img-2"; "img-7"]
                    Sample2.files2 H)).
  reflexivity.
Defined.


(** X23: an update sorts the public ids of the product in two: the ones
    it deletes from the image storage are the ones of the product that
    the caller does not keep, the ones it writes are the ones of the
    product that the caller keeps and the ones of the new files. A public
    id the caller lists but the product does not have is not written, and
    none of the product's ids is lost: written and deleted together are
    as many as the product's ids and the new files. *)
Theorem reconcile_partitions_public_ids product keep files :
  let u := reconcile_images product keep files in
  (forall id, In id (publicIdsToDelete u)
              <-> In id (imagePublicIds product) /\ ~ In id keep)
  /\ (forall id, In id (new_imagePublicIds u)
                 <-> (In id (imagePublicIds product) /\ In id keep)
                     \/ In id (List.map file_filename files))
  /\ (length (new_imagePublicIds u) + length (publicIdsToDelete u)
      = length (imagePublicIds product) + length files)%nat.
Proof.
  intros u. subst u. unfold reconcile_images.
  cbn [new_imagePublicIds publicIdsToDelete]. split; [|split].
  - intros id. rewrite filter_In, negb_true_iff, <- not_true_iff_false, includes_In.
    reflexivity.
  - intros id. rewrite in_app_iff, filter_In, includes_In. reflexivity.
  - rewrite length_app, length_map.
    pose proof (List.filter_length (fun id => includes keep id)
                  (imagePublicIds product)) as H.
    cbn beta in H. lia.
Qed.

(** X24: the number of images an update writes is the number of public
    ids of the product it keeps plus the number of new files, and the
    test of the route accepts it exactly between 2 and 5. Keeping every
    public id and sending no file writes the lists of the product back
    and deletes nothing. *)
Theorem reconcile_counts_images product keep files :
  length (images product) = length (imagePublicIds product) ->
  let u := reconcile_images product keep files in
  (length (new_images u)
   = length (List.filter (includes keep) (imagePublicIds product)) + length files)%nat
  /\ (image_count_error (length (new_images u)) = None
      <-> (2 <= length (new_images u) <= 5)%nat)
  /\ ((forall id, In id (imagePublicIds product) -> In id keep) ->
      files = [] ->
      new_images u = images product
      /\ new_imagePublicIds u = imagePublicIds product
      /\ publicIdsToDelete u = []).
Proof.
  intros Hlen u.
  change (List.filter (includes keep) (imagePublicIds product))
    with (List.filter (fun id => includes keep id) (imagePublicIds product)).
  destruct (kept_pairs (fun id => includes keep id) []
              (imagePublicIds product) (images product) Hlen) as [Hk Hpairs].
  cbn beta iota delta [app length] in Hk, Hpairs.
  split; [|split].
  - subst u. unfold reconcile_images. cbn [new_images].
    rewrite length_app, length_map, Hk. reflexivity.
  - unfold image_count_error.
    destruct (Nat.ltb_spec (length (new_images u)) 2);
      [split; [discriminate|lia]|].
    destruct (Nat.ltb_spec 5 (length (new_images u)));
      [split; [discriminate|lia]|].
    split; [lia|reflexivity].
  - intros Hall ->.
    assert (Hids : List.filter (fun id => includes keep id) (imagePublicIds product)
                   = imagePublicIds product).
    { clear -Hall. induction (imagePublicIds product) as [|id ids IH]; [reflexivity|].
      cbn. rewrite (proj2 (includes_In keep id)) by (apply Hall; left; reflexivity).
      f_equal. apply IH. intros x Hx. apply Hall. right. exact Hx. }
    assert (Hdel : List.filter (fun id => negb (includes keep id)) (imagePublicIds product)
                   = []).
    { clear -Hall. induction (imagePublicIds product) as [|id ids IH]; [reflexivity|].
      cbn. rewrite (proj2 (includes_In keep id)) by (apply Hall; left; reflexivity).
      cbn. apply IH. intros x Hx. apply Hall. right. exact Hx. }
    subst u. unfold reconcile_images.
    cbn [new_images new_imagePublicIds publicIdsToDelete List.map].
    rewrite !app_nil_r, Hids, Hdel. repeat split.
    apply (kept_all (fun id => includes keep id) [] _ _ Hlen).
    intros id Hid. apply includes_In, Hall, Hid.
Qed.

Lemma reconcile_counts_images_witness :
  length (images Sample.laptop) = length (imagePublicIds Sample.laptop)
  /\ new_images (reconcile_images Sample.laptop ["img-2"; "img-1"] [])
     = images Sample.laptop
  /\ publicIdsToDelete (reconcile_images Sample.laptop ["img-2"; "img-1"] []) = [].
Proof.
  assert (H : length (images Sample.laptop) = length (imagePublicIds Sample.laptop))
    by reflexivity.
  split; [exact H|].
  destruct (reconcile_counts_images Sample.laptop ["img-2"; "img-1"] [] H)
    as (_ & _ & Hid).
  destruct Hid as (Himgs & _ & Hdel); [|reflexivity|split; assumption].
  intros id [<-|[<-|[]]]; cbn; auto.
Defined.


(** ** Pagination *)

Lemma ceil_div_spec total limit :
  (0 < limit)%N ->
  forall page, (page < ceil_div total limit)%N <-> (page * limit < total)%N.
Proof.
  intros Hl page. unfold ceil_div.
  pose proof (N.div_mod (total + limit - 1) limit ltac:(lia)) as Hdm.
  pose proof (N.mod_lt (total + limit - 1) limit ltac:(lia)) as Hmod.
  set (q := ((total + limit - 1) / limit)%N) in *.
  set (r := ((total + limit - 1) mod limit)%N) in *.
  split; intros H; nia.
Qed.

Lemma page_skip_nat page limit :
  (1 <= page)%N ->
  N.to_nat (page_skip page limit) = ((N.to_nat page - 1) * N.to_nat limit)%nat.
Proof. intros H. unfold page_skip. lia. Qed.

Lemma pages_take {A} (L : nat) (l : list A) k :
  concat (List.map (fun p => take L (drop ((p - 1) * L) l)) (seq 1 k))
  = take (k * L) l.
Proof.
  induction k as [|k IH]; [reflexivity|].
  rewrite seq_S, map_app, concat_app, IH. cbn [List.map concat Nat.add].
  rewrite app_nil_r. replace (S k - 1)%nat with k by lia.
  replace (S k * L)%nat with (k * L + L)%nat by lia.
  apply take_take_drop.
Qed.

(** X25: the pages of a listing cover it: for a limit of 1 or more, the
    pages 1 to [totalPages], one after the other, are the matching
    documents in their order, none missing and none twice, and no page
    has more documents than the limit. *)
Theorem pages_cover_matching {A} (limit : N) (matching : list A) :
  (0 < limit)%N ->
  let total := N.of_nat (length matching) in
  concat (List.map (fun p => page_of (N.of_nat p) limit matching)
            (seq 1 (N.to_nat (totalPages (pagination 1 limit total)))))
  = matching
  /\ (forall page, (1 <= page)%N ->
        (length (page_of page limit matching) <= N.to_nat limit)%nat).
Proof.
  intros Hl total. split.
  - cbn [totalPages pagination].
    rewrite (map_ext_in _ (fun p => take (N.to_nat limit)
                                      (drop ((p - 1) * N.to_nat limit) matching))).
    + rewrite pages_take. apply take_ge.
      assert (H : ~ (ceil_div total limit < ceil_div total limit)%N) by lia.
      rewrite (ceil_div_spec total limit Hl) in H. subst total. nia.
    + intros p Hp. apply in_seq in Hp. unfold page_of.
      rewrite page_skip_nat by lia. repeat f_equal. lia.
  - intros page Hp. unfold page_of. rewrite length_take. lia.
Qed.

Lemma pages_cover_matching_witness :
  (0 < 2)%N
  /\ concat (List.map (fun p => page_of (N.of_nat p) 2 ["a"; "b"; "c"; "d"; "e"])
               (seq 1 3))
     = ["a"; "b"; "c"; "d"; "e"].
Proof.
  assert (H : (0 < 2)%N) by reflexivity.
  split; [exact H|].
  apply (proj1 (pages_cover_matching 2 ["a"; "b"; "c"; "d"; "e"] H)).
Defined.


(** X26: the pagination block of the answer, for a page and a limit of 1
    or more and [total] the number of matching documents. The page has
    the limit's number of documents or what is left after the skipped
    ones; it has documents exactly when its number is at most
    [totalPages]; [hasNextPage] holds exactly when the next page has
    documents, [hasPrevPage] exactly when the page is not the first. With
    no matching document [totalPages] is 0, below the current page. *)
Theorem pagination_flags {A} (page limit : N) (matching : list A) :
  (1 <= page)%N ->
  (0 < limit)%N ->
  let total := N.of_nat (length matching) in
  let info := pagination page limit total in
  length (page_of page limit matching)
  = Nat.min (N.to_nat limit) (length matching - N.to_nat (page_skip page limit))
  /\ (page_of page limit matching <> [] <-> (page <= totalPages info)%N)
  /\ (hasNextPage info = true <-> page_of (page + 1) limit matching <> [])
  /\ (hasPrevPage info = true <-> (1 < page)%N)
  /\ (matching = [] -> totalPages info = 0%N /\ hasNextPage info = false).
Proof.
  intros Hp Hl total info.
  assert (Hlen : forall q, (1 <= q)%N ->
            length (page_of q limit matching)
            = Nat.min (N.to_nat limit)
                (length matching - N.to_nat (page_skip q limit))).
  { intros q Hq. unfold page_of. rewrite length_take, length_drop. reflexivity. }
  assert (Hne : forall q, (1 <= q)%N ->
            (page_of q limit matching <> [] <-> ((q - 1) * limit < total)%N)).
  { intros q Hq. rewrite <- length_zero_iff_nil, (Hlen q Hq).
    unfold page_skip. subst total. split; intros H; nia. }
  split; [apply Hlen, Hp|]. split; [|split; [|split]].
  - rewrite (Hne page Hp). subst info. cbn [totalPages pagination].
    rewrite <- (ceil_div_spec total limit Hl). lia.
  - subst info. cbn [hasNextPage pagination].
    rewrite N.ltb_lt, (ceil_div_spec total limit Hl), (Hne (page + 1)%N) by lia.
    replace (page + 1 - 1)%N with page by lia. reflexivity.
  - subst info. cbn [hasPrevPage pagination]. apply N.ltb_lt.
  - intros ->. subst info total. cbn [totalPages hasNextPage pagination length].
    assert (H0 : ceil_div (N.of_nat 0) limit = 0%N).
    { assert (H : ~ (0 < ceil_div (N.of_nat 0) limit)%N).
      { rewrite (ceil_div_spec _ limit Hl). lia. }
      lia. }
    rewrite H0. split; [reflexivity|]. apply N.ltb_ge. lia.
Qed.

Lemma pagination_flags_witness :
  (1 <= 2)%N /\ (0 < 2)%N
  /\ page_of 2 2 ["a"; "b"; "c"; "d"; "e"] = ["c"; "d"]
  /\ hasNextPage (pagination 2 2 5) = true
  /\ page_of 3 2 ["a"; "b"; "c"; "d"; "e"] <> [].
Proof.
  assert (H1 : (1 <= 2)%N) by discriminate.
  assert (H2 : (0 < 2)%N) by reflexivity.
  split; [exact H1|]. split; [exact H2|]. split; [reflexivity|].
  destruct (pagination_flags 2 2 ["a"; "b"; "c"; "d"; "e"] H1 H2)
    as (_ & _ & Hnext & _).
  split; [reflexivity|]. apply Hnext. reflexivity.
Defined.

(** ** Catalog statistics *)

Lemma statsOverview_run env s :
  resolves 0 (outcomes env) = true ->
  resolves 1 (outcomes env) = true ->
  Stats.statsOverview env s = (Stats.Stats (Stats.totals (products s)), s).
Proof.
  intros Hr0 Hr1. unfold Stats.statsOverview, Stats.Product_aggregate_overview,
    Stats.Product_aggregate_categories, Stats.totals, Stats.group_all, resolves in *.
  async.
  destruct (outcomes env) as [|[e0|] [|[e1|] outs]]; cbn in *; try discriminate.
  all: destruct (map_to_list (products s)); reflexivity.
Qed.

Lemma sum_over_cons expr p l :
  Stats.sum_over expr (p :: l) = (expr p + Stats.sum_over expr l)%Z.
Proof. reflexivity. Qed.

Lemma sum_over_perm expr l l' :
  l ≡ₚ l' -> Stats.sum_over expr l = Stats.sum_over expr l'.
Proof.
  induction 1 as [|x l l' _ IH|x y l|l l' l'' _ IH1 _ IH2];
    rewrite ?sum_over_cons; lia.
Qed.

Lemma sum_over_insert expr (m : gmap N Product) id p p' :
  m !! id = Some p ->
  Stats.sum_over expr (snd <$> map_to_list (<[id := p']> m))
  = (Stats.sum_over expr (snd <$> map_to_list m) - expr p + expr p')%Z.
Proof.
  intros Hp.
  rewrite <- (insert_delete_eq m id p') .
  rewrite <- (insert_delete_id m id p Hp) at 2.
  rewrite (sum_over_perm expr _ _
             (fmap_Permutation snd _ _
                (map_to_list_insert (delete id m) id p' (lookup_delete_eq m id)))).
  rewrite (sum_over_perm expr (snd <$> map_to_list (<[id:=p]> (delete id m))) _
             (fmap_Permutation snd _ _
                (map_to_list_insert (delete id m) id p (lookup_delete_eq m id)))).
  rewrite !fmap_cons, !sum_over_cons. cbn [snd]. lia.
Qed.

Lemma sum_over_bounds expr lo hi l :
  (forall p, lo <= expr p <= hi)%Z ->
  (lo * Z.of_nat (length l) <= Stats.sum_over expr l <= hi * Z.of_nat (length l))%Z.
Proof.
  intros H. induction l as [|p l IH]; [cbn; lia|].
  rewrite sum_over_cons. cbn [length]. specialize (H p). lia.
Qed.

(** X27: the statistics route never changes the store. When its two
    aggregates go through, [totalProducts] is the number of products in
    the catalog, soft-deleted ones included, [activeProducts] lies
    between 0 and [totalProducts], and for an empty catalog, where the
    aggregate has no group, the four numbers are 0. *)
Theorem stats_count_the_catalog env s :
  resolves 0 (outcomes env) = true ->
  resolves 1 (outcomes env) = true ->
  exists o,
    Stats.statsOverview env s = (Stats.Stats o, s)
    /\ Stats.totalProducts o = Z.of_nat (size (products s))
    /\ (0 <= Stats.activeProducts o <= Stats.totalProducts o)%Z
    /\ (products s = ∅ ->
        o = {| Stats.totalProducts := 0; Stats.activeProducts := 0;
               Stats.totalViews := 0; Stats.totalLikes := 0 |}).
Proof.
  intros Hr0 Hr1. exists (Stats.totals (products s)).
  split; [apply statsOverview_run; assumption|].
  assert (Hcount : Stats.totalProducts (Stats.totals (products s))
                   = Z.of_nat (size (products s))).
  { unfold Stats.totals. cbn [Stats.totalProducts].
    pose proof (sum_over_bounds (fun _ => 1%Z) 1 1 (snd <$> map_to_list (products s))
                  ltac:(intros; lia)) as H.
    rewrite length_fmap, length_map_to_list in H.
    destruct H as [H1 H2]. rewrite Z.mul_1_l in H1, H2.
    apply Z.le_antisymm; assumption. }
  split; [exact Hcount|]. split.
  - rewrite Hcount. unfold Stats.totals. cbn [Stats.activeProducts].
    pose proof (sum_over_bounds (fun p => if isActive p then 1%Z else 0%Z) 0 1
                  (snd <$> map_to_list (products s))
                  ltac:(intros p; cbn beta; destruct (isActive p); lia)) as H.
    rewrite length_fmap, length_map_to_list in H.
    destruct H as [H1 H2]. rewrite Z.mul_0_l in H1. rewrite Z.mul_1_l in H2.
    split; assumption.
  - intros ->. unfold Stats.totals. rewrite map_to_list_empty. reflexivity.
Qed.

Lemma stats_count_the_catalog_witness :
  exists o,
    Stats.statsOverview Sample.env0 Sample.store3 = (Stats.Stats o, Sample.store3)
    /\ Stats.totalProducts o = 2%Z
    /\ (0 <= Stats.activeProducts o <= 2)%Z.
Proof.
  destruct (stats_count_the_catalog Sample.env0 Sample.store3 eq_refl eq_refl)
    as (o & Hrun & Hcount & Hactive & _).
  assert (Hsize : Z.of_nat (size (products Sample.store3)) = 2%Z)
    by (vm_compute; reflexivity).
  exists o. split; [exact Hrun|]. rewrite Hcount in Hactive. rewrite Hsize in *.
  split; [exact Hcount|exact Hactive].
Defined.


(** X28: how the statistics follow the product routes. A delete answered
    200 on an active product lowers [activeProducts] by one and leaves
    [totalProducts], [totalViews] and [totalLikes]: a soft-deleted
    product still counts, with its views. A public fetch answered 200
    raises [totalViews] by one and leaves the three other numbers. *)
Theorem stats_follow_delete_and_fetch env id s p :
  products s !! id = Some p ->
  isActive p = true ->
  let before := Stats.totals (products s) in
  (statusCode (fst (deleteProduct env id s)) = 200 ->
   Stats.totals (products (snd (deleteProduct env id s)))
   = {| Stats.totalProducts := Stats.totalProducts before;
        Stats.activeProducts := Stats.activeProducts before - 1;
        Stats.totalViews := Stats.totalViews before;
        Stats.totalLikes := Stats.totalLikes before |})
  /\ (statusCode (fst (getProduct env id s)) = 200 ->
      Stats.totals (products (snd (getProduct env id s)))
      = {| Stats.totalProducts := Stats.totalProducts before;
           Stats.activeProducts := Stats.activeProducts before;
           Stats.totalViews := Stats.totalViews before + 1;
           Stats.totalLikes := Stats.totalLikes before |}).
Proof.
  intros Hp Hact before. subst before. split.
  - intros H200.
    assert (Hs' : products (snd (deleteProduct env id s))
                  = <[id := set_isActive false p]> (products s)).
    { revert H200. unfold deleteProduct. async.
      repeat (case_match; simplify_eq/=); try done.
      all: match goal with e : Error |- _ => destruct e; cbn; done end. }
    rewrite Hs'. unfold Stats.totals. cbn zeta.
    rewrite !(sum_over_insert _ _ id p _ Hp). cbn. rewrite Hact. f_equal; lia.
  - intros H200.
    assert (Hs' : products (snd (getProduct env id s))
                  = <[id := set_views (views p + 1) p]> (products s)).
    { revert H200. unfold getProduct. async.
      repeat (case_match; simplify_eq/=); try done.
      all: match goal with e : Error |- _ => destruct e; cbn; done end. }
    rewrite Hs'. unfold Stats.totals. cbn zeta.
    rewrite !(sum_over_insert _ _ id p _ Hp). cbn. f_equal; lia.
Qed.

Lemma stats_follow_delete_and_fetch_witness :
  products Sample.store0 !! 1%N = Some Sample.laptop
  /\ isActive Sample.laptop = true
  /\ Stats.totals (products (snd (getProduct Sample.env0 1 Sample.store0)))
     = {| Stats.totalProducts := 2; Stats.activeProducts := 2;
          Stats.totalViews := 4; Stats.totalLikes := 0 |}.
Proof.
  assert (Hp : products Sample.store0 !! 1%N = Some Sample.laptop)
    by (vm_compute; reflexivity).
  split; [exact Hp|]. split; [reflexivity|].
  destruct (stats_follow_delete_and_fetch Sample.env0 1 Sample.store0 Sample.laptop
              Hp eq_refl) as (_ & Hfetch).
  rewrite Hfetch by (vm_compute; reflexivity). vm_compute. reflexivity.
Defined.


(** ** The counter methods of the Product model *)

(** X29: [incrementViews] writes the product with one view more, which is
    what the [$inc] of the public fetch writes for the stored product.
    [toggleLike] adds a like every time it is called: called twice it
    leaves two likes more, it never takes one back. When the save
    rejects, nothing is written. *)
Theorem counter_methods_add_one id p s outs :
  incrementViews id p (s, None :: outs)
  = (Ok (set_views (views p + 1) p),
     (set_products (<[id := set_views (views p + 1) p]> (products s)) s, outs))
  /\ (products s !! id = Some p ->
      Product_incViews id (s, None :: outs)
      = (Ok tt, (set_products (<[id := set_views (views p + 1) p]> (products s)) s, outs)))
  /\ (forall p1 w1,
        toggleLike id p (s, None :: None :: outs) = (Ok p1, w1) ->
        exists p2 w2,
          toggleLike id p1 w1 = (Ok p2, w2)
          /\ likes p2 = (likes p + 2)%Z
          /\ products (fst w2) !! id = Some p2)
  /\ (forall e, toggleLike id p (s, Some e :: outs) = (Throw e, (s, outs))).
Proof.
  unfold incrementViews, toggleLike, Product_incViews, Product_save. async.
  split; [reflexivity|]. split; [intros ->; reflexivity|]. split.
  - intros p1 w1 H. cbn in H. injection H as <- <-. cbn.
    eexists _, _. split; [reflexivity|]. split; [cbn; lia|].
    cbn. apply lookup_insert_eq.
  - intros e. reflexivity.
Qed.
